(** * ToVoteOrNotToVote: a shallow embedding of the drift-diffusion voter
      model and of the survey-analysis helpers

    The Python sources are embedded function by function.  Conventions:

    - a Python [float] is an exact rational ([Q]); rounding, infinities and
      NaN of IEEE arithmetic are outside the model.  A missing survey value
      (pandas NaN) is an explicit constructor of the cell type;
    - a Python [dict] with string keys is a [gmap string _]; a JSON document
      is the inductive [json], its objects being association lists in
      insertion order;
    - a raised exception is the left summand of [result];
    - the calls into numpy/scipy whose values are not computed here
      ([np.exp], [np.random.*], [stats.pearsonr]) are section variables. *)

From Stdlib Require Import QArith Qabs Qround Lqa Lia ZArith String Ascii List.
From stdpp Require Import gmap strings list.

Local Open Scope string_scope.
Set Warnings "-register-all".

(* ===================================================================== *)
(** ** Python prelude *)
(* ===================================================================== *)

Module Py.

Inductive exn : Type :=
| ValueError (msg : string)
| KeyError (key : string)
| TypeError (msg : string)
| AttributeError (msg : string)
| ZeroDivisionError.

Definition result (A : Type) : Type := (exn + A)%type.

Definition ok {A : Type} (a : A) : result A := inr a.
Definition raise {A : Type} (e : exn) : result A := inl e.

Definition bind {A B : Type} (m : result A) (k : A -> result B) : result B :=
  match m with
  | inl e => inl e
  | inr a => k a
  end.

Definition is_ok {A : Type} (m : result A) : bool :=
  match m with inr _ => true | inl _ => false end.

(** [a < b] on floats. *)
Definition Qltb (a b : Q) : bool := negb (Qle_bool b a).

(** [a / b]: Python raises on a zero divisor. *)
Definition truediv (a b : Q) : result Q :=
  if Qeq_bool b 0 then raise ZeroDivisionError else ok (a / b)%Q.

(** [max(a, b)] of the builtins: the first argument is kept unless the
    second one is strictly greater. *)
Definition py_max (a b : Q) : Q := if Qltb a b then b else a.

(** [np.clip(x, lo, hi)], that is [minimum(maximum(x, lo), hi)]. *)
Definition np_maximum (x y : Q) : Q := if Qltb x y then y else x.
Definition np_minimum (x y : Q) : Q := if Qltb y x then y else x.
Definition np_clip (x lo hi : Q) : Q := np_minimum (np_maximum x lo) hi.

(** [d[k]] and [d.get(k, default)] on a dict of floats. *)
Definition getitem (d : gmap string Q) (k : string) : result Q :=
  match d !! k with
  | Some v => ok v
  | None => raise (KeyError k)
  end.

Definition get_default (d : gmap string Q) (k : string) (dflt : Q) : Q :=
  match d !! k with
  | Some v => v
  | None => dflt
  end.

(** [repr] of a list of strings, as an f-string prints it. *)
Fixpoint repr_items (l : list string) : string :=
  match l with
  | [] => ""
  | [s] => "'" ++ s ++ "'"
  | s :: rest => "'" ++ s ++ "', " ++ repr_items rest
  end.

Definition repr_list (l : list string) : string := "[" ++ repr_items l ++ "]".

(** [needle in haystack] on strings. *)
Fixpoint contains (needle haystack : string) : bool :=
  if String.prefix needle haystack then true
  else match haystack with
       | EmptyString => false
       | String _ rest => contains needle rest
       end.

(** [str(i)] for a non-negative integer. *)
Definition digit_of (n : nat) : ascii := ascii_of_nat (48 + n).

Fixpoint str_of_nat_fuel (fuel n : nat) (acc : string) : string :=
  match fuel with
  | O => acc
  | S fuel' =>
      let acc' := String (digit_of (n mod 10)) acc in
      if (n / 10 =? 0)%nat then acc' else str_of_nat_fuel fuel' (n / 10) acc'
  end.

Definition str_of_nat (n : nat) : string := str_of_nat_fuel (S n) n "".

End Py.

Import Py.

Notation "'let*' x ':=' m 'in' k" := (Py.bind m (fun x => k))
  (at level 10, x name, m at level 100, k at level 200).

(* ===================================================================== *)
(** ** ddm_model.py *)
(* ===================================================================== *)

Module DDM.

Local Open Scope Q_scope.

(** [@dataclass DDMParameters] *)
Record DDMParameters : Type := mkParams {
  beta_D : Q; beta_PI : Q; beta_IS : Q; beta_S : Q; beta_H : Q;
  beta_C : Q; beta_EC : Q; beta_OC : Q;
  drift_rate_base : Q; threshold_base : Q; sigma_base : Q;
  gamma_risk : Q; gamma_edu : Q; gamma_OC : Q;
  alpha_H : Q; alpha_PI : Q; alpha_D : Q;
  nu_edu : Q; nu_OC : Q
}.

Definition default_params : DDMParameters := {|
  beta_D := 0.15; beta_PI := 0.12; beta_IS := 0.10; beta_S := 0.20;
  beta_H := 0.18; beta_C := -0.14; beta_EC := 0.08; beta_OC := 0.05;
  drift_rate_base := 0.1; threshold_base := 2.0; sigma_base := 0.2;
  gamma_risk := 0.4; gamma_edu := 0.3; gamma_OC := 0.2;
  alpha_H := 0.25; alpha_PI := 0.10; alpha_D := 0.10;
  nu_edu := 0.3; nu_OC := 0.15
|}.

(** [class DDMVoter]: the attributes set by [__init__]. *)
Record DDMVoter : Type := mkVoter {
  voter_id : string;
  features : gmap string Q;
  params : DDMParameters;
  mu : Q;
  a : Q;
  z : Q;
  sigma : Q;
  last_decision : option bool;
  last_decision_time : option Q
}.

Definition set_mu (v : DDMVoter) (x : Q) : DDMVoter :=
  mkVoter (voter_id v) (features v) (params v) x (a v) (z v) (sigma v)
          (last_decision v) (last_decision_time v).
Definition set_a (v : DDMVoter) (x : Q) : DDMVoter :=
  mkVoter (voter_id v) (features v) (params v) (mu v) x (z v) (sigma v)
          (last_decision v) (last_decision_time v).
Definition set_z (v : DDMVoter) (x : Q) : DDMVoter :=
  mkVoter (voter_id v) (features v) (params v) (mu v) (a v) x (sigma v)
          (last_decision v) (last_decision_time v).
Definition set_sigma (v : DDMVoter) (x : Q) : DDMVoter :=
  mkVoter (voter_id v) (features v) (params v) (mu v) (a v) (z v) x
          (last_decision v) (last_decision_time v).

Definition required : list string :=
  [ "civic_duty"; "habit_strength"; "social_pressure_sensitivity";
    "risk_aversion"; "education_normalized"; "overconfidence";
    "voting_cost_total"; "electoral_competitiveness" ].

(** [_validate_features]: the range check only warns, so it does not
    contribute to the result. *)
Definition _validate_features (f : gmap string Q) : result unit :=
  let missing := List.filter (fun k => negb (bool_decide (is_Some (f !! k)))) required in
  match missing with
  | [] => ok tt
  | _ => raise (ValueError ("Missing required features: " ++ repr_list missing))
  end.

Definition _compute_drift_rate (f : gmap string Q) (p : DDMParameters) : result Q :=
  let partisan_id := get_default f "partisan_identity_strength" 0.5 in
  let issue_salience := get_default f "issue_salience" 0.5 in
  let* civic_duty := getitem f "civic_duty" in
  let* social := getitem f "social_pressure_sensitivity" in
  let* habit := getitem f "habit_strength" in
  let* cost := getitem f "voting_cost_total" in
  let* comp := getitem f "electoral_competitiveness" in
  let* oc := getitem f "overconfidence" in
  ok (drift_rate_base p +
      beta_D p * civic_duty +
      beta_PI p * partisan_id +
      beta_IS p * issue_salience +
      beta_S p * social +
      beta_H p * habit +
      beta_C p * cost +
      beta_EC p * comp +
      beta_OC p * oc).

(** The threshold before the floor is applied. *)
Definition raw_threshold (f : gmap string Q) (p : DDMParameters) : result Q :=
  let* risk := getitem f "risk_aversion" in
  let* edu := getitem f "education_normalized" in
  let* oc := getitem f "overconfidence" in
  let* ratio := truediv ((1 + gamma_risk p * risk) * (1 - gamma_edu p * edu))
                        (1 + gamma_OC p * oc) in
  ok (threshold_base p * ratio).

Definition _compute_threshold (f : gmap string Q) (p : DDMParameters) : result Q :=
  let* a0 := raw_threshold f p in
  ok (py_max a0 0.5).

(** The starting point as a proportion of the threshold: before the
    clip, and clipped. *)
Definition raw_z_proportion (f : gmap string Q) (p : DDMParameters) : result Q :=
  let partisan_id := get_default f "partisan_identity_strength" 0.5 in
  let* habit := getitem f "habit_strength" in
  let habit_bias := alpha_H p * habit in
  let pi_bias := alpha_PI p * (partisan_id - 0.5) in
  let* civic_duty := getitem f "civic_duty" in
  let duty_bias := alpha_D p * (civic_duty - 0.5) in
  ok (0.5 + habit_bias + pi_bias + duty_bias).

Definition z_proportion (f : gmap string Q) (p : DDMParameters) : result Q :=
  let* z_prop := raw_z_proportion f p in
  ok (np_clip z_prop 0.1 0.9).

Definition _compute_starting_point (f : gmap string Q) (p : DDMParameters)
    (self_a : Q) : result Q :=
  let* zp := z_proportion f p in
  ok (self_a * zp).

(** The diffusion coefficient before the floor is applied. *)
Definition raw_sigma (f : gmap string Q) (p : DDMParameters) : result Q :=
  let* edu := getitem f "education_normalized" in
  let* oc := getitem f "overconfidence" in
  ok (sigma_base p * ((1 + nu_edu p * (1 - edu)) * (1 - nu_OC p * oc))).

Definition _compute_diffusion_coefficient (f : gmap string Q) (p : DDMParameters)
    : result Q :=
  let* s0 := raw_sigma f p in
  ok (py_max s0 0.05).

(** [DDMVoter.__init__] *)
Definition init (vid : string) (f : gmap string Q) (p : DDMParameters)
    : result DDMVoter :=
  let* _ := _validate_features f in
  let* mu0 := _compute_drift_rate f p in
  let* a0 := _compute_threshold f p in
  let* z0 := _compute_starting_point f p a0 in
  let* s0 := _compute_diffusion_coefficient f p in
  ok (mkVoter vid f p mu0 a0 z0 s0 None None).

Section Analytical.

(** [np.exp] *)
Variable np_exp : Q -> Q.

Definition numerator (v : DDMVoter) : result Q :=
  let* e := truediv (-2 * mu v * z v) (sigma v ^ 2) in
  ok (1 - np_exp e).

Definition denominator (v : DDMVoter) : result Q :=
  let* e := truediv (-2 * mu v * a v) (sigma v ^ 2) in
  ok (1 - np_exp e).

Definition compute_analytical_probability (v : DDMVoter) : result Q :=
  if Qltb (Qabs (mu v)) 0.000001 then
    truediv (z v) (a v)
  else
    let* num := numerator v in
    let* den := denominator v in
    if Qltb (Qabs den) 0.0000000001 then
      ok (if Qltb 0 (mu v) then 1.0 else 0.0)
    else
      let* p_vote := truediv num den in
      ok (np_clip p_vote 0 1).

(** [apply_nudge]: the voter after the call (the attributes are mutated
    before the return expression is evaluated) and what the call returns
    or raises. *)
Definition apply_nudge (v : DDMVoter) (nudge_type : string)
    (nudge_params : gmap string Q) : DDMVoter * result Q :=
  let finish (v' : DDMVoter) := (v', compute_analytical_probability v') in
  let fail (e : exn) := (v, raise e) in
  if String.eqb nudge_type "monetary" then
    let lottery_value := get_default nudge_params "lottery_value" 0.3 in
    let lottery_prob := get_default nudge_params "lottery_prob" 0.01 in
    match getitem (features v) "civic_duty" with
    | inl e => fail e
    | inr civic_duty =>
        match truediv 1 (1 + civic_duty) with
        | inl e => fail e
        | inr inv =>
            let lottery_boost := lottery_value * lottery_prob * inv in
            finish (set_mu v (mu v + lottery_boost))
        end
    end
  else if String.eqb nudge_type "social_norm" then
    let revealed := get_default nudge_params "revealed_turnout" 0.75 in
    let prior := get_default nudge_params "prior_belief" 0.5 in
    let social_boost := beta_S (params v) * 0.5 * (revealed - prior) in
    let v1 := set_mu v (mu v + social_boost) in
    finish (set_sigma v1 (sigma v1 * 0.85))
  else if String.eqb nudge_type "identity" then
    let identity_strength := get_default nudge_params "identity_strength" 0.7 in
    let frame_strength := get_default nudge_params "frame_strength" 1.0 in
    let identity_shift := 0.15 * identity_strength * frame_strength in
    finish (set_z v (np_clip (z v + identity_shift * a v) (0.05 * a v) (0.95 * a v)))
  else if String.eqb nudge_type "disclosure" then
    let threat_level := get_default nudge_params "threat_level" 1.5 in
    match getitem (features v) "social_pressure_sensitivity" with
    | inl e => fail e
    | inr social_pressure =>
        let disclosure_boost := beta_S (params v) * social_pressure * threat_level in
        finish (set_mu v (mu v + disclosure_boost))
    end
  else if String.eqb nudge_type "implementation" then
    let plan_quality := get_default nudge_params "plan_quality" 0.7 in
    let v1 := set_a v (a v * (1 - 0.15 * plan_quality)) in
    let v2 := set_z v1 (z v1 + 0.1 * plan_quality * a v1) in
    finish (set_z v2 (np_clip (z v2) (0.05 * a v2) (0.95 * a v2)))
  else if String.eqb nudge_type "competitiveness" then
    let comp_info := get_default nudge_params "competitiveness_info" 0.8 in
    match getitem (features v) "education_normalized" with
    | inl e => fail e
    | inr edu =>
        match getitem (features v) "overconfidence" with
        | inl e => fail e
        | inr oc =>
            let efficacy := 0.4 * edu + 0.3 * oc +
                            0.3 * get_default (features v) "partisan_identity_strength" 0.5 in
            let comp_boost := beta_EC (params v) * comp_info * efficacy in
            let v1 := set_mu v (mu v + comp_boost) in
            finish (set_sigma v1 (sigma v1 * 0.85))
        end
    end
  else
    fail (ValueError ("Unknown nudge type: " ++ nudge_type)).

(** The voter left behind by a sequence of [n] identical nudges. *)
Fixpoint apply_nudge_n (n : nat) (v : DDMVoter) (nudge_type : string)
    (nudge_params : gmap string Q) : DDMVoter :=
  match n with
  | O => v
  | S n' => apply_nudge_n n' (fst (apply_nudge v nudge_type nudge_params))
                          nudge_type nudge_params
  end.

End Analytical.

(** The diffusion coefficient after [n] nudges that each multiply it by
    0.85. *)
Fixpoint scaled (n : nat) (s : Q) : Q :=
  match n with
  | O => s
  | S n' => scaled n' (s * 0.85)
  end.

End DDM.

(* ===================================================================== *)
(** ** JSON documents, as [json.load] returns them *)
(* ===================================================================== *)

Module Json.

Inductive json : Type :=
| JNull
| JBool (b : bool)
| JInt (n : Z)
| JFloat (q : Q)
| JStr (s : string)
| JArr (items : list json)
| JObj (members : list (string * json)).

(** A [dict] in insertion order. *)
Definition dict : Type := list (string * json).

Fixpoint dict_get (d : dict) (k : string) : option json :=
  match d with
  | [] => None
  | (k', v) :: rest => if String.eqb k' k then Some v else dict_get rest k
  end.

(** [d[k] = v]: an existing key keeps its position, a new one goes last. *)
Fixpoint dict_set (d : dict) (k : string) (v : json) : dict :=
  match d with
  | [] => [(k, v)]
  | (k', v') :: rest =>
      if String.eqb k' k then (k', v) :: rest else (k', v') :: dict_set rest k v
  end.

Definition dict_keys (d : dict) : list string := List.map fst d.

(** [obj[k]] for a string key [k]. *)
Definition getitem (obj : json) (k : string) : result json :=
  match obj with
  | JObj d =>
      match dict_get d k with
      | Some v => ok v
      | None => raise (KeyError k)
      end
  | _ => raise (TypeError "indices must be integers")
  end.

(** [obj[k] = v] for a string key [k]. *)
Definition setitem (obj : json) (k : string) (v : json) : result json :=
  match obj with
  | JObj d => ok (JObj (dict_set d k v))
  | _ => raise (TypeError "object does not support item assignment")
  end.

(** [obj.get(k, default)] *)
Definition get (obj : json) (k : string) (dflt : json) : result json :=
  match obj with
  | JObj d =>
      match dict_get d k with
      | Some v => ok v
      | None => ok dflt
      end
  | _ => raise (AttributeError "object has no attribute get")
  end.

(** [for x in obj] *)
Definition chars (s : string) : list json :=
  List.map (fun c => JStr (String c EmptyString)) (list_ascii_of_string s).

Definition iter (obj : json) : result (list json) :=
  match obj with
  | JArr l => ok l
  | JObj d => ok (List.map (fun kv => JStr (fst kv)) d)
  | JStr s => ok (chars s)
  | _ => raise (TypeError "object is not iterable")
  end.

(** A JSON number where the code does arithmetic on it. *)
Definition as_float (j : json) : result Q :=
  match j with
  | JInt n => ok (inject_Z n)
  | JFloat q => ok q
  | JBool b => ok (if b then 1%Q else 0%Q)
  | _ => raise (TypeError "unsupported operand type")
  end.

(** [x == s] against a string. *)
Definition eq_str (j : json) (s : string) : bool :=
  match j with
  | JStr s' => String.eqb s' s
  | _ => false
  end.

(** Following a path of keys down nested objects. *)
Fixpoint at_path (j : json) (path : list string) : option json :=
  match path with
  | [] => Some j
  | k :: rest =>
      match j with
      | JObj d =>
          match dict_get d k with
          | Some v => at_path v rest
          | None => None
          end
      | _ => None
      end
  end.

End Json.

Import Json.

(* ===================================================================== *)
(** ** agent_generator.py *)
(* ===================================================================== *)

Module AgentGenerator.

Local Open Scope Q_scope.

Section Generator.

(** The state of numpy's global generator and its draws. *)
Variable RNG : Type.
Variable np_random_beta : Q -> Q -> RNG -> Q * RNG.
Variable np_random_random : RNG -> Q * RNG.
Variable np_random_binomial : Q -> Q -> RNG -> Q * RNG.
Variable np_random_randint : Z -> Z -> RNG -> Z * RNG.
(** [str(x)] for a JSON value that is not a string. *)
Variable py_str : json -> string.

(** Computations that draw random numbers and may raise. *)
Definition M (A : Type) : Type := RNG -> result (A * RNG).

Definition ret {A : Type} (x : A) : M A := fun s => ok (x, s).
Definition throw {A : Type} (e : exn) : M A := fun _ => raise e.
Definition lift {A : Type} (r : result A) : M A :=
  fun s => match r with inl e => inl e | inr x => ok (x, s) end.
Definition draw {A : Type} (d : RNG -> A * RNG) : M A := fun s => ok (d s).
Definition mbind {A B : Type} (m : M A) (k : A -> M B) : M B :=
  fun s => match m s with
           | inl e => inl e
           | inr (x, s') => k x s'
           end.

Notation "'do' x '<-' m ';' k" := (mbind m (fun x => k))
  (at level 10, x name, m at level 100, k at level 200).

(** An agent: a dict from feature names to values. *)
Abbreviation agent := (gmap string json).

(** [a, b = params], and a call that spreads [params] over the two
    arguments of [np.random.beta]. *)
Definition unpack2 (params : json) : result (json * json) :=
  let* items := Json.iter params in
  match items with
  | [x; y] => ok (x, y)
  | _ => raise (ValueError "expected 2 values to unpack")
  end.

Definition beta_of (params : json) : M Q :=
  do xy <- lift (unpack2 params);
  do alpha <- lift (as_float (fst xy));
  do beta <- lift (as_float (snd xy));
  draw (np_random_beta alpha beta).

Definition format_value (j : json) : string :=
  match j with
  | JStr s => s
  | _ => py_str j
  end.

(** [_generate_feature] *)
Definition _generate_feature (spec : json) : M json :=
  do method <- lift (Json.getitem spec "method");
  do params <- lift (Json.getitem spec "parameters");
  if eq_str method "beta_distribution" then
    do x <- beta_of params;
    ret (JFloat x)
  else if eq_str method "beta_distribution_from_proxy" then
    do proxy_value <- lift (Json.getitem params "proxy_value");
    do high_params <- lift (Json.getitem params "high_skew_params");
    do low_params <- lift (Json.getitem params "low_skew_params");
    do u <- draw np_random_random;
    do proxy <- lift (as_float proxy_value);
    if Qltb u proxy then
      do x <- beta_of high_params;
      ret (JFloat x)
    else
      do x <- beta_of low_params;
      ret (JFloat x)
  else if eq_str method "binomial_draw_normalized" then
    do n <- lift (Json.getitem params "num_elections");
    do p <- lift (Json.getitem params "probability");
    do nq <- lift (as_float n);
    do pq <- lift (as_float p);
    do n_votes <- draw (np_random_binomial nq pq);
    (* a numpy scalar division: it does not raise on a zero divisor *)
    ret (JFloat (n_votes / nq))
  else if eq_str method "probabilistic_distribution" then
    do literacy_rate <- lift (Json.getitem params "literacy_rate");
    do lr <- lift (as_float literacy_rate);
    let alpha := lr * 10 in
    let beta := (1 - lr) * 10 in
    do x <- draw (np_random_beta (py_max alpha 0.5) (py_max beta 0.5));
    ret (JFloat x)
  else if eq_str method "probabilistic_assignment" then
    do prob <- lift (Json.get params "probability_urban" (JFloat 0.5));
    do u <- draw np_random_random;
    do pr <- lift (as_float prob);
    ret (JFloat (if Qltb u pr then 1.0 else 0.0))
  else
    throw (ValueError ("Unknown generation method: " ++ format_value method)).

(** The loop over [rules.items()]. *)
Fixpoint generate_features (rules : dict) (agent0 : agent) : M agent :=
  match rules with
  | [] => ret agent0
  | (feature_name, generation_spec) :: rest =>
      if String.eqb feature_name "population_size" then
        generate_features rest agent0
      else
        do value <- _generate_feature generation_spec;
        generate_features rest (<[feature_name := value]> agent0)
  end.

(** [agent.update(context)] *)
Fixpoint update_members (agent0 : agent) (members : dict) : agent :=
  match members with
  | [] => agent0
  | (k, v) :: rest => update_members (<[k := v]> agent0) rest
  end.

Fixpoint update_pairs (agent0 : agent) (pairs : list json) : result agent :=
  match pairs with
  | [] => ok agent0
  | JArr [JStr k; v] :: rest => update_pairs (<[k := v]> agent0) rest
  | _ => raise (ValueError "dictionary update sequence element is not a pair of a name and a value")
  end.

Definition update (agent0 : agent) (context : json) : result agent :=
  match context with
  | JObj members => ok (update_members agent0 members)
  | JArr pairs => update_pairs agent0 pairs
  | JStr EmptyString => ok agent0
  | JStr _ => raise (ValueError "dictionary update sequence element has length 1; 2 is required")
  | _ => raise (TypeError "object is not iterable")
  end.

(** [_add_default_features]: the dict of defaults is built first, which
    draws the age whether or not it is used; a default is stored only
    under a name the agent does not have yet. *)
Definition set_default (agent0 : agent) (feature : string) (default_value : json) : agent :=
  match agent0 !! feature with
  | Some _ => agent0
  | None => <[feature := default_value]> agent0
  end.

Definition _add_default_features (agent0 : agent) : M agent :=
  do age <- draw (np_random_randint 18 80);
  let partisan :=
    match agent0 !! "partisan_identity_strength" with
    | Some v => v
    | None => JFloat 0.5
    end in
  let a1 := set_default agent0 "age" (JInt age) in
  let a2 := set_default a1 "issue_salience" (JFloat 0.5) in
  let a3 := set_default a2 "partisan_identity_strength" partisan in
  let a4 := set_default a3 "perceived_integrity" (JFloat 0.6) in
  ret (set_default a4 "personality_match_candidate" (JFloat 0.5)).

(** [_generate_single_agent] *)
Definition _generate_single_agent (agent_id : nat) (rules : dict) (context : json)
    : M agent :=
  let agent0 : agent := {[ "voter_id" := JStr ("agent_" ++ str_of_nat agent_id) ]} in
  do agent1 <- generate_features rules agent0;
  do agent2 <- lift (update agent1 context);
  _add_default_features agent2.

(** [_get_scenario]: the first scenario of that name, if any. *)
Fixpoint find_scenario (scenarios : list json) (scenario_name : string)
    : result (option json) :=
  match scenarios with
  | [] => ok None
  | scenario :: rest =>
      let* name := Json.getitem scenario "scenario_name" in
      if eq_str name scenario_name then ok (Some scenario)
      else find_scenario rest scenario_name
  end.

Definition _get_scenario (config : json) (scenario_name : string)
    : result (option json) :=
  let* scenarios := Json.get config "simulation_scenarios" (JArr []) in
  let* l := Json.iter scenarios in
  find_scenario l scenario_name.

(** [range(pop_size)] *)
Definition range (pop_size : json) : result (list nat) :=
  match pop_size with
  | JInt n => ok (seq 0 (Z.to_nat n))
  | JBool b => ok (seq 0 (if b then 1 else 0))
  | _ => raise (TypeError "object cannot be interpreted as an integer")
  end.

Fixpoint generate_agents (ids : list nat) (rules : dict) (context : json)
    : M (list agent) :=
  match ids with
  | [] => ret []
  | i :: rest =>
      do agent0 <- _generate_single_agent i rules context;
      do agents <- generate_agents rest rules context;
      ret (agent0 :: agents)
  end.

(** [generate_population] *)
Definition generate_population (config : json) (scenario_name : string)
    : M (list agent) :=
  do found <- lift (_get_scenario config scenario_name);
  match found with
  | None =>
      throw (ValueError ("Scenario '" ++ scenario_name ++ "' not found in config"))
  | Some scenario =>
      do rules <- lift (Json.getitem scenario "agent_generation_rules");
      do context <- lift (Json.getitem scenario "global_context");
      do pop_size <- lift (Json.getitem rules "population_size");
      do ids <- lift (range pop_size);
      match rules with
      | JObj members => generate_agents ids members context
      | _ => throw (AttributeError "object has no attribute items")
      end
  end.

End Generator.

End AgentGenerator.

(** *** The configuration schema of the generator *)

Module Schema.









End Schema.

(* ===================================================================== *)
(** ** simulation.py *)
(* ===================================================================== *)

Module Simulation.

Import DDM.
Local Open Scope Q_scope.

(** An entry of the [hypothesis_configs] table of [run_hypothesis_test]. *)
Record HypothesisConfig : Type := mkHypothesis {
  description : string;
  nudge_type : string;
  nudge_params : option (gmap string Q);
  nudges : option (list string);
  test_type : string
}.

Definition HN1 : HypothesisConfig := {|
  description := "Monetary lottery more effective for low civic duty";
  nudge_type := "monetary";
  nudge_params := Some {[ "lottery_value" := 0.3; "lottery_prob" := 0.01 ]};
  nudges := None;
  test_type := "stratified"
|}.

Definition HN2 : HypothesisConfig := {|
  description := "Social norm more effective than informational";
  nudge_type := "comparison";
  nudge_params := None;
  nudges := Some ["social_norm"; "competitiveness"];
  test_type := "comparison"
|}.

Definition HN3 : HypothesisConfig := {|
  description := "Identity framing most effective for moderate civic duty";
  nudge_type := "identity";
  nudge_params := Some {[ "identity_strength" := 0.7; "frame_strength" := 1.0 ]};
  nudges := None;
  test_type := "stratified"
|}.

Definition HN6 : HypothesisConfig := {|
  description := "Competitiveness info affects high efficacy voters";
  nudge_type := "competitiveness";
  nudge_params := Some {[ "competitiveness_info" := 0.8 ]};
  nudges := None;
  test_type := "stratified"
|}.

Definition hypothesis_configs : gmap string HypothesisConfig :=
  {[ "HN1" := HN1; "HN2" := HN2; "HN3" := HN3; "HN6" := HN6 ]}.

(** The stratification variable, its thresholds and the labels, as the
    first statement of [_test_stratified_effect] chooses them. *)
Definition select_strata (config : HypothesisConfig)
    : string * list Q * list string :=
  if contains "HN1" (description config) || contains "HN3" (description config)
  then ("civic_duty", [0; 0.33; 0.67; 1.0], ["Low"; "Medium"; "High"])
  else ("education_normalized", [0; 0.5; 1.0], ["Low"; "High"]).

(** The triples [(labels[i], thresholds[i], thresholds[i + 1])] for [i] in
    [range(len(thresholds) - 1)]. *)
Fixpoint strata (thresholds : list Q) (labels : list string)
    : list (string * Q * Q) :=
  match thresholds, labels with
  | lower :: ((upper :: _) as rest), label :: labels' =>
      (label, lower, upper) :: strata rest labels'
  | _, _ => []
  end.

(** [lower <= v.features[strata_var] < upper] *)
Definition in_stratum (strata_var : string) (lower upper : Q) (v : DDMVoter)
    : result bool :=
  let* x := Py.getitem (features v) strata_var in
  ok (Qle_bool lower x && Qltb x upper).

(** The list comprehension that filters the voters of a stratum. *)
Fixpoint stratum_voters (strata_var : string) (lower upper : Q)
    (voters : list DDMVoter) : result (list DDMVoter) :=
  match voters with
  | [] => ok []
  | v :: rest =>
      let* keep := in_stratum strata_var lower upper v in
      let* kept := stratum_voters strata_var lower upper rest in
      ok (if keep then v :: kept else kept)
  end.

(** The strata that are not skipped, each with its voters. *)
Fixpoint nonempty_strata (strata_var : string) (bounds : list (string * Q * Q))
    (voters : list DDMVoter) : result (list (string * list DDMVoter)) :=
  match bounds with
  | [] => ok []
  | (label, lower, upper) :: rest =>
      let* members := stratum_voters strata_var lower upper voters in
      let* others := nonempty_strata strata_var rest voters in
      ok (match members with
          | [] => others
          | _ => (label, members) :: others
          end)
  end.

Definition stratified_groups (voters : list DDMVoter) (config : HypothesisConfig)
    : result (list (string * list DDMVoter)) :=
  let '(strata_var, thresholds, labels) := select_strata config in
  nonempty_strata strata_var (strata thresholds labels) voters.

(** The labels of the strata a voter is counted in. *)
Definition strata_of (config : HypothesisConfig) (v : DDMVoter) : list string :=
  let '(strata_var, thresholds, labels) := select_strata config in
  List.map (fun b => fst (fst b))
    (List.filter
       (fun b => match in_stratum strata_var (snd (fst b)) (snd b) v with
                 | inr true => true
                 | _ => false
                 end)
       (strata thresholds labels)).

Record StratumResult : Type := mkStratumResult {
  control_turnout : Q;
  treatment_turnout : Q;
  effect : Q;
  n : nat
}.

Section Election.

Variable np_exp : Q -> Q.
(** The turnout rate reported by [DDMPopulation.simulate_election] in
    analytical mode: it draws one Bernoulli outcome per voter. *)
Variable RNG : Type.
Variable simulate_election : list DDMVoter -> RNG -> result (Q * RNG).

(** [DDMPopulation.apply_nudges] with an assignment that names every
    voter of the population. *)
Fixpoint apply_nudges (voters : list DDMVoter) (type : string)
    (prms : gmap string Q) : result (list DDMVoter) :=
  match voters with
  | [] => ok []
  | v :: rest =>
      let '(v', r) := apply_nudge np_exp v type prms in
      let* _ := r in
      let* rest' := apply_nudges rest type prms in
      ok (v' :: rest')
  end.

Definition stratum_result (config : HypothesisConfig) (members : list DDMVoter)
    (rng : RNG) : result (StratumResult * RNG) :=
  let n_control := (length members / 2)%nat in
  let* c := simulate_election (take n_control members) rng in
  let* prms := match nudge_params config with
               | Some prms => ok prms
               | None => raise (KeyError "nudge_params")
               end in
  let* treated := apply_nudges (drop n_control members) (nudge_type config) prms in
  let* t := simulate_election treated (snd c) in
  ok (mkStratumResult (fst c) (fst t) (fst t - fst c) (length members), snd t).

Fixpoint stratum_results (config : HypothesisConfig)
    (groups : list (string * list DDMVoter)) (rng : RNG)
    : result (list (string * StratumResult) * RNG) :=
  match groups with
  | [] => ok ([], rng)
  | (label, members) :: rest =>
      let* r := stratum_result config members rng in
      let* rs := stratum_results config rest (snd r) in
      ok ((label, fst r) :: fst rs, snd rs)
  end.

(** [_test_stratified_effect]: the result dict, keyed by stratum label.
    The nudged voters are shared with the population; stratum membership
    reads only the features, which no nudge changes. *)
Definition _test_stratified_effect (voters : list DDMVoter)
    (config : HypothesisConfig) (rng : RNG)
    : result (list (string * StratumResult) * RNG) :=
  let* groups := stratified_groups voters config in
  stratum_results config groups rng.

End Election.

(** The stratification actually used by [run_hypothesis_test name], when
    the named hypothesis is dispatched to the stratified test. *)
Definition stratification_of (hypothesis_name : string)
    : result (option (string * list Q * list string)) :=
  match hypothesis_configs !! hypothesis_name with
  | None => raise (ValueError ("Unknown hypothesis: " ++ hypothesis_name))
  | Some h_config =>
      if String.eqb (test_type h_config) "stratified"
      then ok (Some (select_strata h_config))
      else if String.eqb (test_type h_config) "comparison"
      then ok None
      else raise (ValueError ("Unknown test type: " ++ test_type h_config))
  end.

End Simulation.

(* ===================================================================== *)
(** ** main.py *)
(* ===================================================================== *)

Module Main.

Import DDM.

(** The dict literal assigned in mode [all]. *)
Definition calibrated_block (optimal_params : DDMParameters) : json :=
  JObj [ ("drift_rate_base", JFloat (drift_rate_base optimal_params));
         ("threshold_base", JFloat (threshold_base optimal_params));
         ("drift_components",
          JObj [ ("beta_D", JFloat (beta_D optimal_params));
                 ("beta_H", JFloat (beta_H optimal_params));
                 ("beta_S", JFloat (beta_S optimal_params));
                 ("beta_C", JFloat (beta_C optimal_params)) ]) ].

(** [config['model_calibration_parameters']['drift_diffusion_model'] = {...}]:
    the configuration that is then dumped to [calibrated_config.json]. *)
Definition update_config (config : json) (optimal_params : DDMParameters)
    : result json :=
  let* mcp := Json.getitem config "model_calibration_parameters" in
  let* mcp' := Json.setitem mcp "drift_diffusion_model"
                            (calibrated_block optimal_params) in
  Json.setitem config "model_calibration_parameters" mcp'.

End Main.

(* ===================================================================== *)
(** ** Survey tables of the two analysis scripts *)
(* ===================================================================== *)

Module Survey.

Local Open Scope Q_scope.

(** A [float64] column, [None] being NaN, and a table of such columns.
    Both scripts coerce every question column with
    [pd.to_numeric(errors='coerce')] when they load the table, so the
    columns read below hold numbers or NaN. *)
Abbreviation Series := (list (option Q)).
Abbreviation DataFrame := (gmap string (list (option Q))).

(** [df[c]] *)
Definition column (df : DataFrame) (c : string) : result Series :=
  match df !! c with
  | Some s => ok s
  | None => raise (KeyError c)
  end.

(** [df[[c1, ..., cn]]] *)
Fixpoint columns (df : DataFrame) (cs : list string) : result (list Series) :=
  match cs with
  | [] => ok []
  | c :: rest =>
      let* s := column df c in
      let* ss := columns df rest in
      ok (s :: ss)
  end.

(** Element-wise arithmetic; NaN propagates. *)
Definition lift1 (f : Q -> Q) (s : Series) : Series := List.map (option_map f) s.

Definition lift2 (f : Q -> Q -> Q) (s1 s2 : Series) : Series :=
  zip_with (fun x y => match x, y with
                       | Some u, Some w => Some (f u w)
                       | _, _ => None
                       end) s1 s2.

Definition rsub (c : Q) (s : Series) : Series := lift1 (fun x => c - x) s.
Definition add (s1 s2 : Series) : Series := lift2 Qplus s1 s2.
Definition mul (s : Series) (c : Q) : Series := lift1 (fun x => x * c) s.
Definition div (s : Series) (c : Q) : Series := lift1 (fun x => x / c) s.
Definition neg (s : Series) : Series := lift1 Qopp s.

(** [mean(axis=1)]: per row, the mean of the values that are present. *)
Definition present (xs : list (option Q)) : list Q := omap id xs.

Definition total (xs : list Q) : Q := fold_left Qplus xs 0.

Definition row_mean (xs : list (option Q)) : option Q :=
  match present xs with
  | [] => None
  | ys => Some (total ys / inject_Z (Z.of_nat (length ys)))
  end.

Definition row (cs : list Series) (i : nat) : list (option Q) :=
  List.map (fun s : Series => default None (s !! i)) cs.

Definition mean_axis1 (cs : list Series) : Series :=
  match cs with
  | [] => []
  | c :: _ => List.map (fun i => row_mean (row cs i)) (seq 0 (length c))
  end.

(** [dropna] on a two-column selection: the complete pairs. *)
Definition dropna2 (s1 s2 : Series) : list (Q * Q) :=
  omap (fun xy : option Q * option Q =>
          match xy with
          | (Some u, Some w) => Some (u, w)
          | _ => None
          end) (zip s1 s2).

(** The two outcomes of a correlation helper: the coefficient, the
    p-value and the sample size, or the signal for too little data. *)
Definition reported (pearsonr : list Q -> list Q -> Q * Q) (data : list (Q * Q))
    : result (option Q * option Q * nat) :=
  let '(r, p) := pearsonr (List.map fst data) (List.map snd data) in
  ok (Some r, Some p, length data).

Definition insufficient : result (option Q * option Q * nat) := ok (None, None, O).

End Survey.

(** *** comprehensive_analysis.py *)

Module VoterSurveyAnalysis.

Import Survey.
Local Open Scope Q_scope.

Definition create_composite_scores (df : DataFrame) : result DataFrame :=
  (* Civic Duty score *)
  let* q5 := column df "q5_civic_duty" in
  let df := <["civic_duty_score" := rsub 6 q5]> df in
  (* Social Pressure score *)
  let* q8 := column df "q8_social_influence" in
  let df := <["social_pressure_score" := rsub 6 q8]> df in
  (* Habit strength *)
  let* q2 := column df "q2_frequency" in
  let df := <["habit_score" := rsub 6 q2]> df in
  (* Perceived Cost *)
  let cost_cols := ["q3_effort_tradeoff"; "q9_information_load"] in
  let* cost := columns df cost_cols in
  let df := <["cost_score" := mean_axis1 cost]> df in
  (* Perceived Benefit *)
  let* q4 := column df "q4_perceived_impact" in
  let* q12 := column df "q12_competitiveness" in
  let df := <["benefit_score" := div (add (rsub 6 q4) (rsub 6 q12)) 2]> df in
  (* System Trust *)
  let trust_cols := ["q7_trust"; "q10_disillusionment"] in
  let* trust := columns df trust_cols in
  let df := <["trust_score" := rsub 6 (mean_axis1 trust)]> df in
  (* Overall Engagement Score *)
  let engagement_components :=
    ["civic_duty_score"; "habit_score"; "benefit_score"; "trust_score"] in
  let* components := columns df engagement_components in
  let df := <["engagement_score" := mean_axis1 components]> df in
  (* Voting Likelihood *)
  let* benefit_score := column df "benefit_score" in
  let* cost_score := column df "cost_score" in
  let* civic_duty_score := column df "civic_duty_score" in
  let* social_pressure_score := column df "social_pressure_score" in
  let* habit_score := column df "habit_score" in
  ok (<["voting_utility" :=
         add (add (add (add (mul benefit_score 0.2)
                            (mul (neg cost_score) 0.15))
                       (mul civic_duty_score 0.25))
                  (mul social_pressure_score 0.15))
             (mul habit_score 0.25)]> df).

Section Corr.

(** [stats.pearsonr]: the coefficient and the p-value. *)
Variable pearsonr : list Q -> list Q -> Q * Q.

(** The helper nested in [model_component_correlations]. *)
Definition safe_corr (df : DataFrame) (col1 col2 : string)
    : result (option Q * option Q * nat) :=
  let* s1 := column df col1 in
  let* s2 := column df col2 in
  let data := dropna2 s1 s2 in
  if (10 <? length data)%nat then
    let '(r, p) := pearsonr (List.map fst data) (List.map snd data) in
    ok (Some r, Some p, length data)
  else ok (None, None, O).

End Corr.

End VoterSurveyAnalysis.

(** *** hypothesis_testing.py *)

Module HypothesisTester.

Import Survey.
Local Open Scope Q_scope.

Definition create_composite_scores (df : DataFrame) : result DataFrame :=
  let* q5 := column df "q5_civic_duty" in
  let df := <["civic_duty_score" := rsub 6 q5]> df in
  let* q8 := column df "q8_social_influence" in
  let df := <["social_pressure_score" := rsub 6 q8]> df in
  let* q2 := column df "q2_frequency" in
  let df := <["habit_score" := rsub 6 q2]> df in
  let* cost := columns df ["q3_effort_tradeoff"; "q9_information_load"] in
  let df := <["cost_score" := mean_axis1 cost]> df in
  let* q4 := column df "q4_perceived_impact" in
  let* q12 := column df "q12_competitiveness" in
  let df := <["benefit_score" := div (add (rsub 6 q4) (rsub 6 q12)) 2]> df in
  let* trust := columns df ["q7_trust"; "q10_disillusionment"] in
  let df := <["trust_score" := rsub 6 (mean_axis1 trust)]> df in
  let* components := columns df ["civic_duty_score"; "habit_score";
                                 "benefit_score"; "trust_score"] in
  let df := <["engagement_score" := mean_axis1 components]> df in
  let* benefit_score := column df "benefit_score" in
  let* cost_score := column df "cost_score" in
  let* civic_duty_score := column df "civic_duty_score" in
  let* social_pressure_score := column df "social_pressure_score" in
  let* habit_score := column df "habit_score" in
  ok (<["voting_utility" :=
         add (add (add (add (mul benefit_score 0.2)
                            (mul (neg cost_score) 0.15))
                       (mul civic_duty_score 0.25))
                  (mul social_pressure_score 0.15))
             (mul habit_score 0.25)]> df).

Section Corr.

Variable pearsonr : list Q -> list Q -> Q * Q.

Definition safe_corr (df : DataFrame) (col1 col2 : string)
    : result (option Q * option Q * nat) :=
  let* s1 := column df col1 in
  let* s2 := column df col2 in
  let data := dropna2 s1 s2 in
  if (10 <=? length data)%nat then
    let '(r, p) := pearsonr (List.map fst data) (List.map snd data) in
    ok (Some r, Some p, length data)
  else ok (None, None, O).

End Corr.

End HypothesisTester.

(** *** The composite scores as the specification writes them *)

Module Reference.

Import Survey.
Local Open Scope Q_scope.

(** One respondent: the nine question scores the formulas read. *)
Record Answers : Type := mkAnswers {
  q2_frequency : option Q;
  q3_effort_tradeoff : option Q;
  q4_perceived_impact : option Q;
  q5_civic_duty : option Q;
  q7_trust : option Q;
  q8_social_influence : option Q;
  q9_information_load : option Q;
  q10_disillusionment : option Q;
  q12_competitiveness : option Q
}.

Definition minus (x y : option Q) : option Q :=
  match x, y with Some u, Some w => Some (u - w) | _, _ => None end.
Definition plus (x y : option Q) : option Q :=
  match x, y with Some u, Some w => Some (u + w) | _, _ => None end.
Definition times (c : Q) (x : option Q) : option Q := option_map (Qmult c) x.
Definition half (x : option Q) : option Q := option_map (fun u => u / 2) x.

(** The mean of the scores that were given; missing when none was. *)
Fixpoint given (xs : list (option Q)) : list Q :=
  match xs with
  | [] => []
  | Some x :: rest => x :: given rest
  | None :: rest => given rest
  end.

Fixpoint sum (xs : list Q) : Q :=
  match xs with
  | [] => 0
  | x :: rest => x + sum rest
  end.

Definition mean (xs : list (option Q)) : option Q :=
  match given xs with
  | [] => None
  | ys => Some (sum ys / inject_Z (Z.of_nat (length ys)))
  end.

Definition civic_duty_score (r : Answers) : option Q := minus (Some 6) (q5_civic_duty r).
Definition social_pressure_score (r : Answers) : option Q :=
  minus (Some 6) (q8_social_influence r).
Definition habit_score (r : Answers) : option Q := minus (Some 6) (q2_frequency r).
Definition cost_score (r : Answers) : option Q :=
  mean [q3_effort_tradeoff r; q9_information_load r].
Definition benefit_score (r : Answers) : option Q :=
  half (plus (minus (Some 6) (q4_perceived_impact r))
             (minus (Some 6) (q12_competitiveness r))).
Definition trust_score (r : Answers) : option Q :=
  minus (Some 6) (mean [q7_trust r; q10_disillusionment r]).
Definition engagement_score (r : Answers) : option Q :=
  mean [civic_duty_score r; habit_score r; benefit_score r; trust_score r].
Definition voting_utility (r : Answers) : option Q :=
  plus (plus (plus (minus (times 0.20 (benefit_score r)) (times 0.15 (cost_score r)))
                   (times 0.25 (civic_duty_score r)))
             (times 0.15 (social_pressure_score r)))
       (times 0.25 (habit_score r)).

(** The formula of each of the eight composite scores, by column name. *)
Definition formulas : list (string * (Answers -> option Q)) :=
  [ ("civic_duty_score", civic_duty_score);
    ("social_pressure_score", social_pressure_score);
    ("habit_score", habit_score);
    ("cost_score", cost_score);
    ("benefit_score", benefit_score);
    ("trust_score", trust_score);
    ("engagement_score", engagement_score);
    ("voting_utility", voting_utility) ].

(** The answers of respondent [i] in a table. *)
Definition cell (df : DataFrame) (c : string) (i : nat) : option Q :=
  match df !! c with
  | Some s => default None (s !! i)
  | None => None
  end.

Definition answers (df : DataFrame) (i : nat) : Answers := {|
  q2_frequency := cell df "q2_frequency" i;
  q3_effort_tradeoff := cell df "q3_effort_tradeoff" i;
  q4_perceived_impact := cell df "q4_perceived_impact" i;
  q5_civic_duty := cell df "q5_civic_duty" i;
  q7_trust := cell df "q7_trust" i;
  q8_social_influence := cell df "q8_social_influence" i;
  q9_information_load := cell df "q9_information_load" i;
  q10_disillusionment := cell df "q10_disillusionment" i;
  q12_competitiveness := cell df "q12_competitiveness" i
|}.

(** Equal scores: both missing, or equal numbers. *)
Definition same_score (x y : option Q) : Prop :=
  match x, y with
  | Some u, Some w => u == w
  | None, None => True
  | _, _ => False
  end.

Definition same_scoreb (x y : option Q) : bool :=
  match x, y with
  | Some u, Some w => Qeq_bool u w
  | None, None => true
  | _, _ => false
  end.

(** The score of respondent [i] in the table a script returns. *)
Definition score_at (r : result DataFrame) (name : string) (i : nat) : option Q :=
  match r with
  | inr out => cell out name i
  | inl _ => None
  end.

(** The question columns the formulas read. *)
Definition question_columns : list string :=
  [ "q2_frequency"; "q3_effort_tradeoff"; "q4_perceived_impact";
    "q5_civic_duty"; "q7_trust"; "q8_social_influence";
    "q9_information_load"; "q10_disillusionment"; "q12_competitiveness" ].

(** A table of [n] rows: every column has [n] entries. *)
Definition table (n : nat) (df : DataFrame) : Prop :=
  map_Forall (fun _ s => length s = n) df.

End Reference.

(* ===================================================================== *)
(** ** clean_data.py *)
(* ===================================================================== *)

Module VoterSurveyDataCleaner.

(** A cell of the table being cleaned. *)
Inductive cell : Type :=
| NaN
| Num (q : Q)
| Str (s : string)
| Flag (b : bool).

Definition isna (c : cell) : bool :=
  match c with
  | NaN => true
  | _ => false
  end.

Record Cleaner : Type := mkCleaner {
  df : gmap string (list cell);
  cleaning_report : gmap string json
}.

Definition required_cols : list string :=
  [ "q1_emotion"; "q2_frequency"; "q3_effort_tradeoff";
    "q4_perceived_impact"; "q5_civic_duty"; "q6_emotional_reward";
    "q7_trust"; "q8_social_influence"; "q9_information_load";
    "q10_disillusionment"; "q11_online_voting"; "q12_competitiveness";
    "q13_incentive" ].

(** [df[cols]] *)
Fixpoint select (d : gmap string (list cell)) (cols : list string)
    : result (list (list cell)) :=
  match cols with
  | [] => ok []
  | c :: rest =>
      match d !! c with
      | None => raise (KeyError c)
      | Some s =>
          let* ss := select d rest in
          ok (s :: ss)
      end
  end.

(** [.isna().all(axis=1)] *)
Definition all_axis1 (cs : list (list bool)) : list bool :=
  match cs with
  | [] => []
  | c :: _ =>
      List.map (fun i => forallb (fun s : list bool => default false (s !! i)) cs)
               (seq 0 (length c))
  end.

Definition count_true (l : list bool) : Z :=
  Z.of_nat (length (List.filter (fun b : bool => b) l)).

(** [identify_removals] *)
Definition identify_removals (self : Cleaner) : result Cleaner :=
  let* questions := select (df self) required_cols in
  let all_questions_null := all_axis1 (List.map (List.map isna) questions) in
  let df' := <["recommended_for_removal" := List.map Flag all_questions_null]> (df self) in
  let removal_count := count_true all_questions_null in
  ok {| df := df';
        cleaning_report :=
          <["recommended_removals" := JInt removal_count]> (cleaning_report self) |}.

(** The value of column [c] in row [i]. *)
Definition at_ (d : gmap string (list cell)) (c : string) (i : nat) : option cell :=
  match d !! c with
  | Some s => s !! i
  | None => None
  end.

(** Row [i] has no answer to any of the required questions. *)
Definition all_missing (d : gmap string (list cell)) (i : nat) : bool :=
  forallb (fun c => match at_ d c i with
                    | Some x => isna x
                    | None => false
                    end) required_cols.

(** A table of [n] rows. *)
Definition table (n : nat) (d : gmap string (list cell)) : Prop :=
  map_Forall (fun _ s => length s = n) d.

End VoterSurveyDataCleaner.

(* ===================================================================== *)
(** ** Sample inputs *)
(* ===================================================================== *)

Module Samples.

Local Open Scope Q_scope.

(** A voter in the middle of every scale. *)
Definition middle_features : gmap string Q :=
  {[ "civic_duty" := 0.5; "habit_strength" := 0.5;
     "social_pressure_sensitivity" := 0.5; "risk_aversion" := 0.5;
     "education_normalized" := 0.5; "overconfidence" := 0.5;
     "voting_cost_total" := 0.5; "electoral_competitiveness" := 0.5 ]}.

(** An educated, overconfident voter, and parameters whose threshold base
    sits at the lower calibration bound: the raw threshold is below 0.5. *)
Definition bold_features : gmap string Q :=
  {[ "civic_duty" := 0.5; "habit_strength" := 0.5;
     "social_pressure_sensitivity" := 0.5; "risk_aversion" := 0;
     "education_normalized" := 1.0; "overconfidence" := 1.0;
     "voting_cost_total" := 0.5; "electoral_competitiveness" := 0.5 ]}.

Definition low_threshold_params : DDM.DDMParameters :=
  DDM.mkParams 0.15 0.12 0.10 0.20 0.18 (-0.14) 0.08 0.05
               0.1 0.5 0.2 0.4 0.3 0.2 0.25 0.10 0.10 0.3 0.15.

(** Parameters without drift and without starting-point bias. *)
Definition no_drift_params : DDM.DDMParameters :=
  DDM.mkParams 0 0 0 0 0 0 0 0 0 2.0 0.2 0 0 0 0 0 0 0.3 0.15.

(** The voters [DDMVoter.__init__] builds from these records: the four
    derived scalars are evaluated once. *)
Definition derived (f : DDM.DDMVoter -> Q) (r : result DDM.DDMVoter) : Q :=
  match r with
  | inr v => f v
  | inl _ => 0
  end.

Definition middle_mu : Q :=
  Eval vm_compute in derived DDM.mu (DDM.init "agent_0" middle_features DDM.default_params).
Definition middle_a : Q :=
  Eval vm_compute in derived DDM.a (DDM.init "agent_0" middle_features DDM.default_params).
Definition middle_z : Q :=
  Eval vm_compute in derived DDM.z (DDM.init "agent_0" middle_features DDM.default_params).
Definition middle_sigma : Q :=
  Eval vm_compute in derived DDM.sigma (DDM.init "agent_0" middle_features DDM.default_params).
Definition middle_voter : DDM.DDMVoter :=
  DDM.mkVoter "agent_0" middle_features DDM.default_params middle_mu middle_a middle_z middle_sigma
              None None.

Definition bold_mu : Q :=
  Eval vm_compute in derived DDM.mu (DDM.init "agent_0" bold_features low_threshold_params).
Definition bold_a : Q :=
  Eval vm_compute in derived DDM.a (DDM.init "agent_0" bold_features low_threshold_params).
Definition bold_z : Q :=
  Eval vm_compute in derived DDM.z (DDM.init "agent_0" bold_features low_threshold_params).
Definition bold_sigma : Q :=
  Eval vm_compute in derived DDM.sigma (DDM.init "agent_0" bold_features low_threshold_params).
Definition bold_voter : DDM.DDMVoter :=
  DDM.mkVoter "agent_0" bold_features low_threshold_params bold_mu bold_a bold_z bold_sigma
              None None.

Definition no_drift_mu : Q :=
  Eval vm_compute in derived DDM.mu (DDM.init "agent_0" middle_features no_drift_params).
Definition no_drift_a : Q :=
  Eval vm_compute in derived DDM.a (DDM.init "agent_0" middle_features no_drift_params).
Definition no_drift_z : Q :=
  Eval vm_compute in derived DDM.z (DDM.init "agent_0" middle_features no_drift_params).
Definition no_drift_sigma : Q :=
  Eval vm_compute in derived DDM.sigma (DDM.init "agent_0" middle_features no_drift_params).
Definition no_drift_voter : DDM.DDMVoter :=
  DDM.mkVoter "agent_0" middle_features no_drift_params no_drift_mu no_drift_a no_drift_z no_drift_sigma
              None None.

(** A voter whose civic duty is at the top of the scale. *)
Definition dutiful_voter : DDM.DDMVoter :=
  DDM.mkVoter "agent_1" (<["civic_duty" := 1.0]> bold_features) DDM.default_params
              0 1 0.5 0.2 None None.

(** A stand-in for [np.exp] where a value is needed: the first terms of
    the series. *)
Definition exp_series (x : Q) : Q := 1 + x + x * x / 2.

(** A configuration with one scenario and more keys under
    [drift_diffusion_model] than calibration fits. *)
Definition kerala : string := "Thiruvananthapuram, Kerala (2019)".

Definition sample_rules : dict :=
  [ ("population_size", JInt 3);
    ("civic_duty",
     JObj [ ("method", JStr "beta_distribution");
            ("parameters", JArr [JFloat 2.0; JFloat 2.0]) ]);
    ("habit_strength",
     JObj [ ("method", JStr "binomial_draw_normalized");
            ("parameters",
             JObj [ ("num_elections", JInt 5); ("probability", JFloat 0.7) ]) ]);
    ("education_normalized",
     JObj [ ("method", JStr "probabilistic_distribution");
            ("parameters", JObj [ ("literacy_rate", JFloat 0.93) ]) ]);
    ("urban",
     JObj [ ("method", JStr "probabilistic_assignment");
            ("parameters", JObj [ ("probability_urban", JFloat 0.5) ]) ]);
    ("social_pressure_sensitivity",
     JObj [ ("method", JStr "beta_distribution_from_proxy");
            ("parameters",
             JObj [ ("proxy_value", JFloat 0.4);
                    ("high_skew_params", JArr [JInt 5; JInt 2]);
                    ("low_skew_params", JArr [JInt 2; JInt 5]) ]) ]) ].

Definition sample_context : json :=
  JObj [ ("electoral_competitiveness", JFloat 0.6);
         ("voting_cost_total", JFloat 0.3) ].

Definition sample_scenario : json :=
  JObj [ ("scenario_name", JStr kerala);
         ("agent_generation_rules", JObj sample_rules);
         ("global_context", sample_context);
         ("validation_target", JObj [ ("value", JFloat 0.7337) ]) ].

Definition sample_calibration : dict :=
  [ ("drift_diffusion_model",
     JObj [ ("drift_rate_base", JFloat 0.1);
            ("threshold_base", JFloat 2.0);
            ("sigma_base", JFloat 0.2);
            ("drift_components",
             JObj [ ("beta_D", JFloat 0.15); ("beta_H", JFloat 0.18);
                    ("beta_S", JFloat 0.20); ("beta_C", JFloat (-0.14));
                    ("beta_EC", JFloat 0.08) ]) ]);
    ("utility_model", JObj [ ("weight", JFloat 1.0) ]) ].

Definition sample_members : dict :=
  [ ("feature_definitions", JObj []);
    ("simulation_scenarios", JArr [sample_scenario]);
    ("model_calibration_parameters", JObj sample_calibration) ].

Definition sample_config : json := JObj sample_members.

(** Two keys of [sample_config] that calibration does not fit. *)
Definition sigma_base_path : list string :=
  ["model_calibration_parameters"; "drift_diffusion_model"; "sigma_base"].
Definition beta_EC_path : list string :=
  ["model_calibration_parameters"; "drift_diffusion_model"; "drift_components";
   "beta_EC"].

(** A hypothesis whose description selects the civic_duty bins. *)
Definition HN1_tagged : Simulation.HypothesisConfig :=
  Simulation.mkHypothesis "HN1: monetary lottery more effective for low civic duty"
    "monetary" (Simulation.nudge_params Simulation.HN1) None "stratified".

(** A deterministic generator state: a counter, every draw returning a
    value read off it. *)
Definition counter_beta (alpha beta : Q) (s : nat) : Q * nat :=
  (alpha / (alpha + beta), S s).
Definition counter_random (s : nat) : Q * nat :=
  (inject_Z (Z.of_nat (s mod 10)) / 10, S s).
Definition counter_binomial (n p : Q) (s : nat) : Q * nat :=
  (inject_Z (Z.of_nat (s mod 2)), S s).
Definition counter_randint (lo hi : Z) (s : nat) : Z * nat := (lo, S s).
Definition plain_str (j : json) : string := "?".


Definition normal_rule : json :=
  JObj [ ("method", JStr "normal_distribution");
         ("parameters", JArr [JFloat 0.5; JFloat 0.1]) ].





(** Two respondents: one answered everything, one skipped three
    questions. *)
Definition two_respondents : Survey.DataFrame :=
  {[ "q2_frequency" := [Some 1; Some 3];
     "q3_effort_tradeoff" := [Some 2; None];
     "q4_perceived_impact" := [Some 4; Some 1];
     "q5_civic_duty" := [Some 2; None];
     "q7_trust" := [Some 3; Some 5];
     "q8_social_influence" := [Some 1; Some 2];
     "q9_information_load" := [Some 4; Some 4];
     "q10_disillusionment" := [Some 5; None];
     "q12_competitiveness" := [Some 2; Some 2] ]}.

(** Ten respondents with both scores, and no others. *)
Definition ten_scores : Survey.Series :=
  [Some 1; Some 2; Some 3; Some 4; Some 5; Some 1; Some 2; Some 3; Some 4; Some 5].
Definition ten_utilities : Survey.Series :=
  [Some 1.5; Some 2.0; Some 2.5; Some 3.0; Some 3.5;
   Some 1.0; Some 2.5; Some 3.0; Some 4.0; Some 4.5].
Definition ten_respondents : Survey.DataFrame :=
  {[ "civic_duty_score" := ten_scores; "voting_utility" := ten_utilities ]}.

(** Three rows for the cleaner: nothing answered, only the first
    question answered, everything answered. *)
Definition three_rows : gmap string (list VoterSurveyDataCleaner.cell) :=
  let blank := [VoterSurveyDataCleaner.NaN; VoterSurveyDataCleaner.NaN;
                VoterSurveyDataCleaner.Num 3] in
  <["q1_emotion" := [VoterSurveyDataCleaner.NaN; VoterSurveyDataCleaner.Num 2;
                     VoterSurveyDataCleaner.Num 3]]>
  (<["age_range" := [VoterSurveyDataCleaner.NaN; VoterSurveyDataCleaner.Str "18-24";
                     VoterSurveyDataCleaner.Str "25-34"]]>
   (list_to_map (List.map (fun c => (c, blank)) VoterSurveyDataCleaner.required_cols))).

Definition sample_cleaner : VoterSurveyDataCleaner.Cleaner :=
  VoterSurveyDataCleaner.mkCleaner three_rows ∅.

End Samples.

(* ===================================================================== *)
(** ** The rest of the pipeline *)
(* ===================================================================== *)

(** *** ddm_model.py: the simulated decision, the population and the loader *)

Module Decision.

Import DDM.
Local Open Scope Q_scope.

Section Walk.

(** The state of numpy's global generator; [np_random_normal_sqrt dt] is
    [np.random.normal(0, np.sqrt(dt))]. *)
Variable RNG : Type.
Variable np_random_normal_sqrt : Q -> RNG -> Q * RNG.

(** The assignments to [last_decision] and [last_decision_time]; a
    decision is 1 ([true], vote) or 0 ([false], abstain). *)
Definition decide (v : DDMVoter) (decision : bool) (t : Q) : DDMVoter :=
  mkVoter (voter_id v) (features v) (params v) (mu v) (a v) (z v) (sigma v)
          (Some decision) (Some t).

(** The [while t < max_time] loop of [simulate_decision], started at
    position [X] and time [t].  [None]: the loop is still running after
    [fuel] tests of its condition.  Otherwise the voter after the call,
    what the call returns or raises, and the generator state. *)
Fixpoint walk (fuel : nat) (v : DDMVoter) (dt max_time : Q) (method : string)
    (X t : Q) (g : RNG) : option (DDMVoter * result (bool * Q) * RNG) :=
  match fuel with
  | O => None
  | S fuel' =>
      if Qltb t max_time then
        let step (X' : Q) (g' : RNG) :=
          let t' := t + dt in
          if Qle_bool (a v) X' then Some (decide v true t', ok (true, t'), g')
          else if Qle_bool X' 0 then Some (decide v false t', ok (false, t'), g')
          else walk fuel' v dt max_time method X' t' g' in
        if String.eqb method "euler" then
          let '(dW, g') := np_random_normal_sqrt dt g in
          let dX := mu v * dt + sigma v * dW in
          step (X + dX) g'
        else if String.eqb method "exact" then
          let '(n, g') := np_random_normal_sqrt dt g in
          step (X + (mu v * dt + sigma v * n)) g'
        else
          Some (v, raise (ValueError ("Unknown method: " ++ method)), g)
      else
        let decision := Qltb (a v / 2) X in
        Some (decide v decision max_time, ok (decision, max_time), g)
  end.

(** [simulate_decision] *)
Definition simulate_decision (fuel : nat) (v : DDMVoter) (dt max_time : Q)
    (method : string) (g : RNG) : option (DDMVoter * result (bool * Q) * RNG) :=
  walk fuel v dt max_time method (z v) 0 g.

End Walk.

End Decision.

Module Population.

Import DDM.
Local Open Scope Q_scope.

Section Nudges.

Variable np_exp : Q -> Q.

(** [DDMPopulation.apply_nudges]: [nudge_assignment] maps a voter id to
    the type and the parameters of its nudge.  The voters are mutated in
    place, so the population is returned as the loop leaves it, also when a
    nudge raises: the voters after the failing one are then untouched. *)
Fixpoint apply_nudges (voters : list DDMVoter)
    (nudge_assignment : gmap string (string * gmap string Q))
    : list DDMVoter * result unit :=
  match voters with
  | [] => ([], ok tt)
  | voter :: rest =>
      match nudge_assignment !! voter_id voter with
      | Some nudge_spec =>
          let '(voter', r) := apply_nudge np_exp voter (fst nudge_spec) (snd nudge_spec) in
          match r with
          | inl e => (voter' :: rest, raise e)
          | inr _ =>
              let '(rest', r') := apply_nudges rest nudge_assignment in
              (voter' :: rest', r')
          end
      | None =>
          let '(rest', r') := apply_nudges rest nudge_assignment in
          (voter :: rest', r')
      end
  end.

(** The dict comprehension [{v.voter_id: {'type': ..., 'params': ...} for v
    in voters}]. *)
Fixpoint assignment (voters : list DDMVoter) (type : string) (prms : gmap string Q)
    (acc : gmap string (string * gmap string Q)) : gmap string (string * gmap string Q) :=
  match voters with
  | [] => acc
  | v :: rest => assignment rest type prms (<[voter_id v := (type, prms)]> acc)
  end.

End Nudges.

(** [load_ddm_parameters_from_config].  A coefficient is stored as it is
    read; one that is not a number makes the first arithmetic on it raise,
    which is reported here. *)
Definition get_float (obj : json) (k : string) (dflt : Q) : result Q :=
  let* x := Json.get obj k (JFloat dflt) in
  as_float x.

Definition load_ddm_parameters_from_config (config : json) : result DDMParameters :=
  let* mcp := Json.get config "model_calibration_parameters" (JObj []) in
  let* ddm_config := Json.get mcp "drift_diffusion_model" (JObj []) in
  let params := default_params in
  let* drift_components := Json.get ddm_config "drift_components" (JObj []) in
  let* bD := get_float drift_components "beta_D" (beta_D params) in
  let* bH := get_float drift_components "beta_H" (beta_H params) in
  let* bS := get_float drift_components "beta_S" (beta_S params) in
  let* bC := get_float drift_components "beta_C" (beta_C params) in
  let* base := get_float ddm_config "drift_rate_base" (drift_rate_base params) in
  let* thr := get_float ddm_config "threshold_base" (threshold_base params) in
  ok (mkParams bD (beta_PI params) (beta_IS params) bS bH bC (beta_EC params)
               (beta_OC params) base thr (sigma_base params) (gamma_risk params)
               (gamma_edu params) (gamma_OC params) (alpha_H params) (alpha_PI params)
               (alpha_D params) (nu_edu params) (nu_OC params)).

End Population.

(** *** calibration.py: the parameter vector *)

Module Calibration.

Import DDM.

(** [_array_to_params]; [None] is the [IndexError] of an array shorter
    than six. *)
Definition _array_to_params (params_array : list Q) : option DDMParameters :=
  let params := default_params in
  x0 ← params_array !! 0%nat;
  x1 ← params_array !! 1%nat;
  x2 ← params_array !! 2%nat;
  x3 ← params_array !! 3%nat;
  x4 ← params_array !! 4%nat;
  x5 ← params_array !! 5%nat;
  Some (mkParams x2 (beta_PI params) (beta_IS params) x4 x3 x5 (beta_EC params)
                 (beta_OC params) x0 x1 (sigma_base params) (gamma_risk params)
                 (gamma_edu params) (gamma_OC params) (alpha_H params) (alpha_PI params)
                 (alpha_D params) (nu_edu params) (nu_OC params)).

(** [_params_to_array] *)
Definition _params_to_array (params : DDMParameters) : list Q :=
  [ drift_rate_base params; threshold_base params; beta_D params;
    beta_H params; beta_S params; beta_C params ].

(** The parameters that keep the six fitted coefficients of [p] and take
    the default for every other one. *)
Definition fitted (p : DDMParameters) : DDMParameters :=
  mkParams (beta_D p) (beta_PI default_params) (beta_IS default_params) (beta_S p)
           (beta_H p) (beta_C p) (beta_EC default_params) (beta_OC default_params)
           (drift_rate_base p) (threshold_base p) (sigma_base default_params)
           (gamma_risk default_params) (gamma_edu default_params)
           (gamma_OC default_params) (alpha_H default_params) (alpha_PI default_params)
           (alpha_D default_params) (nu_edu default_params) (nu_OC default_params).

End Calibration.

(** *** simulation.py: the nudge experiment and the comparison of nudges *)

Module Experiment.

Import DDM.
Local Open Scope Q_scope.

(** [int(x)]: truncation toward zero. *)
Definition py_int (x : Q) : Z := if Qle_bool 0 x then Qfloor x else Qceiling x.

(** The position a slice bound denotes in a list of [len] items: a
    negative bound counts from the end, and the result is clamped to
    [0, len]. *)
Definition slice_index (len : nat) (i : Z) : nat :=
  if (0 <=? i)%Z then Nat.min (Z.to_nat i) len else (len - Z.to_nat (- i))%nat.

(** [l[start:stop]] for bounds that are positions already. *)
Definition slice {A : Type} (l : list A) (start stop : nat) : list A :=
  take (stop - start) (drop start l).

(** The list after its items from [start] on were mutated into [items]. *)
Definition splice {A : Type} (l : list A) (start : nat) (items : list A) : list A :=
  take start l ++ items ++ drop (start + length items) l.

Record ExperimentResult : Type := mkExperimentResult {
  control_turnout : Q;
  treatment_turnout : Q;
  average_treatment_effect : Q;
  (** [None]: the quotient of numpy floats by a zero control turnout,
      which is an infinity or NaN. *)
  relative_effect : option Q
}.

(** An entry of the result dict of [_test_nudge_comparison]: the control
    entry has a turnout only. *)
Record Arm : Type := mkArm {
  turnout : Q;
  arm_effect : option Q
}.

Fixpoint set_arm (results : list (string * Arm)) (k : string) (x : Arm)
    : list (string * Arm) :=
  match results with
  | [] => [(k, x)]
  | (k', x') :: rest =>
      if String.eqb k' k then (k', x) :: rest else (k', x') :: set_arm rest k x
  end.

(** [{k: v['effect'] for k, v in results.items() if k != 'control'}] *)
Fixpoint effects_of (results : list (string * Arm)) : result (list (string * Q)) :=
  match results with
  | [] => ok []
  | (k, v) :: rest =>
      if String.eqb k "control" then effects_of rest
      else
        let* e := match arm_effect v with
                  | Some e => ok e
                  | None => raise (KeyError "effect")
                  end in
        let* es := effects_of rest in
        ok ((k, e) :: es)
  end.

(** [max(effects, key=effects.get)]: the first key whose value no later
    one exceeds. *)
Fixpoint max_key (best : string) (best_value : Q) (effects : list (string * Q)) : string :=
  match effects with
  | [] => best
  | (k, e) :: rest =>
      if Qltb best_value e then max_key k e rest else max_key best best_value rest
  end.

Definition py_max_key (effects : list (string * Q)) : result string :=
  match effects with
  | [] => raise (ValueError "max() arg is an empty sequence")
  | (k, e) :: rest => ok (max_key k e rest)
  end.

Definition social_norm_params : gmap string Q :=
  {[ "revealed_turnout" := 0.75; "prior_belief" := 0.5 ]}.
Definition competitiveness_params : gmap string Q :=
  {[ "competitiveness_info" := 0.8 ]}.

Definition nudge_params_map : gmap string (gmap string Q) :=
  {[ "social_norm" := social_norm_params;
     "competitiveness" := competitiveness_params ]}.

(** The bounds of the group of the [i]-th nudge. *)
Definition start_idx (n_per_group i : nat) : nat := (n_per_group * (i + 1))%nat.
Definition end_idx (len n_per_group i : nat) : nat :=
  if (i =? 0)%nat then (n_per_group * (i + 2))%nat else len.

Section Orchestrator.

Variable np_exp : Q -> Q.
Variable RNG : Type.
(** The turnout rate of [DDMPopulation.simulate_election] with
    use_analytical=True, the default of [run_nudge_experiment] and the mode
    [_test_nudge_comparison] asks for: it reads the voters and draws from
    the generator, and changes no voter. *)
Variable simulate_election : list DDMVoter -> RNG -> result (Q * RNG).

(** [run_nudge_experiment]: the voters of the simulation after the call
    (the treated ones are mutated in place) and what the call returns. *)
Definition run_nudge_experiment (voters : list DDMVoter) (nudge_type : string)
    (nudge_params : gmap string Q) (treatment_fraction : Q) (rng : RNG)
    : list DDMVoter * result (ExperimentResult * RNG) :=
  let n_control :=
    py_int (inject_Z (Z.of_nat (length voters)) * (1 - treatment_fraction)) in
  let k := slice_index (length voters) n_control in
  let control_voters := take k voters in
  match simulate_election control_voters rng with
  | inl e => (voters, raise e)
  | inr (c, rng1) =>
      let treatment_voters := drop k voters in
      let nudge_assignment :=
        Population.assignment treatment_voters nudge_type nudge_params ∅ in
      let '(treated, r) :=
        Population.apply_nudges np_exp treatment_voters nudge_assignment in
      let voters' := splice voters k treated in
      match r with
      | inl e => (voters', raise e)
      | inr _ =>
          match simulate_election treated rng1 with
          | inl e => (voters', raise e)
          | inr (t, rng2) =>
              let ate := t - c in
              (voters',
               ok (mkExperimentResult c t ate
                     (if Qeq_bool c 0 then None else Some (ate / c)), rng2))
          end
      end
  end.

(** The body of the loop over [enumerate(nudge_types)], from index [i]. *)
Fixpoint comparison_loop (voters : list DDMVoter) (n_per_group : nat) (c : Q)
    (i : nat) (nudge_types : list string) (results : list (string * Arm)) (rng : RNG)
    : list DDMVoter * result (list (string * Arm) * RNG) :=
  match nudge_types with
  | [] => (voters, ok (results, rng))
  | nudge_type :: rest =>
      let len := length voters in
      let start := Nat.min (start_idx n_per_group i) len in
      let stop := Nat.min (end_idx len n_per_group i) len in
      let treatment_voters := slice voters start stop in
      (* the comprehension evaluates [nudge_params_map[nudge_type]] once
         per treated voter *)
      let assigned : result (gmap string (string * gmap string Q)) :=
        match treatment_voters with
        | [] => ok ∅
        | _ => match nudge_params_map !! nudge_type with
               | Some prms =>
                   ok (Population.assignment treatment_voters nudge_type prms ∅)
               | None => raise (KeyError nudge_type)
               end
        end in
      match assigned with
      | inl e => (voters, raise e)
      | inr nudge_assignment =>
          let '(treated, r) :=
            Population.apply_nudges np_exp treatment_voters nudge_assignment in
          let voters' := splice voters start treated in
          match r with
          | inl e => (voters', raise e)
          | inr _ =>
              match simulate_election treated rng with
              | inl e => (voters', raise e)
              | inr (t, rng') =>
                  comparison_loop voters' n_per_group c (S i) rest
                    (set_arm results nudge_type (mkArm t (Some (t - c)))) rng'
              end
          end
      end
  end.

Record Comparison : Type := mkComparison {
  arms : list (string * Arm);
  winner : string
}.

(** [_test_nudge_comparison] *)
Definition _test_nudge_comparison (voters : list DDMVoter) (nudge_types : list string)
    (rng : RNG) : list DDMVoter * result (Comparison * RNG) :=
  let n_per_group := (length voters / 3)%nat in
  let control_voters := take n_per_group voters in
  match simulate_election control_voters rng with
  | inl e => (voters, raise e)
  | inr (c, rng1) =>
      let '(voters', r) :=
        comparison_loop voters n_per_group c 0 nudge_types
                        [("control", mkArm c None)] rng1 in
      (voters',
       let* out := r in
       let* effects := effects_of (fst out) in
       let* w := py_max_key effects in
       (* [results['winner'] = winner] takes the place of an arm of that name *)
       ok (mkComparison
             (List.filter (fun kv => negb (String.eqb (fst kv) "winner")) (fst out)) w,
           snd out))
  end.

End Orchestrator.

End Experiment.

(** *** simulation.py: counting the voters of the strata *)

Module Strata.

Import DDM.
Local Open Scope Q_scope.

(** The test [lower <= x < upper] on the value a voter has for the
    stratification variable. *)
Definition within (strata_var : string) (lower upper : Q) (v : DDMVoter) : bool :=
  match features v !! strata_var with
  | Some x => Qle_bool lower x && Qltb x upper
  | None => false
  end.

(** The number of voters in the groups of a stratified test. *)
Definition group_sizes (groups : list (string * list DDMVoter)) : nat :=
  fold_right (fun g acc => (length (snd g) + acc)%nat) 0%nat groups.

End Strata.

(** *** agent_generator.py: the defaults *)

Module Defaults.

(** The [defaults] dict of [_add_default_features] for an agent without
    partisan_identity_strength, given the age that was drawn. *)
Definition defaults (age : Z) : dict :=
  [ ("age", JInt age); ("issue_salience", JFloat 0.5);
    ("partisan_identity_strength", JFloat 0.5);
    ("perceived_integrity", JFloat 0.6);
    ("personality_match_candidate", JFloat 0.5) ].

End Defaults.

(** *** The composite scores: their columns and their ranges *)

Module Scores.

Local Open Scope Q_scope.

(** The names of the columns [create_composite_scores] writes. *)
Definition composite_columns : list string :=
  [ "civic_duty_score"; "social_pressure_score"; "habit_score"; "cost_score";
    "benefit_score"; "trust_score"; "engagement_score"; "voting_utility" ].

(** A score that is missing or lies in [lo, hi]. *)
Definition in_range (lo hi : Q) (x : option Q) : Prop :=
  match x with
  | Some q => lo <= q <= hi
  | None => True
  end.

End Scores.

(** *** hypothesis_testing.py: the reported coefficients *)

Module HypothesisTests.

Import Survey.
Local Open Scope Q_scope.

(** [x if x else d]: [None] and a zero are false. *)
Definition or_else (x : option Q) (d : Q) : Q :=
  match x with
  | Some q => if Qeq_bool q 0 then d else q
  | None => d
  end.

Section Tests.

Variable pearsonr : list Q -> list Q -> Q * Q.

(** [test_competitiveness_hypothesis]: the dict with the keys r and p. *)
Definition test_competitiveness_hypothesis (df : DataFrame) : result (Q * Q) :=
  let* rpn := HypothesisTester.safe_corr pearsonr df "q12_competitiveness" "voting_utility" in
  let '(r, p, n) := rpn in
  ok (or_else r 0, or_else p 1).

End Tests.

End HypothesisTests.

(** *** clean_data.py: the other steps of the pipeline

    Each step is given by the table it leaves in [self.df]; the summaries
    it prints or stores in the report are not part of the model. *)

Module CleaningSteps.

Import VoterSurveyDataCleaner.
Local Open Scope Q_scope.

Abbreviation frame := (gmap string (list cell)).








(** [.isna().sum(axis=1)] *)
Definition sum_axis1 (cs : list (list bool)) : list nat :=
  match cs with
  | [] => []
  | c :: _ =>
      List.map (fun i => length (List.filter (fun s : list bool => default false (s !! i)) cs))
               (seq 0 (length c))
  end.

Definition categorize_quality (missing_count : nat) : string :=
  if (missing_count =? 0)%nat then "Complete"
  else if (missing_count <=? 3)%nat then "Mostly Complete (>75%)"
  else if (missing_count <=? 6)%nat then "Partial (50-75%)"
  else "Minimal (<50%)".

Definition count_cell (m : nat) : cell := Num (inject_Z (Z.of_nat m)).

Definition rate (m : nat) : Q :=
  (inject_Z (Z.of_nat (length required_cols)) - inject_Z (Z.of_nat m))
  / inject_Z (Z.of_nat (length required_cols)) * 100.

(** [assess_completeness]: the four columns it writes. *)
Definition assess_completeness (d : frame) : result frame :=
  let* questions := select d required_cols in
  let missing_count := sum_axis1 (List.map (List.map isna) questions) in
  let d := <["missing_count" := List.map count_cell missing_count]> d in
  let d := <["completeness_rate" := List.map (fun m => Num (rate m)) missing_count]> d in
  let d := <["is_complete" := List.map (fun m => Flag (m =? 0)%nat) missing_count]> d in
  ok (<["response_quality" := List.map (fun m => Str (categorize_quality m)) missing_count]> d).

(** The truth value of a cell in an [if]: NaN is a non-zero float. *)
Definition truthy (x : cell) : bool :=
  match x with
  | NaN => true
  | Num q => negb (Qeq_bool q 0)
  | Str s => negb (String.eqb s "")
  | Flag b => b
  end.

(** [row[c]] and [row.get(c, False)] for row [i]. *)
Definition row_item (d : frame) (c : string) (i : nat) : result cell :=
  match d !! c with
  | Some s => ok (default NaN (s !! i))
  | None => raise (KeyError c)
  end.

Definition row_get (d : frame) (c : string) (i : nat) : cell :=
  match d !! c with
  | Some s => default NaN (s !! i)
  | None => Flag false
  end.

Definition is_str (x : cell) (s : string) : bool :=
  match x with
  | Str s' => String.eqb s' s
  | _ => false
  end.

(** The list [flags] built for row [i]. *)
Definition row_flags (d : frame) (i : nat) : result (list string) :=
  let* removal := row_item d "recommended_for_removal" i in
  let* demographics := row_item d "missing_all_demographics" i in
  let* quality := row_item d "response_quality" i in
  ok ((if truthy removal then ["REMOVE"] else [])
      ++ (if truthy (row_get d "is_duplicate" i) then ["DUPLICATE"] else [])
      ++ (if truthy (row_get d "possible_straightlining" i) then ["STRAIGHTLINING"] else [])
      ++ (if truthy (row_get d "suspicious_timing" i) then ["FAST_RESPONSE"] else [])
      ++ (if truthy demographics then ["NO_DEMOGRAPHICS"] else [])
      ++ (if is_str quality "Minimal (<50%)" then ["LOW_COMPLETION"] else []))%list.

(** ['; '.join(flags) if flags else 'CLEAN'] *)
Fixpoint join (sep : string) (l : list string) : string :=
  match l with
  | [] => ""
  | [s] => s
  | s :: rest => s ++ sep ++ join sep rest
  end.

Definition quality_flag (flags : list string) : string :=
  match flags with
  | [] => "CLEAN"
  | _ => join "; " flags
  end.

Fixpoint quality_flags (d : frame) (rows : list nat) : result (list cell) :=
  match rows with
  | [] => ok []
  | i :: rest =>
      let* flags := row_flags d i in
      let* others := quality_flags d rest in
      ok (Str (quality_flag flags) :: others)
  end.

(** [create_quality_flags] on a table of [n] rows. *)
Definition create_quality_flags (n : nat) (d : frame) : result frame :=
  let* flags := quality_flags d (seq 0 n) in
  ok (<["quality_flags" := flags]> d).

(** Equal values in [duplicated]: missing values are equal to each other,
    a boolean is the number 0 or 1. *)
Definition same_value (x y : cell) : bool :=
  match x, y with
  | NaN, NaN => true
  | Str s, Str t => String.eqb s t
  | Str _, _ | _, Str _ => false
  | NaN, _ | _, NaN => false
  | Num p, Num q => Qeq_bool p q
  | Num p, Flag b | Flag b, Num p => Qeq_bool p (if b then 1 else 0)
  | Flag a, Flag b => Bool.eqb a b
  end.

Definition answers (questions : list (list cell)) (i : nat) : list cell :=
  List.map (fun s : list cell => default NaN (s !! i)) questions.

Definition same_answers (questions : list (list cell)) (i j : nat) : bool :=
  forallb (fun s : list cell => same_value (default NaN (s !! i)) (default NaN (s !! j)))
          questions.

(** [df.duplicated(subset=required_cols, keep='first')] *)
Definition duplicated (questions : list (list cell)) : list bool :=
  match questions with
  | [] => []
  | c :: _ =>
      List.map (fun i => existsb (fun j => same_answers questions j i) (seq 0 i))
               (seq 0 (length c))
  end.

(** [detect_duplicates]: the scalar [False] is broadcast over the rows,
    which are as many as the mask has entries. *)
Definition detect_duplicates (d : frame) : result frame :=
  let* questions := select d required_cols in
  let duplicate_mask := duplicated questions in
  let duplicate_count := count_true duplicate_mask in
  if (0 <? duplicate_count)%Z
  then ok (<["is_duplicate" := List.map Flag duplicate_mask]> d)
  else ok (<["is_duplicate" := replicate (length duplicate_mask) (Flag false)]> d).

(** [df[~df['recommended_for_removal']]]: the rows whose flag is false. *)
Definition keep_rows (mask : list bool) {A : Type} (s : list A) : list A :=
  List.map snd (List.filter (fun mx : bool * A => fst mx) (zip mask s)).

Definition negate (x : cell) : result bool :=
  match x with
  | Flag b => ok (negb b)
  | _ => raise (TypeError "bad operand type for unary ~")
  end.

Fixpoint negate_all (s : list cell) : result (list bool) :=
  match s with
  | [] => ok []
  | x :: rest =>
      let* b := negate x in
      let* bs := negate_all rest in
      ok (b :: bs)
  end.

(** [save_cleaned_data]: the table that is written to the CSV file. *)
Definition save_cleaned_data (d : frame) (remove_flagged : bool) : result frame :=
  let* df_output :=
    if remove_flagged then
      match d !! "recommended_for_removal" with
      | None => raise (KeyError "recommended_for_removal")
      | Some flags =>
          let* keep := negate_all flags in
          ok (keep_rows keep <$> d)
      end
    else ok d in
  ok (delete "time_diff_seconds" df_output).



(** The number of required questions row [i] leaves unanswered. *)
Definition missing_in (d : frame) (i : nat) : nat :=
  length (List.filter (fun c => match at_ d c i with
                                | Some x => isna x
                                | None => false
                                end) required_cols).

(** Rows [j] and [i] give equal values to every required question. *)
Definition same_row (d : frame) (j i : nat) : bool :=
  forallb (fun c => match at_ d c j, at_ d c i with
                    | Some x, Some y => same_value x y
                    | _, _ => false
                    end) required_cols.

End CleaningSteps.

(** *** Sample inputs of the properties below *)

Module Runs.

Import DDM.
Local Open Scope Q_scope.

(** A feature record that lacks risk_aversion. *)
Definition no_risk_features : gmap string Q :=
  {[ "civic_duty" := 0.5; "habit_strength" := 0.5;
     "social_pressure_sensitivity" := 0.5;
     "education_normalized" := 0.5; "overconfidence" := 0.5;
     "voting_cost_total" := 0.5; "electoral_competitiveness" := 0.5 ]}.

(** A generator whose normal draws are all zero, and an election that
    reports a turnout of one half. *)
Definition steady_normal (dt : Q) (g : nat) : Q * nat := (0, S g).

Definition even_election (voters : list DDMVoter) (g : nat) : result (Q * nat) :=
  ok (0.5, S g).

Definition two_voters : list DDMVoter := [Samples.middle_voter; Samples.bold_voter].

Definition three_voters : list DDMVoter :=
  [Samples.middle_voter; Samples.bold_voter; Samples.dutiful_voter].

(** Two social-norm experiments in a row on [two_voters], half of them
    treated. *)
Definition no_experiment : Experiment.ExperimentResult * nat :=
  (Experiment.mkExperimentResult 0 0 0 None, O).

Definition experiment_on (voters : list DDMVoter) (g : nat)
    : list DDMVoter * result (Experiment.ExperimentResult * nat) :=
  Experiment.run_nudge_experiment Samples.exp_series nat even_election voters
                                  "social_norm" ∅ 0.5 g.

Definition returned {A : Type} (dflt : A) (r : result A) : A :=
  match r with
  | inr x => x
  | inl _ => dflt
  end.

Definition after_first : list DDMVoter := fst (experiment_on two_voters 0).
Definition first_result : Experiment.ExperimentResult * nat :=
  returned no_experiment (snd (experiment_on two_voters 0)).
Definition after_second : list DDMVoter := fst (experiment_on after_first 2).
Definition second_result : Experiment.ExperimentResult * nat :=
  returned no_experiment (snd (experiment_on after_first 2)).

(** The comparison of the two nudges of HN2 on [three_voters]. *)
Definition comparison_run
    : list DDMVoter * result (Experiment.Comparison * nat) :=
  Experiment._test_nudge_comparison Samples.exp_series nat even_election three_voters
                                    ["social_norm"; "competitiveness"] O.

Definition after_comparison : list DDMVoter := fst comparison_run.
Definition comparison_result : Experiment.Comparison * nat :=
  returned (Experiment.mkComparison [] "", O) (snd comparison_run).

(** A scenario of no agents whose only rule names a method the generator
    does not have. *)
Definition empty_rules : json :=
  JObj [ ("population_size", JInt 0); ("civic_duty", Samples.normal_rule) ].

Definition empty_scenario : json :=
  JObj [ ("scenario_name", JStr Samples.kerala);
         ("agent_generation_rules", empty_rules);
         ("global_context", JObj []);
         ("validation_target", JObj [ ("value", JFloat 0.7337) ]) ].

Definition empty_config : json :=
  JObj [ ("simulation_scenarios", JArr [empty_scenario]) ].

(** Ten respondents with a competitiveness answer and a voting utility,
    and a correlation routine that reports a perfect fit. *)
Definition competitive : Survey.DataFrame :=
  <["q12_competitiveness" := Samples.ten_scores]> Samples.ten_respondents.

Definition perfect_fit (xs ys : list Q) : Q * Q := (1, 0).

(** The three rows of the cleaner with the demographics flag. *)
Definition three_rows_flagged : gmap string (list VoterSurveyDataCleaner.cell) :=
  <["missing_all_demographics" :=
      [VoterSurveyDataCleaner.Flag true; VoterSurveyDataCleaner.Flag false;
       VoterSurveyDataCleaner.Flag false]]> Samples.three_rows.

End Runs.

(* ===================================================================== *)
(** * Properties *)
(* ===================================================================== *)

(** ** Facts about the prelude *)

Module PyFacts.

Local Open Scope Q_scope.

Lemma Qltb_lt (x y : Q) : Qltb x y = true <-> x < y.
Proof.
  unfold Qltb. rewrite negb_true_iff.
  split; intros H.
  - apply Qnot_le_lt. intros Hle. apply Qle_bool_iff in Hle. congruence.
  - destruct (Qle_bool y x) eqn:E; [|reflexivity].
    apply Qle_bool_iff in E. exfalso. apply (Qlt_not_le _ _ H E).
Qed.

Lemma Qltb_ge (x y : Q) : Qltb x y = false <-> y <= x.
Proof.
  unfold Qltb. rewrite negb_false_iff. apply Qle_bool_iff.
Qed.

Lemma Qltb_cases (x y : Q) :
  (Qltb x y = true /\ x < y) \/ (Qltb x y = false /\ y <= x).
Proof.
  destruct (Qltb x y) eqn:E.
  - left. split; [reflexivity|]. now apply Qltb_lt.
  - right. split; [reflexivity|]. now apply Qltb_ge.
Qed.

Lemma py_max_floor (x floor : Q) : x < floor -> py_max x floor = floor.
Proof. intros H. unfold py_max. apply Qltb_lt in H. now rewrite H. Qed.

Lemma py_max_keep (x floor : Q) : floor <= x -> py_max x floor = x.
Proof. intros H. unfold py_max. apply Qltb_ge in H. now rewrite H. Qed.

Lemma py_max_lower (x floor : Q) : floor <= py_max x floor.
Proof.
  unfold py_max. destruct (Qltb_cases x floor) as [[-> _]|[-> H]]; [apply Qle_refl|exact H].
Qed.

Lemma np_clip_bounds (x lo hi : Q) : lo <= hi -> lo <= np_clip x lo hi <= hi.
Proof.
  intros Hlh. unfold np_clip, np_minimum, np_maximum.
  destruct (Qltb_cases x lo) as [[-> Hx]|[-> Hx]].
  - destruct (Qltb_cases hi lo) as [[-> H]|[-> H]]; lra.
  - destruct (Qltb_cases hi x) as [[-> H]|[-> H]]; lra.
Qed.

Lemma truediv_ok (x y : Q) : ~ y == 0 -> truediv x y = ok (x / y).
Proof.
  intros H. unfold truediv. destruct (Qeq_bool y 0) eqn:E; [|reflexivity].
  apply Qeq_bool_eq in E. contradiction.
Qed.

Lemma truediv_zero (x y : Q) : y == 0 -> truediv x y = raise ZeroDivisionError.
Proof. intros H. unfold truediv. now rewrite (Qeq_eq_bool _ _ H). Qed.

Lemma getitem_some (d : gmap string Q) (k : string) (x : Q) :
  d !! k = Some x -> Py.getitem d k = ok x.
Proof. intros H. unfold Py.getitem. now rewrite H. Qed.

End PyFacts.

(** ** ddm_model.py: construction *)

Module DDMFacts.

Import DDM PyFacts.
Local Open Scope Q_scope.

(** The eight required features of a record that has them all. *)
Lemma required_present (f : gmap string Q) :
  (forall k, In k required -> is_Some (f !! k)) ->
  exists cd hs sp ra edu oc vc ec,
    f !! "civic_duty" = Some cd /\ f !! "habit_strength" = Some hs /\
    f !! "social_pressure_sensitivity" = Some sp /\ f !! "risk_aversion" = Some ra /\
    f !! "education_normalized" = Some edu /\ f !! "overconfidence" = Some oc /\
    f !! "voting_cost_total" = Some vc /\ f !! "electoral_competitiveness" = Some ec.
Proof.
  intros H.
  destruct (H "civic_duty") as [cd Hcd]; [simpl; tauto|].
  destruct (H "habit_strength") as [hs Hhs]; [simpl; tauto|].
  destruct (H "social_pressure_sensitivity") as [sp Hsp]; [simpl; tauto|].
  destruct (H "risk_aversion") as [ra Hra]; [simpl; tauto|].
  destruct (H "education_normalized") as [edu Hedu]; [simpl; tauto|].
  destruct (H "overconfidence") as [oc Hoc]; [simpl; tauto|].
  destruct (H "voting_cost_total") as [vc Hvc]; [simpl; tauto|].
  destruct (H "electoral_competitiveness") as [ec Hec]; [simpl; tauto|].
  exists cd, hs, sp, ra, edu, oc, vc, ec. tauto.
Qed.

Lemma validate_ok (f : gmap string Q) :
  (forall k, In k required -> is_Some (f !! k)) -> _validate_features f = ok tt.
Proof.
  intros H. destruct (required_present f H)
    as (cd & hs & sp & ra & edu & oc & vc & ec & H1 & H2 & H3 & H4 & H5 & H6 & H7 & H8).
  unfold _validate_features, required. simpl.
  rewrite H1, H2, H3, H4, H5, H6, H7, H8. reflexivity.
Qed.

(** A voter returned by [__init__] was built from a record that has the
    required features. *)
Lemma init_ok_required (vid : string) (f : gmap string Q) (p : DDMParameters)
    (v : DDMVoter) :
  init vid f p = ok v -> forall k, In k required -> is_Some (f !! k).
Proof.
  unfold init, _validate_features. intros H k Hk.
  destruct (List.filter _ required) eqn:E; [|discriminate H].
  destruct (f !! k) eqn:Ek; [eauto|].
  assert (Hin : In k (List.filter (fun k => negb (bool_decide (is_Some (f !! k)))) required)).
  { apply filter_In. split; [exact Hk|]. rewrite Ek. reflexivity. }
  rewrite E in Hin. destruct Hin.
Qed.

End DDMFacts.

(** ** ddm_model.py: the derived scalars and the analytical probability *)

Module DDMTheorems.

Import DDM PyFacts DDMFacts Samples.
Local Open Scope Q_scope.

(** [__init__] on a record that has the required features: either the
    threshold formula divides by zero, or the voter is the record of the
    four derived scalars. *)
Lemma init_unfold (vid : string) (f : gmap string Q) (p : DDMParameters) :
  (forall k, In k required -> is_Some (f !! k)) ->
  (exists oc, f !! "overconfidence" = Some oc /\ 1 + gamma_OC p * oc == 0 /\
              init vid f p = raise ZeroDivisionError)
  \/
  (exists mu0 a0 zp s0,
     _compute_drift_rate f p = ok mu0 /\
     raw_threshold f p = ok a0 /\ raw_z_proportion f p = ok zp /\ raw_sigma f p = ok s0 /\
     init vid f p =
       ok (mkVoter vid f p mu0 (py_max a0 0.5)
                   (py_max a0 0.5 * np_clip zp 0.1 0.9) (py_max s0 0.05) None None)).
Proof.
  intros H. pose proof (validate_ok f H) as Hval.
  destruct (required_present f H)
    as (cd & hs & sp & ra & edu & oc & vc & ec & H1 & H2 & H3 & H4 & H5 & H6 & H7 & H8).
  unfold init. rewrite Hval. cbn [bind].
  unfold _compute_drift_rate, _compute_threshold, raw_threshold,
    _compute_starting_point, z_proportion, raw_z_proportion,
    _compute_diffusion_coefficient, raw_sigma.
  rewrite !(getitem_some f _ _ H1), !(getitem_some f _ _ H2), !(getitem_some f _ _ H3),
    !(getitem_some f _ _ H4), !(getitem_some f _ _ H5), !(getitem_some f _ _ H6),
    !(getitem_some f _ _ H7), !(getitem_some f _ _ H8).
  cbn [bind ok].
  destruct (Qeq_bool (1 + gamma_OC p * oc) 0) eqn:Ediv.
  - left. exists oc. split; [exact H6|]. split; [now apply Qeq_bool_eq|].
    unfold truediv. rewrite Ediv. reflexivity.
  - right. unfold truediv. rewrite Ediv. cbn [bind ok].
    eexists _, _, _, _. repeat (split; [reflexivity|]). reflexivity.
Qed.

(** The floors hold for every voter [__init__] returns. *)
Lemma init_floors (vid : string) (f : gmap string Q) (p : DDMParameters) (v : DDMVoter) :
  init vid f p = ok v -> 0.5 <= a v /\ 0.05 <= sigma v.
Proof.
  intros Hv.
  destruct (init_unfold vid f p (init_ok_required vid f p v Hv))
    as [(oc & _ & _ & He)|(mu0 & a0 & zp & s0 & _ & _ & _ & _ & He)];
    rewrite He in Hv; [discriminate|].
  injection Hv as <-. cbn [a sigma]. split; apply py_max_lower.
Qed.

(** C3. A voter built from a feature record that has the eight required
    features satisfies a >= 0.5, sigma >= 0.05 and z = a * p with the
    proportion p clipped to [0.1, 0.9], hence 0.1 a <= z <= 0.9 a; a raw
    threshold below 0.5 gives exactly 0.5 and a raw diffusion below 0.05
    gives exactly 0.05.  Construction fails on such a record only when the
    threshold formula divides by zero. *)
Theorem construction_invariants (vid : string) (f : gmap string Q) (p : DDMParameters) :
  (forall k, In k required -> is_Some (f !! k)) ->
  (exists oc, f !! "overconfidence" = Some oc /\ 1 + gamma_OC p * oc == 0 /\
              init vid f p = raise ZeroDivisionError)
  \/
  (exists v a0 zp s0,
     init vid f p = ok v /\
     raw_threshold f p = ok a0 /\ raw_z_proportion f p = ok zp /\ raw_sigma f p = ok s0 /\
     a v = py_max a0 0.5 /\ 0.5 <= a v /\ (a0 < 0.5 -> a v = 0.5) /\
     sigma v = py_max s0 0.05 /\ 0.05 <= sigma v /\ (s0 < 0.05 -> sigma v = 0.05) /\
     z v = a v * np_clip zp 0.1 0.9 /\
     0.1 <= np_clip zp 0.1 0.9 <= 0.9 /\
     0.1 * a v <= z v <= 0.9 * a v).
Proof.
  intros H.
  destruct (init_unfold vid f p H)
    as [Hz|(mu0 & a0 & zp & s0 & Hmu & Ha & Hzp & Hs & He)]; [left; exact Hz|].
  right. eexists _, a0, zp, s0. split; [exact He|]. cbn [a z sigma].
  repeat (split; [assumption|]).
  split; [reflexivity|]. split; [apply py_max_lower|].
  split; [apply py_max_floor|].
  split; [reflexivity|]. split; [apply py_max_lower|].
  split; [apply py_max_floor|].
  split; [reflexivity|].
  pose proof (np_clip_bounds zp 0.1 0.9 ltac:(lra)) as Hc.
  pose proof (py_max_lower a0 0.5) as Hfloor.
  split; [exact Hc|]. nra.
Qed.

Section AnalyticalFacts.

Variable np_exp : Q -> Q.

(** C1. For a voter returned by the constructor,
    [compute_analytical_probability] returns z/a when |mu| < 1e-6;
    otherwise, with the numerator and denominator of the closed form, it
    returns 1.0 (mu > 0) or 0.0 (otherwise) when the denominator is below
    1e-10 in magnitude, and the quotient clipped to [0, 1] in the remaining
    case.  No division raises on such a voter. *)
Theorem analytical_probability_cases (vid : string) (f : gmap string Q)
    (p : DDMParameters) (v : DDMVoter) :
  init vid f p = ok v ->
  (Qabs (mu v) < 0.000001 ->
     compute_analytical_probability np_exp v = ok (z v / a v)) /\
  (~ Qabs (mu v) < 0.000001 ->
     let num := 1 - np_exp (-2 * mu v * z v / sigma v ^ 2) in
     let den := 1 - np_exp (-2 * mu v * a v / sigma v ^ 2) in
     (Qabs den < 0.0000000001 -> 0 < mu v ->
        compute_analytical_probability np_exp v = ok 1.0) /\
     (Qabs den < 0.0000000001 -> ~ 0 < mu v ->
        compute_analytical_probability np_exp v = ok 0.0) /\
     (~ Qabs den < 0.0000000001 ->
        compute_analytical_probability np_exp v = ok (np_clip (num / den) 0 1) /\
        0 <= np_clip (num / den) 0 1 <= 1)).
Proof.
  intros Hv. destruct (init_floors vid f p v Hv) as [Ha Hs].
  assert (Hs2 : ~ sigma v ^ 2 == 0) by nra.
  assert (Ha0 : ~ a v == 0) by lra.
  unfold compute_analytical_probability, numerator, denominator.
  rewrite !(truediv_ok _ _ Hs2). cbn [bind ok].
  split.
  - intros Hmu. apply Qltb_lt in Hmu. rewrite Hmu. now apply truediv_ok.
  - intros Hmu. destruct (Qltb_cases (Qabs (mu v)) 0.000001) as [[_ H]|[-> _]]; [contradiction|].
    cbn zeta.
    set (num := 1 - np_exp (-2 * mu v * z v / sigma v ^ 2)).
    set (den := 1 - np_exp (-2 * mu v * a v / sigma v ^ 2)).
    split; [|split].
    + intros Hd Hpos. apply Qltb_lt in Hd, Hpos. rewrite Hd, Hpos. reflexivity.
    + intros Hd Hpos. apply Qltb_lt in Hd. rewrite Hd.
      destruct (Qltb_cases 0 (mu v)) as [[_ H]|[-> _]]; [contradiction|reflexivity].
    + intros Hd. destruct (Qltb_cases (Qabs den) 0.0000000001) as [[_ H]|[-> Hge]];
        [contradiction|].
      assert (Hden : ~ den == 0).
      { intros E. revert Hge. apply Qabs_case; intros; lra. }
      rewrite (truediv_ok _ _ Hden). cbn [bind ok].
      split; [reflexivity|]. apply np_clip_bounds. lra.
Qed.
End AnalyticalFacts.

Lemma scaled_bound (n : nat) : forall s : Q,
  0 < s -> 0 < scaled n s /\ scaled n s * (1 + (3 # 17) * inject_Z (Z.of_nat n)) <= s.
Proof.
  induction n as [|n IH]; intros s Hs.
  - cbn [scaled]. change (inject_Z (Z.of_nat 0)) with 0. split; [exact Hs|]. lra.
  - cbn [scaled]. destruct (IH (s * 0.85)) as [Hpos Hle]; [lra|].
    split; [exact Hpos|].
    assert (Hn : inject_Z (Z.of_nat (S n)) == inject_Z (Z.of_nat n) + 1).
    { rewrite Nat2Z.inj_succ. unfold Z.succ. rewrite inject_Z_plus. reflexivity. }
    rewrite Hn.
    assert (Hc : 0 <= inject_Z (Z.of_nat n)).
    { change 0 with (inject_Z 0). rewrite <- Zle_Qle. lia. }
    generalize dependent (inject_Z (Z.of_nat n)). intros c _ Hle Hc.
    generalize dependent (scaled n (s * 0.85)). intros t Hpos Hle.
    nra.
Qed.

Lemma scaled_below (s : Q) : exists n, scaled n s < 0.05.
Proof.
  destruct (Qlt_le_dec 0 s) as [Hs|Hs]; [|exists O; cbn; lra].
  pose proof (Qle_ceiling (114 * s)) as Hceil.
  set (c := Qceiling (114 * s)) in *.
  assert (Hc : (0 <= c)%Z).
  { apply Z.lt_le_incl. rewrite Zlt_Qlt. change (inject_Z 0) with 0. lra. }
  exists (Z.to_nat c).
  destruct (scaled_bound (Z.to_nat c) s Hs) as [Hpos Hle].
  rewrite (Z2Nat.id _ Hc) in Hle.
  generalize dependent (inject_Z c). intros C HC Hle.
  generalize dependent (scaled (Z.to_nat c) s). intros t Hpos Hle.
  apply Qnot_le_lt. intros Ht. nra.
Qed.

Section NudgeFacts.
Variable np_exp : Q -> Q.

Lemma apply_nudge_features (v : DDMVoter) (ty : string) (prms : gmap string Q) :
  features (fst (apply_nudge np_exp v ty prms)) = features v.
Proof.
  unfold apply_nudge.
  repeat match goal with
         | |- context [if ?b then _ else _] => destruct b
         | |- context [match ?r with inl _ => _ | inr _ => _ end] => destruct r
         end; reflexivity.
Qed.

Lemma social_norm_sigma (v : DDMVoter) (prms : gmap string Q) :
  sigma (fst (apply_nudge np_exp v "social_norm" prms)) = sigma v * 0.85.
Proof. reflexivity. Qed.

Lemma competitiveness_sigma (v : DDMVoter) (prms : gmap string Q) :
  is_Some (features v !! "education_normalized") ->
  is_Some (features v !! "overconfidence") ->
  sigma (fst (apply_nudge np_exp v "competitiveness" prms)) = sigma v * 0.85.
Proof.
  intros [edu He] [oc Ho]. unfold apply_nudge. cbn [String.eqb Ascii.eqb Bool.eqb].
  rewrite (getitem_some _ _ _ He), (getitem_some _ _ _ Ho). reflexivity.
Qed.

Lemma implementation_threshold (v : DDMVoter) (prms : gmap string Q) :
  a (fst (apply_nudge np_exp v "implementation" prms)) =
  a v * (1 - 0.15 * get_default prms "plan_quality" 0.7).
Proof. reflexivity. Qed.

Lemma repeated_sigma (ty : string) (prms : gmap string Q) (n : nat) : forall v,
  ty = "social_norm" \/ ty = "competitiveness" ->
  is_Some (features v !! "education_normalized") ->
  is_Some (features v !! "overconfidence") ->
  sigma (apply_nudge_n np_exp n v ty prms) = scaled n (sigma v).
Proof.
  induction n as [|n IH]; intros v Hty He Ho; [reflexivity|].
  cbn [apply_nudge_n scaled]. rewrite IH; [| exact Hty | now rewrite apply_nudge_features ..].
  f_equal. destruct Hty as [-> | ->].
  - apply social_norm_sigma.
  - now apply competitiveness_sigma.
Qed.

Lemma reclamped (v : DDMVoter) (ty : string) (prms : gmap string Q) :
  ty = "identity" \/ ty = "implementation" ->
  let v' := fst (apply_nudge np_exp v ty prms) in
  0 <= a v' -> 0.05 * a v' <= z v' <= 0.95 * a v'.
Proof.
  intros [-> | ->]; cbn zeta; unfold apply_nudge;
    cbn [String.eqb Ascii.eqb Bool.eqb fst a z set_a set_z];
    intros Ha; apply np_clip_bounds; lra.
Qed.

End NudgeFacts.

(** The sample voters are what the constructor returns. *)
Lemma middle_has_required : forall k, In k required -> is_Some (middle_features !! k).
Proof.
  intros k Hk. cbn in Hk.
  repeat (destruct Hk as [<-|Hk]; [vm_compute; eauto|]). destruct Hk.
Qed.

Lemma middle_voter_init : init "agent_0" middle_features default_params = ok middle_voter.
Proof. vm_compute. reflexivity. Qed.

Lemma bold_voter_init : init "agent_0" bold_features low_threshold_params = ok bold_voter.
Proof. vm_compute. reflexivity. Qed.

(** C10. [apply_nudge] re-applies no construction floor: the
    implementation nudge scales the threshold by (1 - 0.15 plan_quality)
    and nothing else, so a voter built at the 0.5 floor ends below it; the
    social_norm and competitiveness nudges scale sigma by 0.85 and nothing
    else, so enough of them bring sigma below 0.05; only z is clipped
    again, to [0.05 a, 0.95 a], by the identity and implementation nudges. *)
Theorem nudges_bypass_floors (np_exp : Q -> Q) :
  (forall v prms,
     a (fst (apply_nudge np_exp v "implementation" prms)) =
     a v * (1 - 0.15 * get_default prms "plan_quality" 0.7)) /\
  (exists vid f p v,
     init vid f p = ok v /\ a v = 0.5 /\
     a (fst (apply_nudge np_exp v "implementation" ∅)) < 0.5) /\
  (forall vid f p v ty prms,
     init vid f p = ok v ->
     ty = "social_norm" \/ ty = "competitiveness" ->
     sigma (fst (apply_nudge np_exp v ty prms)) = sigma v * 0.85 /\
     exists n, sigma (apply_nudge_n np_exp n v ty prms) < 0.05) /\
  (forall v ty prms,
     ty = "identity" \/ ty = "implementation" ->
     let v' := fst (apply_nudge np_exp v ty prms) in
     0 <= a v' -> 0.05 * a v' <= z v' <= 0.95 * a v').
Proof.
  split; [intros v prms; apply implementation_threshold|].
  split.
  { exists "agent_0", bold_features, low_threshold_params, bold_voter.
    split; [exact bold_voter_init|]. split; [reflexivity|].
    rewrite implementation_threshold. vm_compute. reflexivity. }
  split; [|intros v ty prms; apply reclamped].
  intros vid f p v ty prms Hv Hty.
  assert (Hf : features v = f).
  { destruct (init_unfold vid f p (init_ok_required vid f p v Hv))
      as [(oc & _ & _ & He)|(mu0 & a0 & zp & s0 & _ & _ & _ & _ & He)];
      rewrite He in Hv; [discriminate|]. now injection Hv as <-. }
  assert (Hedu : is_Some (features v !! "education_normalized")).
  { rewrite Hf. apply (init_ok_required vid f p v Hv). cbn. tauto. }
  assert (Hoc : is_Some (features v !! "overconfidence")).
  { rewrite Hf. apply (init_ok_required vid f p v Hv). cbn. tauto. }
  split.
  - destruct Hty as [-> | ->];
      [apply social_norm_sigma | now apply competitiveness_sigma].
  - destruct (scaled_below (sigma v)) as [n Hn]. exists n.
    now rewrite repeated_sigma.
Qed.

Lemma construction_invariants_witness :
  (forall k, In k required -> is_Some (middle_features !! k)) /\
  init "agent_0" middle_features default_params = ok middle_voter /\
  0.5 <= a middle_voter /\ 0.05 <= sigma middle_voter /\
  0.1 * a middle_voter <= z middle_voter <= 0.9 * a middle_voter.
Proof.
  split; [exact middle_has_required|]. split; [exact middle_voter_init|].
  destruct (construction_invariants "agent_0" middle_features default_params
              middle_has_required)
    as [(oc & _ & _ & He)|(v & a0 & zp & s0 & Hv & _ & _ & _ & _ & Ha & _ & _ & Hs & _ & _ & _ & Hz)].
  - rewrite middle_voter_init in He. discriminate He.
  - rewrite middle_voter_init in Hv. injection Hv as <-. auto.
Defined.

Lemma analytical_probability_cases_witness :
  init "agent_0" middle_features default_params = ok middle_voter /\
  (Qabs (mu middle_voter) < 0.000001 ->
     compute_analytical_probability exp_series middle_voter =
       ok (z middle_voter / a middle_voter)) /\
  (~ Qabs (mu middle_voter) < 0.000001 ->
     let num :=
       1 - exp_series (-2 * mu middle_voter * z middle_voter / sigma middle_voter ^ 2) in
     let den :=
       1 - exp_series (-2 * mu middle_voter * a middle_voter / sigma middle_voter ^ 2) in
     (Qabs den < 0.0000000001 -> 0 < mu middle_voter ->
        compute_analytical_probability exp_series middle_voter = ok 1.0) /\
     (Qabs den < 0.0000000001 -> ~ 0 < mu middle_voter ->
        compute_analytical_probability exp_series middle_voter = ok 0.0) /\
     (~ Qabs den < 0.0000000001 ->
        compute_analytical_probability exp_series middle_voter
          = ok (np_clip (num / den) 0 1) /\
        0 <= np_clip (num / den) 0 1 <= 1)).
Proof.
  split; [exact middle_voter_init|].
  exact (analytical_probability_cases exp_series "agent_0" middle_features
           default_params middle_voter middle_voter_init).
Defined.

Lemma nudges_bypass_floors_witness :
  init "agent_0" middle_features default_params = ok middle_voter /\
  ("social_norm" = "social_norm" \/ "social_norm" = "competitiveness") /\
  sigma (fst (apply_nudge exp_series middle_voter "social_norm" ∅))
    = sigma middle_voter * 0.85 /\
  exists n, sigma (apply_nudge_n exp_series n middle_voter "social_norm" ∅) < 0.05.
Proof.
  split; [exact middle_voter_init|]. split; [left; reflexivity|].
  destruct (nudges_bypass_floors exp_series) as (_ & _ & H & _).
  exact (H "agent_0" middle_features default_params middle_voter "social_norm" ∅
           middle_voter_init (or_introl eq_refl)).
Defined.

(** The no-drift case on a voter with z = 1 and a = 2: the probability is
    one half. *)
Example no_drift_half :
  init "agent_0" middle_features no_drift_params = ok no_drift_voter /\
  mu no_drift_voter == 0 /\ a no_drift_voter == 2 /\ z no_drift_voter == 1 /\
  exists r, compute_analytical_probability exp_series no_drift_voter = ok r /\
            r == 0.5.
Proof.
  split; [vm_compute; reflexivity|].
  split; [reflexivity|]. split; [reflexivity|]. split; [reflexivity|].
  eexists. split; reflexivity.
Qed.

End DDMTheorems.

(** ** simulation.py: the stratified hypothesis tests *)

Module SimulationTheorems.

Import Simulation DDM PyFacts Samples.
Local Open Scope Q_scope.

(** The configured hypotheses, by name. *)
Lemma hypothesis_configs_lookup (name : string) (config : HypothesisConfig) :
  hypothesis_configs !! name = Some config ->
  (name = "HN1" /\ config = HN1) \/ (name = "HN2" /\ config = HN2) \/
  (name = "HN3" /\ config = HN3) \/ (name = "HN6" /\ config = HN6).
Proof.
  unfold hypothesis_configs. intros H.
  destruct (decide (name = "HN1")) as [->|N1].
  { rewrite lookup_insert_eq in H. injection H as <-. tauto. }
  rewrite lookup_insert_ne in H by congruence.
  destruct (decide (name = "HN2")) as [->|N2].
  { rewrite lookup_insert_eq in H. injection H as <-. tauto. }
  rewrite lookup_insert_ne in H by congruence.
  destruct (decide (name = "HN3")) as [->|N3].
  { rewrite lookup_insert_eq in H. injection H as <-. tauto. }
  rewrite lookup_insert_ne in H by congruence.
  destruct (decide (name = "HN6")) as [->|N6].
  { rewrite lookup_singleton_eq in H. injection H as <-. tauto. }
  rewrite lookup_singleton_ne in H by congruence. discriminate H.
Qed.

(** C9. Each of HN1, HN3 and HN6 is stratified on education_normalized
    with the two bins Low and High: the civic_duty branch is taken exactly
    when the description contains 'HN1' or 'HN3', no configured
    description does, and so no call of [run_hypothesis_test] reaches the
    civic_duty stratification. *)
Theorem stratified_tests_use_education :
  (forall name, In name ["HN1"; "HN3"; "HN6"] ->
     stratification_of name =
       ok (Some ("education_normalized", [0; 0.5; 1.0], ["Low"; "High"]))) /\
  (forall config,
     fst (fst (select_strata config)) = "civic_duty" <->
     contains "HN1" (description config) || contains "HN3" (description config) = true) /\
  (forall name config,
     hypothesis_configs !! name = Some config ->
     contains "HN1" (description config) = false /\
     contains "HN3" (description config) = false) /\
  (forall name s,
     stratification_of name = ok (Some s) ->
     s = ("education_normalized", [0; 0.5; 1.0], ["Low"; "High"])).
Proof.
  split; [|split; [|split]].
  - intros name Hin. cbn in Hin.
    destruct Hin as [<-|[<-|[<-|[]]]]; vm_compute; reflexivity.
  - intros config. unfold select_strata.
    destruct (contains "HN1" (description config) || contains "HN3" (description config));
      cbn; split; intros H; try reflexivity; discriminate H.
  - intros name config H.
    destruct (hypothesis_configs_lookup name config H)
      as [[_ ->]|[[_ ->]|[[_ ->]|[_ ->]]]]; split; vm_compute; reflexivity.
  - intros name s. unfold stratification_of.
    destruct (hypothesis_configs !! name) as [config|] eqn:E; [|discriminate].
    destruct (hypothesis_configs_lookup name config E)
      as [[_ ->]|[[_ ->]|[[_ ->]|[_ ->]]]]; vm_compute; intros H;
      try discriminate H; injection H as <-; reflexivity.
Qed.

Lemma stratified_tests_use_education_witness :
  In "HN1" ["HN1"; "HN3"; "HN6"] /\
  stratification_of "HN1" =
    ok (Some ("education_normalized", [0; 0.5; 1.0], ["Low"; "High"])).
Proof.
  split; [cbn; tauto|].
  destruct stratified_tests_use_education as (H & _).
  apply H. cbn. tauto.
Defined.

(** Where the strata of the code do cover: a value in [0, 1) is in
    exactly one stratum; the value 1 is in none. *)
Lemma strata_of_education (config : HypothesisConfig) (v : DDMVoter) (x : Q) :
  fst (fst (select_strata config)) = "education_normalized" ->
  features v !! "education_normalized" = Some x ->
  strata_of config v =
    if Qle_bool 0 x && Qltb x 0.5 then ["Low"]
    else if Qle_bool 0.5 x && Qltb x 1.0 then ["High"] else [].
Proof.
  unfold strata_of, select_strata.
  destruct (contains "HN1" (description config) || contains "HN3" (description config));
    cbn [fst]; [discriminate|]. intros _ Hx.
  cbn [strata List.filter List.map fst snd]. unfold in_stratum.
  rewrite (getitem_some _ _ _ Hx). cbn [bind ok].
  destruct (Qle_bool 0 x && Qltb x 0.5) eqn:E1;
    destruct (Qle_bool 0.5 x && Qltb x 1.0) eqn:E2; cbn; try reflexivity.
  exfalso. apply andb_true_iff in E1, E2. destruct E1 as [_ E1], E2 as [E2 _].
  apply Qltb_lt in E1. apply Qle_bool_iff in E2. lra.
Qed.

Lemma strata_of_civic_duty (config : HypothesisConfig) (v : DDMVoter) (x : Q) :
  fst (fst (select_strata config)) = "civic_duty" ->
  features v !! "civic_duty" = Some x ->
  strata_of config v =
    if Qle_bool 0 x && Qltb x 0.33 then ["Low"]
    else if Qle_bool 0.33 x && Qltb x 0.67 then ["Medium"]
    else if Qle_bool 0.67 x && Qltb x 1.0 then ["High"] else [].
Proof.
  unfold strata_of, select_strata.
  destruct (contains "HN1" (description config) || contains "HN3" (description config));
    cbn [fst]; [|discriminate]. intros _ Hx.
  cbn [strata List.filter List.map fst snd]. unfold in_stratum.
  rewrite (getitem_some _ _ _ Hx). cbn [bind ok].
  destruct (Qle_bool 0 x && Qltb x 0.33) eqn:E1;
    destruct (Qle_bool 0.33 x && Qltb x 0.67) eqn:E2;
    destruct (Qle_bool 0.67 x && Qltb x 1.0) eqn:E3; cbn; try reflexivity; exfalso;
    repeat match goal with
           | H : _ && _ = true |- _ =>
               apply andb_true_iff in H; let H1 := fresh in let H2 := fresh in
               destruct H as [H1 H2]; apply Qle_bool_iff in H1; apply Qltb_lt in H2
           end; lra.
Qed.

(** C4, on the code: a voter whose education_normalized is exactly 1.0 is
    counted in no stratum of the HN6 test, so the test of a population
    made of that voter reports no stratum at all; likewise for a
    civic_duty of exactly 1.0 under a description that selects the
    civic_duty bins.  Every upper bound of a stratum is exclusive. *)
Theorem top_value_in_no_stratum :
  init "agent_0" bold_features low_threshold_params = ok bold_voter /\
  features bold_voter !! "education_normalized" = Some 1.0 /\
  strata_of HN6 bold_voter = [] /\
  stratified_groups [bold_voter] HN6 = ok [] /\
  select_strata HN1_tagged
    = ("civic_duty", [0; 0.33; 0.67; 1.0], ["Low"; "Medium"; "High"]) /\
  features dutiful_voter !! "civic_duty" = Some 1.0 /\
  strata_of HN1_tagged dutiful_voter = [].
Proof.
  split; [vm_compute; reflexivity|].
  split; [vm_compute; reflexivity|].
  split; [vm_compute; reflexivity|].
  split; [vm_compute; reflexivity|].
  split; [vm_compute; reflexivity|].
  split; vm_compute; reflexivity.
Qed.

End SimulationTheorems.

(** ** The composite scores *)

Module SurveyTheorems.

Import Survey Reference Samples.
Local Open Scope Q_scope.

Lemma both_scripts_compute_alike (df : DataFrame) :
  VoterSurveyAnalysis.create_composite_scores df = HypothesisTester.create_composite_scores df.
Proof. reflexivity. Qed.

Lemma column_some (df : DataFrame) (c : string) (s : Series) :
  df !! c = Some s -> column df c = ok s.
Proof. intros H. unfold column. now rewrite H. Qed.

Lemma lookup_rsub (c : Q) (s : Series) (i : nat) :
  default None (rsub c s !! i) = minus (Some c) (default None (s !! i)).
Proof.
  unfold rsub, lift1. rewrite list_lookup_fmap.
  destruct (s !! i) as [[x|]|]; reflexivity.
Qed.

Lemma lookup_lift1 (f : Q -> Q) (s : Series) (i : nat) :
  default None (lift1 f s !! i) = option_map f (default None (s !! i)).
Proof.
  unfold lift1. rewrite list_lookup_fmap.
  destruct (s !! i) as [[x|]|]; reflexivity.
Qed.

Lemma lookup_add (s1 s2 : Series) (i : nat) :
  length s1 = length s2 ->
  default None (add s1 s2 !! i) = plus (default None (s1 !! i)) (default None (s2 !! i)).
Proof.
  intros Hlen. unfold add, lift2. rewrite lookup_zip_with.
  destruct (s1 !! i) as [x|] eqn:E1; destruct (s2 !! i) as [y|] eqn:E2; cbn.
  - destruct x, y; reflexivity.
  - apply lookup_lt_Some in E1. apply lookup_ge_None in E2. lia.
  - reflexivity.
  - reflexivity.
Qed.

Lemma length_lift1 (f : Q -> Q) (s : Series) : length (lift1 f s) = length s.
Proof. unfold lift1. apply length_map. Qed.

Lemma length_add (s1 s2 : Series) :
  length s1 = length s2 -> length (add s1 s2) = length s1.
Proof. intros H. unfold add, lift2. rewrite length_zip_with. lia. Qed.

Lemma length_add_n (n : nat) (s1 s2 : Series) :
  length s1 = n -> length s2 = n -> length (add s1 s2) = n.
Proof. intros H1 H2. rewrite length_add; congruence. Qed.

Lemma length_mean_axis1 (c : Series) (cs : list Series) :
  length (mean_axis1 (c :: cs)) = length c.
Proof. unfold mean_axis1. rewrite length_map. apply length_seq. Qed.

Lemma lookup_mean_axis1 (c : Series) (cs : list Series) (i : nat) :
  (i < length c)%nat ->
  default None (mean_axis1 (c :: cs) !! i) = row_mean (row (c :: cs) i).
Proof.
  intros Hi. unfold mean_axis1. rewrite list_lookup_fmap.
  rewrite lookup_seq_lt by exact Hi. reflexivity.
Qed.

Lemma same_score_refl (x : option Q) : same_score x x.
Proof. destruct x; cbn; [reflexivity|exact I]. Qed.

Lemma same_score_trans (x y w : option Q) :
  same_score x y -> same_score y w -> same_score x w.
Proof.
  destruct x, y, w; cbn; try tauto. intros H1 H2. now rewrite H1.
Qed.

Lemma minus_same (x x' y y' : option Q) :
  same_score x x' -> same_score y y' -> same_score (minus x y) (minus x' y').
Proof.
  destruct x, x', y, y'; cbn; try tauto. intros H1 H2. now rewrite H1, H2.
Qed.

(** The row mean of pandas is the mean of the scores given. *)
Lemma present_given (xs : list (option Q)) : present xs = given xs.
Proof.
  unfold present. induction xs as [|[x|] xs IH]; cbn; [reflexivity| |exact IH].
  now rewrite IH.
Qed.

Lemma fold_left_sum (ys : list Q) : forall acc, fold_left Qplus ys acc == acc + sum ys.
Proof.
  induction ys as [|y ys IH]; intros acc; cbn [fold_left sum]; [lra|].
  rewrite IH. lra.
Qed.

Lemma row_mean_mean (xs : list (option Q)) : same_score (row_mean xs) (mean xs).
Proof.
  unfold row_mean, mean. rewrite present_given.
  destruct (given xs) as [|y ys]; [exact I|]. cbn [same_score].
  unfold total. rewrite fold_left_sum. now rewrite Qplus_0_l.
Qed.

Lemma given_same (xs ys : list (option Q)) :
  Forall2 same_score xs ys -> Forall2 Qeq (given xs) (given ys).
Proof.
  induction 1 as [|x y xs ys Hxy _ IH]; [constructor|].
  destruct x, y; cbn in *; try tauto. now constructor.
Qed.

Lemma sum_same (xs ys : list Q) : Forall2 Qeq xs ys -> sum xs == sum ys.
Proof.
  induction 1 as [|x y xs ys Hxy _ IH]; cbn [sum]; [reflexivity|]. now rewrite Hxy, IH.
Qed.

Lemma mean_same (xs ys : list (option Q)) :
  Forall2 same_score xs ys -> same_score (mean xs) (mean ys).
Proof.
  intros H. apply given_same in H. unfold mean.
  pose proof (Forall2_length _ _ _ H) as Hlen. pose proof (sum_same _ _ H) as Hsum.
  destruct (given xs) as [|x xs'], (given ys) as [|y ys']; try discriminate Hlen;
    [exact I|]. cbn [same_score]. now rewrite Hsum, Hlen.
Qed.

Lemma questions_present (df : DataFrame) :
  (forall c, In c question_columns -> is_Some (df !! c)) ->
  exists s2 s3 s4 s5 s7 s8 s9 s10 s12,
    df !! "q2_frequency" = Some s2 /\ df !! "q3_effort_tradeoff" = Some s3 /\
    df !! "q4_perceived_impact" = Some s4 /\ df !! "q5_civic_duty" = Some s5 /\
    df !! "q7_trust" = Some s7 /\ df !! "q8_social_influence" = Some s8 /\
    df !! "q9_information_load" = Some s9 /\ df !! "q10_disillusionment" = Some s10 /\
    df !! "q12_competitiveness" = Some s12.
Proof.
  intros H.
  destruct (H "q2_frequency") as [s2 H2]; [simpl; tauto|].
  destruct (H "q3_effort_tradeoff") as [s3 H3]; [simpl; tauto|].
  destruct (H "q4_perceived_impact") as [s4 H4]; [simpl; tauto|].
  destruct (H "q5_civic_duty") as [s5 H5]; [simpl; tauto|].
  destruct (H "q7_trust") as [s7 H7]; [simpl; tauto|].
  destruct (H "q8_social_influence") as [s8 H8]; [simpl; tauto|].
  destruct (H "q9_information_load") as [s9 H9]; [simpl; tauto|].
  destruct (H "q10_disillusionment") as [s10 H10]; [simpl; tauto|].
  destruct (H "q12_competitiveness") as [s12 H12]; [simpl; tauto|].
  exists s2, s3, s4, s5, s7, s8, s9, s10, s12. tauto.
Qed.

Ltac through_inserts :=
  repeat (rewrite lookup_insert_ne by discriminate); try rewrite lookup_insert_eq.

(** C2. On every table the Comprehensive Analysis and the Hypothesis
    Tester compute the same result; on a table that has the question
    columns both succeed, and for each respondent each of the eight
    composite scores equals its reference formula (civic_duty_score =
    6 - q5_civic_duty, ..., voting_utility = 0.20 benefit - 0.15 cost +
    0.25 civic duty + 0.15 social pressure + 0.25 habit). *)
Theorem composite_scores_agree (df : DataFrame) :
  VoterSurveyAnalysis.create_composite_scores df =
    HypothesisTester.create_composite_scores df /\
  forall n : nat,
    table n df ->
    (forall c, In c question_columns -> is_Some (df !! c)) ->
    exists out,
      VoterSurveyAnalysis.create_composite_scores df = ok out /\
      HypothesisTester.create_composite_scores df = ok out /\
      forall i name formula, (i < n)%nat -> In (name, formula) formulas ->
        same_score (cell out name i) (formula (answers df i)).
Proof.
  split; [reflexivity|].
  intros n Htab Hq.
  destruct (questions_present df Hq)
    as (s2 & s3 & s4 & s5 & s7 & s8 & s9 & s10 & s12 &
        H2 & H3 & H4 & H5 & H7 & H8 & H9 & H10 & H12).
  pose proof (Htab _ _ H2) as L2. pose proof (Htab _ _ H3) as L3.
  pose proof (Htab _ _ H4) as L4. pose proof (Htab _ _ H5) as L5.
  pose proof (Htab _ _ H7) as L7. pose proof (Htab _ _ H8) as L8.
  pose proof (Htab _ _ H9) as L9. pose proof (Htab _ _ H10) as L10.
  pose proof (Htab _ _ H12) as L12.
  cbv beta in L2, L3, L4, L5, L7, L8, L9, L10, L12.
  change (HypothesisTester.create_composite_scores df)
    with (VoterSurveyAnalysis.create_composite_scores df).
  unfold VoterSurveyAnalysis.create_composite_scores, columns, column.
  repeat (through_inserts;
          rewrite ?H2, ?H3, ?H4, ?H5, ?H7, ?H8, ?H9, ?H10, ?H12; cbn [bind ok]).
  eexists. split; [reflexivity|]. split; [reflexivity|].
  intros i name formula Hi Hin.
  assert (C2 : cell df "q2_frequency" i = default None (s2 !! i)) by (unfold cell; now rewrite H2).
  assert (C3 : cell df "q3_effort_tradeoff" i = default None (s3 !! i)) by (unfold cell; now rewrite H3).
  assert (C4 : cell df "q4_perceived_impact" i = default None (s4 !! i)) by (unfold cell; now rewrite H4).
  assert (C5 : cell df "q5_civic_duty" i = default None (s5 !! i)) by (unfold cell; now rewrite H5).
  assert (C7 : cell df "q7_trust" i = default None (s7 !! i)) by (unfold cell; now rewrite H7).
  assert (C8 : cell df "q8_social_influence" i = default None (s8 !! i)) by (unfold cell; now rewrite H8).
  assert (C9 : cell df "q9_information_load" i = default None (s9 !! i)) by (unfold cell; now rewrite H9).
  assert (C10 : cell df "q10_disillusionment" i = default None (s10 !! i)) by (unfold cell; now rewrite H10).
  assert (C12 : cell df "q12_competitiveness" i = default None (s12 !! i)) by (unfold cell; now rewrite H12).
  unfold formulas in Hin. cbn [In] in Hin.
  unfold answers.
  rewrite C2, C3, C4, C5, C7, C8, C9, C10, C12. clear C2 C3 C4 C5 C7 C8 C9 C10 C12.
  assert (Hlen : forall s : Series, length s = n -> (i < length s)%nat) by (intros; lia).
  set (o2 := default None (s2 !! i)). set (o3 := default None (s3 !! i)).
  set (o4 := default None (s4 !! i)). set (o5 := default None (s5 !! i)).
  set (o7 := default None (s7 !! i)). set (o8 := default None (s8 !! i)).
  set (o9 := default None (s9 !! i)). set (o10 := default None (s10 !! i)).
  set (o12 := default None (s12 !! i)).
  assert (Hcost : default None (mean_axis1 [s3; s9] !! i) = row_mean [o3; o9]).
  { rewrite lookup_mean_axis1 by auto. reflexivity. }
  assert (Htrust : default None (mean_axis1 [s7; s10] !! i) = row_mean [o7; o10]).
  { rewrite lookup_mean_axis1 by auto. reflexivity. }
  assert (Hben : default None (div (add (rsub 6 s4) (rsub 6 s12)) 2 !! i) =
                 half (plus (minus (Some 6) o4) (minus (Some 6) o12))).
  { unfold div. rewrite lookup_lift1, lookup_add, !lookup_rsub; [reflexivity|].
    unfold rsub. rewrite !length_lift1. congruence. }
  assert (Heng : default None (mean_axis1 [rsub 6 s5; rsub 6 s2;
                   div (add (rsub 6 s4) (rsub 6 s12)) 2;
                   rsub 6 (mean_axis1 [s7; s10])] !! i) =
                 row_mean [minus (Some 6) o5; minus (Some 6) o2;
                           half (plus (minus (Some 6) o4) (minus (Some 6) o12));
                           minus (Some 6) (row_mean [o7; o10])]).
  { rewrite lookup_mean_axis1 by (unfold rsub; rewrite length_lift1; auto).
    unfold row. cbn [List.map]. rewrite Hben, !lookup_rsub, Htrust. reflexivity. }
  destruct Hin as [Hin|[Hin|[Hin|[Hin|[Hin|[Hin|[Hin|[Hin|[]]]]]]]]];
    injection Hin as <- <-;
    unfold cell; through_inserts; cbn [default].
  - rewrite lookup_rsub. apply same_score_refl.
  - rewrite lookup_rsub. apply same_score_refl.
  - rewrite lookup_rsub. apply same_score_refl.
  - rewrite Hcost. apply row_mean_mean.
  - rewrite Hben. apply same_score_refl.
  - rewrite lookup_rsub, Htrust.
    apply minus_same; [apply same_score_refl|apply row_mean_mean].
  - rewrite Heng. eapply same_score_trans; [apply row_mean_mean|].
    apply mean_same. repeat (constructor; [apply same_score_refl|]).
    constructor; [|constructor].
    apply minus_same; [apply same_score_refl|apply row_mean_mean].
  - assert (Lb : length (mul (div (add (rsub 6 s4) (rsub 6 s12)) 2) 0.2) = n).
    { unfold mul, div. rewrite !length_lift1, length_add; unfold rsub;
        rewrite !length_lift1; congruence. }
    assert (Lc : length (mul (neg (mean_axis1 [s3; s9])) 0.15) = n).
    { unfold mul, neg. rewrite !length_lift1, length_mean_axis1. exact L3. }
    assert (Ld : length (mul (rsub 6 s5) 0.25) = n).
    { unfold mul, rsub. rewrite !length_lift1. exact L5. }
    assert (Ls : length (mul (rsub 6 s8) 0.15) = n).
    { unfold mul, rsub. rewrite !length_lift1. exact L8. }
    assert (Lh : length (mul (rsub 6 s2) 0.25) = n).
    { unfold mul, rsub. rewrite !length_lift1. exact L2. }
    pose proof (length_add_n n _ _ Lb Lc) as Lbc.
    pose proof (length_add_n n _ _ Lbc Ld) as Lbcd.
    pose proof (length_add_n n _ _ Lbcd Ls) as Lbcds.
    rewrite !lookup_add by congruence.
    unfold mul at 1 2 3 4 5, neg. rewrite !lookup_lift1, Hben, Hcost, !lookup_rsub.
    fold o5 o8 o2.
    unfold voting_utility, benefit_score, cost_score, civic_duty_score,
      social_pressure_score, habit_score.
    cbn [q2_frequency q3_effort_tradeoff q4_perceived_impact q5_civic_duty
         q8_social_influence q9_information_load q12_competitiveness].
    pose proof (row_mean_mean [o3; o9]) as Hmean.
    destruct (half (plus (minus (Some 6) o4) (minus (Some 6) o12))) as [b|];
      destruct (row_mean [o3; o9]) as [c|];
      destruct (mean [o3; o9]) as [c'|];
      destruct o5 as [x5|]; destruct o8 as [x8|]; destruct o2 as [x2|];
      cbn in Hmean |- *; try exact I; try contradiction; lra.
Qed.

Lemma composite_scores_agree_witness :
  table 2 two_respondents /\
  (forall c, In c question_columns -> is_Some (two_respondents !! c)) /\
  exists out,
    VoterSurveyAnalysis.create_composite_scores two_respondents = ok out /\
    HypothesisTester.create_composite_scores two_respondents = ok out /\
    forall i name formula, (i < 2)%nat -> In (name, formula) formulas ->
      same_score (cell out name i) (formula (answers two_respondents i)).
Proof.
  assert (Ht : table 2 two_respondents).
  { unfold table. apply (bool_decide_unpack _). vm_compute. exact I. }
  assert (Hq : forall c, In c question_columns -> is_Some (two_respondents !! c)).
  { intros c Hc. cbn in Hc.
    repeat (destruct Hc as [<-|Hc]; [vm_compute; eauto|]). destruct Hc. }
  split; [exact Ht|]. split; [exact Hq|].
  destruct (composite_scores_agree two_respondents) as [_ H].
  exact (H 2%nat Ht Hq).
Defined.

(** The scores of the sample table: for the first respondent q5 = 2
    gives a civic-duty score of 4 and q8 = 1 a social-pressure score of 5;
    the second respondent skipped q3 and q5. *)
Example composite_scores_of_sample :
  let scores := VoterSurveyAnalysis.create_composite_scores two_respondents in
  same_scoreb (score_at scores "civic_duty_score" 0) (Some 4) = true /\
  same_scoreb (score_at scores "social_pressure_score" 0) (Some 5) = true /\
  same_scoreb (score_at scores "cost_score" 0) (Some 3) = true /\
  same_scoreb (score_at scores "cost_score" 1) (Some 4) = true /\
  same_scoreb (score_at scores "civic_duty_score" 1) None = true /\
  same_scoreb (score_at scores "voting_utility" 0)
              (Some (0.20 * 3 - 0.15 * 3 + 0.25 * 4 + 0.15 * 5 + 0.25 * 5)) = true.
Proof. vm_compute. repeat split; reflexivity. Qed.

End SurveyTheorems.

(** ** The pairwise-complete correlation helpers *)

Module CorrTheorems.

Import Survey Samples.
Local Open Scope Q_scope.

Section Corr.

Variable pearsonr : list Q -> list Q -> Q * Q.

Lemma tester_safe_corr (df : DataFrame) (col1 col2 : string) (s1 s2 : Series) :
  df !! col1 = Some s1 -> df !! col2 = Some s2 ->
  HypothesisTester.safe_corr pearsonr df col1 col2 =
    if (10 <=? length (dropna2 s1 s2))%nat then reported pearsonr (dropna2 s1 s2) else insufficient.
Proof.
  intros H1 H2. unfold HypothesisTester.safe_corr, column. rewrite H1, H2. reflexivity.
Qed.

Lemma analysis_safe_corr (df : DataFrame) (col1 col2 : string) (s1 s2 : Series) :
  df !! col1 = Some s1 -> df !! col2 = Some s2 ->
  VoterSurveyAnalysis.safe_corr pearsonr df col1 col2 =
    if (10 <? length (dropna2 s1 s2))%nat then reported pearsonr (dropna2 s1 s2) else insufficient.
Proof.
  intros H1 H2. unfold VoterSurveyAnalysis.safe_corr, column. rewrite H1, H2. reflexivity.
Qed.

(** C5, on the code: with exactly ten complete pairs the helper of the
    Hypothesis Tester reports the correlation, the p-value and the sample
    size 10, while the helper of the Comprehensive Analysis reports
    insufficient data: its test is [len(data) > 10]. *)
Theorem safe_corr_at_ten_pairs :
  length (dropna2 ten_scores ten_utilities) = 10%nat /\
  HypothesisTester.safe_corr pearsonr ten_respondents "civic_duty_score" "voting_utility"
    = reported pearsonr (dropna2 ten_scores ten_utilities) /\
  VoterSurveyAnalysis.safe_corr pearsonr ten_respondents "civic_duty_score" "voting_utility"
    = ok (None, None, O).
Proof.
  split; [reflexivity|]. split.
  - rewrite (tester_safe_corr _ _ _ ten_scores ten_utilities); reflexivity.
  - rewrite (analysis_safe_corr _ _ _ ten_scores ten_utilities); reflexivity.
Qed.

End Corr.
End CorrTheorems.

(** ** clean_data.py: the removal flag *)

Module CleanerTheorems.

Import VoterSurveyDataCleaner Samples.

Lemma select_ok (d : gmap string (list cell)) (cols : list string) :
  (forall c, In c cols -> is_Some (d !! c)) ->
  exists ss, select d cols = ok ss /\ Forall2 (fun c s => d !! c = Some s) cols ss.
Proof.
  induction cols as [|c cols IH]; intros H.
  - exists []. split; [reflexivity|constructor].
  - destruct (H c) as [s Hs]; [now left|].
    destruct IH as (ss & Hss & Hall); [intros c' Hc'; apply H; now right|].
    exists (s :: ss). cbn [select]. rewrite Hs, Hss. split; [reflexivity|].
    constructor; assumption.
Qed.

Lemma isna_true (x : cell) : isna x = true <-> x = NaN.
Proof. destruct x; cbn; split; congruence. Qed.

(** Row [i] of the conjunction over the selected columns. *)
Lemma all_isna_row (d : gmap string (list cell)) (n i : nat) (cols : list string)
    (ss : list (list cell)) :
  table n d -> (i < n)%nat ->
  Forall2 (fun c s => d !! c = Some s) cols ss ->
  forallb (fun s : list bool => default false (s !! i)) (List.map (List.map isna) ss) = true
  <-> (forall c, In c cols -> at_ d c i = Some NaN).
Proof.
  intros Htab Hi Hall. induction Hall as [|c s cols ss Hc Hall IH].
  - cbn. split; [intros _ c []|reflexivity].
  - cbn [List.map forallb]. rewrite andb_true_iff, IH.
    assert (Hcell : default false (List.map isna s !! i) = true <-> at_ d c i = Some NaN).
    { unfold at_. rewrite Hc, list_lookup_fmap.
      pose proof (Htab _ _ Hc) as Hlen. cbv beta in Hlen.
      destruct (s !! i) as [x|] eqn:E.
      - cbn. rewrite isna_true. split; congruence.
      - apply lookup_ge_None in E. lia. }
    rewrite Hcell. split.
    + intros [H1 H2] c' [<-|Hin]; auto.
    + intros H. split; [apply H; now left|intros c' Hin; apply H; now right].
Qed.

(** C7. [identify_removals] flags a row if and only if every one of the
    13 required question values of that row is missing, so a row with one
    answered question is flagged false; it writes the column
    recommended_for_removal and leaves every other column as it was. *)
Theorem identify_removals_flags (n : nat) (self : Cleaner) :
  table n (df self) ->
  (forall c, In c required_cols -> is_Some (df self !! c)) ->
  exists self' flags,
    identify_removals self = ok self' /\
    df self' !! "recommended_for_removal" = Some (List.map Flag flags) /\
    length flags = n /\
    (forall i, (i < n)%nat ->
       exists b, flags !! i = Some b /\
         (b = true <-> forall c, In c required_cols -> at_ (df self) c i = Some NaN)) /\
    (forall i c x, (i < n)%nat -> In c required_cols ->
       at_ (df self) c i = Some x -> x <> NaN -> flags !! i = Some false) /\
    (forall c, c <> "recommended_for_removal" -> df self' !! c = df self !! c).
Proof.
  intros Htab Hreq.
  destruct (select_ok (df self) required_cols Hreq) as (ss & Hsel & Hall).
  unfold identify_removals. rewrite Hsel. cbn [bind ok].
  eexists _, _. split; [reflexivity|]. cbn [df].
  split; [apply lookup_insert_eq|].
  assert (Hfirst : exists s ss', ss = s :: ss' /\ length s = n).
  { inversion Hall as [|c s cols ss' Hc Hrest Ec Es].
    exists s, ss'. split; [reflexivity|]. exact (Htab _ _ Hc). }
  destruct Hfirst as (s & ss' & -> & Hlen).
  assert (Hrow : forall i, (i < n)%nat ->
            all_axis1 (List.map (List.map isna) (s :: ss')) !! i =
            Some (forallb (fun t : list bool => default false (t !! i))
                          (List.map (List.map isna) (s :: ss')))).
  { intros i Hi. unfold all_axis1. cbn [List.map].
    rewrite list_lookup_fmap, length_map, lookup_seq_lt by lia. reflexivity. }
  split; [|split; [|split]].
  - unfold all_axis1. cbn [List.map]. rewrite !length_map, length_seq. exact Hlen.
  - intros i Hi. eexists. split; [apply Hrow, Hi|].
    apply (all_isna_row (df self) n i required_cols (s :: ss') Htab Hi Hall).
  - intros i c x Hi Hin Hx Hna. rewrite (Hrow i Hi). f_equal.
    apply not_true_is_false. intros Ht.
    destruct (all_isna_row (df self) n i required_cols (s :: ss') Htab Hi Hall)
      as [Hfwd _].
    specialize (Hfwd Ht c Hin). congruence.
  - intros c Hc. now apply lookup_insert_ne.
Qed.

Lemma identify_removals_flags_witness :
  table 3 (df sample_cleaner) /\
  (forall c, In c required_cols -> is_Some (df sample_cleaner !! c)) /\
  exists self' flags,
    identify_removals sample_cleaner = ok self' /\
    df self' !! "recommended_for_removal" = Some (List.map Flag flags) /\
    length flags = 3%nat /\
    (forall i, (i < 3)%nat ->
       exists b, flags !! i = Some b /\
         (b = true <->
          forall c, In c required_cols -> at_ (df sample_cleaner) c i = Some NaN)) /\
    (forall i c x, (i < 3)%nat -> In c required_cols ->
       at_ (df sample_cleaner) c i = Some x -> x <> NaN -> flags !! i = Some false) /\
    (forall c, c <> "recommended_for_removal" ->
       df self' !! c = df sample_cleaner !! c).
Proof.
  assert (Ht : table 3 (df sample_cleaner)).
  { unfold table. apply (bool_decide_unpack _). vm_compute. exact I. }
  assert (Hq : forall c, In c required_cols -> is_Some (df sample_cleaner !! c)).
  { intros c Hc. cbn in Hc.
    repeat (destruct Hc as [<-|Hc]; [vm_compute; eauto|]). destruct Hc. }
  split; [exact Ht|]. split; [exact Hq|].
  exact (identify_removals_flags 3 sample_cleaner Ht Hq).
Defined.

(** The sample rows: nothing answered, one question answered (12 of 13
    missing), everything answered. *)
Example removal_flags_of_sample :
  (let* self' := identify_removals sample_cleaner in
   ok (df self' !! "recommended_for_removal"))
  = ok (Some [Flag true; Flag false; Flag false]).
Proof. vm_compute. reflexivity. Qed.

End CleanerTheorems.

(** ** main.py: the calibrated configuration *)

Module JsonFacts.

Lemma dict_get_set_eq (d : dict) (k : string) (v : json) :
  dict_get (dict_set d k v) k = Some v.
Proof.
  induction d as [|[k' v'] d IH]; cbn.
  - now rewrite String.eqb_refl.
  - destruct (String.eqb k' k) eqn:E; cbn; rewrite E; [reflexivity|exact IH].
Qed.

Lemma dict_get_set_ne (d : dict) (k k' : string) (v : json) :
  k' <> k -> dict_get (dict_set d k v) k' = dict_get d k'.
Proof.
  intros Hne. induction d as [|[k0 v0] d IH]; cbn.
  - destruct (String.eqb k k') eqn:E; [|reflexivity].
    apply String.eqb_eq in E. congruence.
  - destruct (String.eqb k0 k) eqn:E; cbn.
    + apply String.eqb_eq in E. subst k0.
      destruct (String.eqb k k') eqn:E'; [|reflexivity].
      apply String.eqb_eq in E'. congruence.
    + now rewrite IH.
Qed.

Lemma dict_keys_set_present (d : dict) (k : string) (v : json) :
  is_Some (dict_get d k) -> dict_keys (dict_set d k v) = dict_keys d.
Proof.
  induction d as [|[k0 v0] d IH]; cbn; intros [x Hx]; [discriminate|].
  destruct (String.eqb k0 k) eqn:E; cbn; [reflexivity|].
  f_equal. apply IH. eauto.
Qed.

End JsonFacts.

Module MainTheorems.

Import DDM Main JsonFacts Samples.

(** C6 as stated fails: a key under drift_diffusion_model that is not one
    of the six fitted coefficients is absent from the updated
    configuration. *)
Lemma calibrated_config_drops_keys :
  at_path sample_config sigma_base_path = Some (JFloat 0.2%Q) /\
  at_path sample_config beta_EC_path = Some (JFloat 0.08%Q) /\
  exists updated,
    update_config sample_config default_params = ok updated /\
    at_path updated sigma_base_path = None /\
    at_path updated beta_EC_path = None.
Proof.
  split; [reflexivity|]. split; [reflexivity|].
  eexists. split; [reflexivity|]. split; reflexivity.
Qed.

(** C6, amended. When the configuration is an object whose
    model_calibration_parameters is an object, the updated configuration
    has the same top-level keys in the same order, every top-level value
    other than model_calibration_parameters unchanged, every member of
    model_calibration_parameters other than drift_diffusion_model
    unchanged, and drift_diffusion_model equal to the block of the six
    fitted coefficients and nothing else. *)
Theorem calibrated_config_frame (members mcp : dict) (optimal_params : DDMParameters) :
  dict_get members "model_calibration_parameters" = Some (JObj mcp) ->
  exists members' mcp',
    update_config (JObj members) optimal_params = ok (JObj members') /\
    dict_keys members' = dict_keys members /\
    (forall k, k <> "model_calibration_parameters" ->
       dict_get members' k = dict_get members k) /\
    dict_get members' "model_calibration_parameters" = Some (JObj mcp') /\
    (forall k, k <> "drift_diffusion_model" -> dict_get mcp' k = dict_get mcp k) /\
    dict_get mcp' "drift_diffusion_model" = Some (calibrated_block optimal_params) /\
    at_path (calibrated_block optimal_params) ["drift_rate_base"]
      = Some (JFloat (drift_rate_base optimal_params)) /\
    at_path (calibrated_block optimal_params) ["threshold_base"]
      = Some (JFloat (threshold_base optimal_params)) /\
    at_path (calibrated_block optimal_params) ["drift_components"; "beta_D"]
      = Some (JFloat (beta_D optimal_params)) /\
    at_path (calibrated_block optimal_params) ["drift_components"; "beta_H"]
      = Some (JFloat (beta_H optimal_params)) /\
    at_path (calibrated_block optimal_params) ["drift_components"; "beta_S"]
      = Some (JFloat (beta_S optimal_params)) /\
    at_path (calibrated_block optimal_params) ["drift_components"; "beta_C"]
      = Some (JFloat (beta_C optimal_params)) /\
    (forall path, is_Some (at_path (calibrated_block optimal_params) path) ->
       In path [ []; ["drift_rate_base"]; ["threshold_base"]; ["drift_components"];
                 ["drift_components"; "beta_D"]; ["drift_components"; "beta_H"];
                 ["drift_components"; "beta_S"]; ["drift_components"; "beta_C"] ]).
Proof.
  intros Hmcp. unfold update_config, Json.getitem, Json.setitem.
  rewrite Hmcp. cbn [bind ok].
  eexists _, _. split; [reflexivity|].
  split; [apply dict_keys_set_present; eauto|].
  split; [intros k Hk; now apply dict_get_set_ne|].
  split; [apply dict_get_set_eq|].
  split; [intros k Hk; now apply dict_get_set_ne|].
  split; [apply dict_get_set_eq|].
  repeat (split; [reflexivity|]).
  intros path [x Hx]. unfold calibrated_block in Hx.
  destruct path as [|k1 path]; [now left|].
  cbn [at_path dict_get] in Hx.
  destruct (String.eqb "drift_rate_base" k1) eqn:E1.
  { apply String.eqb_eq in E1. subst k1. destruct path; [cbn; tauto|discriminate Hx]. }
  destruct (String.eqb "threshold_base" k1) eqn:E2.
  { apply String.eqb_eq in E2. subst k1. destruct path; [cbn; tauto|discriminate Hx]. }
  destruct (String.eqb "drift_components" k1) eqn:E3; [|discriminate Hx].
  apply String.eqb_eq in E3. subst k1.
  destruct path as [|k2 path]; [cbn; tauto|].
  cbn [at_path dict_get] in Hx.
  destruct (String.eqb "beta_D" k2) eqn:F1.
  { apply String.eqb_eq in F1. subst k2. destruct path; [cbn; tauto|discriminate Hx]. }
  destruct (String.eqb "beta_H" k2) eqn:F2.
  { apply String.eqb_eq in F2. subst k2. destruct path; [cbn; tauto|discriminate Hx]. }
  destruct (String.eqb "beta_S" k2) eqn:F3.
  { apply String.eqb_eq in F3. subst k2. destruct path; [cbn; tauto|discriminate Hx]. }
  destruct (String.eqb "beta_C" k2) eqn:F4; [|discriminate Hx].
  apply String.eqb_eq in F4. subst k2. destruct path; [cbn; tauto|discriminate Hx].
Qed.

Lemma calibrated_config_frame_witness :
  dict_get sample_members "model_calibration_parameters" = Some (JObj sample_calibration) /\
  exists members' mcp',
    update_config sample_config default_params = ok (JObj members') /\
    dict_keys members' = dict_keys sample_members /\
    dict_get members' "simulation_scenarios" = Some (JArr [sample_scenario]) /\
    dict_get members' "model_calibration_parameters" = Some (JObj mcp') /\
    dict_get mcp' "utility_model" = dict_get sample_calibration "utility_model" /\
    dict_get mcp' "drift_diffusion_model" = Some (calibrated_block default_params).
Proof.
  split; [reflexivity|].
  destruct (calibrated_config_frame sample_members sample_calibration default_params
              eq_refl) as (members' & mcp' & E & Hk & Ho & Hm & Hmo & Hd & _).
  exists members', mcp'. split; [exact E|]. split; [exact Hk|].
  split; [rewrite Ho by discriminate; reflexivity|].
  split; [exact Hm|]. split; [apply Hmo; discriminate|exact Hd].
Defined.

End MainTheorems.

(** ** agent_generator.py: the generated population *)

Module GeneratorTheorems.

Import AgentGenerator Schema Samples.

Section Generator.

Variable RNG : Type.
Variable np_random_beta : Q -> Q -> RNG -> Q * RNG.
Variable np_random_random : RNG -> Q * RNG.
Variable np_random_binomial : Q -> Q -> RNG -> Q * RNG.
Variable np_random_randint : Z -> Z -> RNG -> Z * RNG.
Variable py_str : json -> string.

Local Abbreviation gen_feature :=
  (_generate_feature RNG np_random_beta np_random_random np_random_binomial py_str).
Local Abbreviation gen_features :=
  (generate_features RNG np_random_beta np_random_random np_random_binomial py_str).
Local Abbreviation add_defaults := (_add_default_features RNG np_random_randint).
Local Abbreviation gen_agent :=
  (_generate_single_agent RNG np_random_beta np_random_random np_random_binomial
                          np_random_randint py_str).
Local Abbreviation gen_agents :=
  (generate_agents RNG np_random_beta np_random_random np_random_binomial
                   np_random_randint py_str).
Local Abbreviation gen_population :=
  (generate_population RNG np_random_beta np_random_random np_random_binomial
                       np_random_randint py_str).





Ltac step := unfold ok, ret, draw; cbv beta iota.










Lemma find_scenario_some (scenarios : list json) (scenario_name : string) (sc : json) :
  find_scenario scenarios scenario_name = ok (Some sc) ->
  In sc scenarios /\ Json.getitem sc "scenario_name" = ok (JStr scenario_name).
Proof.
  induction scenarios as [|sc0 l IH]; [discriminate|].
  cbn [find_scenario]. destruct (Json.getitem sc0 "scenario_name") as [e|name] eqn:E;
    [discriminate|]. unfold bind.
  destruct (eq_str name scenario_name) eqn:En.
  - intros H. injection H as <-. split; [now left|].
    destruct name; try discriminate En. cbn in En. apply String.eqb_eq in En.
    now subst.
  - intros H. destruct (IH H) as [Hin Hn]. split; [now right|exact Hn].
Qed.


End Generator.



Example sample_population_ids :
  List.map (fun i => Some (JStr ("agent_" ++ str_of_nat i))) [0; 1; 2; 10; 49]%nat =
  [Some (JStr "agent_0"); Some (JStr "agent_1"); Some (JStr "agent_2");
   Some (JStr "agent_10"); Some (JStr "agent_49")].
Proof. reflexivity. Qed.

End GeneratorTheorems.

(** ** ddm_model.py: construction, the probability and the nudges *)

Module VoterTheorems.

Import DDM PyFacts DDMFacts DDMTheorems Samples Runs.
Local Open Scope Q_scope.

(** The features [_validate_features] reports as missing. *)
Lemma missing_spec (f : gmap string Q) (k : string) :
  In k (List.filter (fun k => negb (bool_decide (is_Some (f !! k)))) required)
  <-> In k required /\ f !! k = None.
Proof.
  rewrite filter_In. split; intros [H1 H2]; split; try exact H1.
  - destruct (f !! k) eqn:E; [|reflexivity]. cbn in H2. discriminate H2.
  - rewrite H2. reflexivity.
Qed.

(** X1. [DDMVoter.__init__] has three outcomes.  When a required feature
    is missing it raises the ValueError whose message lists exactly the
    missing required names, in the order of the required list.  Otherwise
    it raises ZeroDivisionError or returns a voter that carries the given
    identifier, features and parameters and has no decision yet.  It never
    raises KeyError. *)
Theorem init_outcomes (vid : string) (f : gmap string Q) (p : DDMParameters) :
  let missing := List.filter (fun k => negb (bool_decide (is_Some (f !! k)))) required in
  (forall k, In k missing <-> In k required /\ f !! k = None) /\
  (missing <> [] ->
     init vid f p = raise (ValueError ("Missing required features: " ++ repr_list missing))) /\
  (missing = [] ->
     init vid f p = raise ZeroDivisionError \/
     exists v, init vid f p = ok v /\ voter_id v = vid /\ features v = f /\
               params v = p /\ last_decision v = None /\ last_decision_time v = None) /\
  (forall k, init vid f p <> raise (KeyError k)).
Proof.
  cbn zeta. split; [apply missing_spec|].
  assert (Hcase : forall l, List.filter (fun k => negb (bool_decide (is_Some (f !! k)))) required = l ->
            l <> [] -> init vid f p = raise (ValueError ("Missing required features: " ++ repr_list l))).
  { intros l El Hl. unfold init, _validate_features. rewrite El.
    destruct l; [congruence|reflexivity]. }
  assert (Hok : List.filter (fun k => negb (bool_decide (is_Some (f !! k)))) required = [] ->
            init vid f p = raise ZeroDivisionError \/
            exists v, init vid f p = ok v /\ voter_id v = vid /\ features v = f /\
               params v = p /\ last_decision v = None /\ last_decision_time v = None).
  { intros E.
    assert (Hreq : forall k, In k required -> is_Some (f !! k)).
    { intros k Hk. destruct (f !! k) eqn:Ek; [eauto|].
      assert (Hin : In k (List.filter (fun k => negb (bool_decide (is_Some (f !! k)))) required))
        by (apply missing_spec; auto).
      rewrite E in Hin. destruct Hin. }
    destruct (init_unfold vid f p Hreq)
      as [(oc & _ & _ & He)|(mu0 & a0 & zp & s0 & _ & _ & _ & _ & He)].
    - left. exact He.
    - right. eexists. split; [exact He|]. repeat split. }
  split; [intros H; now apply Hcase|]. split; [exact Hok|].
  intros k Hk.
  destruct (List.filter (fun k => negb (bool_decide (is_Some (f !! k)))) required) as [|m l] eqn:E.
  - destruct (Hok eq_refl) as [He|(v & He & _)]; rewrite He in Hk; discriminate Hk.
  - rewrite (Hcase (m :: l) eq_refl) in Hk by discriminate. discriminate Hk.
Qed.

Lemma init_outcomes_witness :
  List.filter (fun k => negb (bool_decide (is_Some (no_risk_features !! k)))) required
    = ["risk_aversion"] /\
  init "agent_0" no_risk_features default_params
    = raise (ValueError "Missing required features: ['risk_aversion']").
Proof.
  assert (E : List.filter (fun k => negb (bool_decide (is_Some (no_risk_features !! k))))
                          required = ["risk_aversion"]) by (vm_compute; reflexivity).
  split; [exact E|].
  destruct (init_outcomes "agent_0" no_risk_features default_params) as (_ & H & _).
  cbv zeta in H. rewrite E in H. apply H. discriminate.
Defined.

(** The record [__init__] returns. *)
Lemma init_fields (vid : string) (f : gmap string Q) (p : DDMParameters) (v : DDMVoter) :
  init vid f p = ok v ->
  exists a0 zp s0 mu0,
    v = mkVoter vid f p mu0 (py_max a0 0.5) (py_max a0 0.5 * np_clip zp 0.1 0.9)
                (py_max s0 0.05) None None.
Proof.
  intros Hv.
  destruct (init_unfold vid f p (init_ok_required vid f p v Hv))
    as [(oc & _ & _ & He)|(mu0 & a0 & zp & s0 & _ & _ & _ & _ & He)];
    rewrite He in Hv; [discriminate|].
  injection Hv as <-. now exists a0, zp, s0, mu0.
Qed.

Section Probability.

Variable np_exp : Q -> Q.


Ltac nudge_cases :=
  repeat match goal with
         | |- context [match ?r with inl _ => _ | inr _ => _ end] => destruct r
         end.

(** X3. What [apply_nudge] leaves alone: never the identifier, the
    features, the parameters or the last decision; monetary and disclosure
    change the drift only; social_norm and competitiveness leave threshold
    and starting point; identity changes the starting point only;
    implementation leaves drift and noise.  A type that is none of the six
    raises the ValueError that names it and leaves the voter as it was. *)
Theorem apply_nudge_frame (v : DDMVoter) (ty : string) (prms : gmap string Q) :
  let v' := fst (apply_nudge np_exp v ty prms) in
  (voter_id v' = voter_id v /\ features v' = features v /\ params v' = params v /\
   last_decision v' = last_decision v /\ last_decision_time v' = last_decision_time v) /\
  (ty = "monetary" \/ ty = "disclosure" ->
     a v' = a v /\ z v' = z v /\ sigma v' = sigma v) /\
  (ty = "social_norm" \/ ty = "competitiveness" -> a v' = a v /\ z v' = z v) /\
  (ty = "identity" -> mu v' = mu v /\ a v' = a v /\ sigma v' = sigma v) /\
  (ty = "implementation" -> mu v' = mu v /\ sigma v' = sigma v) /\
  (~ In ty ["monetary"; "social_norm"; "identity"; "disclosure"; "implementation";
            "competitiveness"] ->
     apply_nudge np_exp v ty prms = (v, raise (ValueError ("Unknown nudge type: " ++ ty)))).
Proof.
  cbn zeta. split; [|split; [|split; [|split; [|split]]]].
  - unfold apply_nudge.
    repeat match goal with
           | |- context [if ?b then _ else _] => destruct b
           | |- context [match ?r with inl _ => _ | inr _ => _ end] => destruct r
           end; repeat split.
  - intros [-> | ->]; unfold apply_nudge; cbn [String.eqb Ascii.eqb Bool.eqb];
      nudge_cases; repeat split.
  - intros [-> | ->]; unfold apply_nudge; cbn [String.eqb Ascii.eqb Bool.eqb];
      nudge_cases; repeat split.
  - intros ->. repeat split.
  - intros ->. repeat split.
  - intros Hty. unfold apply_nudge.
    repeat match goal with
           | |- context [String.eqb ty ?s] =>
               destruct (String.eqb_spec ty s) as [->|_];
               [exfalso; apply Hty; simpl; tauto|]
           end.
    reflexivity.
Qed.

(** X4. The monetary nudge adds lottery_value * lottery_prob /
    (1 + civic_duty) to the drift: for a non-negative lottery and civic
    duties 0 <= cd1 <= cd2 the boost is non-negative and the voter with the
    lower civic duty gets the larger one.  A civic duty of -1, which the
    constructor accepts with a warning, makes the call raise
    ZeroDivisionError and leaves the voter as it was. *)
Theorem monetary_nudge (v1 v2 : DDMVoter) (prms : gmap string Q) (cd1 cd2 : Q) :
  features v1 !! "civic_duty" = Some cd1 ->
  features v2 !! "civic_duty" = Some cd2 ->
  let lottery := get_default prms "lottery_value" 0.3 * get_default prms "lottery_prob" 0.01 in
  let boost v := mu (fst (apply_nudge np_exp v "monetary" prms)) - mu v in
  (0 <= cd1 -> boost v1 == lottery / (1 + cd1)) /\
  (0 <= cd1 <= cd2 -> 0 <= lottery -> 0 <= boost v2 <= boost v1) /\
  (cd1 == -1 -> apply_nudge np_exp v1 "monetary" prms = (v1, raise ZeroDivisionError)).
Proof.
  intros H1 H2. cbn zeta. unfold apply_nudge. cbn [String.eqb Ascii.eqb Bool.eqb].
  rewrite (getitem_some _ _ _ H1), (getitem_some _ _ _ H2). unfold ok. cbv beta iota.
  set (L := get_default prms "lottery_value" 0.3 * get_default prms "lottery_prob" 0.01).
  split; [|split].
  - intros Hcd. rewrite truediv_ok by lra. unfold ok. cbv beta iota.
    cbn [fst mu set_mu]. field. lra.
  - intros Hcd Hl. rewrite !truediv_ok by lra. unfold ok. cbv beta iota.
    cbn [fst mu set_mu].
    assert (E1 : (1 + cd1) * (1 / (1 + cd1)) == 1) by (field; lra).
    assert (E2 : (1 + cd2) * (1 / (1 + cd2)) == 1) by (field; lra).
    set (i1 := 1 / (1 + cd1)) in *. set (i2 := 1 / (1 + cd2)) in *.
    assert (P1 : 0 < i1) by nra. assert (P2 : 0 < i2) by nra.
    assert (Hi : i2 <= i1).
    { assert (E : i1 - i2 == i1 * i2 * (cd2 - cd1)) by nra.
      assert (0 <= i1 * i2 * (cd2 - cd1)) by (apply Qmult_le_0_compat; nra). lra. }
    split; nra.
  - intros E. rewrite truediv_zero by lra. reflexivity.
Qed.

(** X5. On a voter the constructor returned, the identity nudge with a
    non-negative shift 0.15 * identity_strength * frame_strength never
    lowers the starting point: the new z is min(z + shift * a, 0.95 a), and
    it is z + shift * a when the shift is at most 0.05. *)
Theorem identity_nudge_raises_start (vid : string) (f : gmap string Q) (p : DDMParameters)
    (v : DDMVoter) (prms : gmap string Q) :
  init vid f p = ok v ->
  let shift := 0.15 * get_default prms "identity_strength" 0.7
                    * get_default prms "frame_strength" 1.0 in
  0 <= shift ->
  let v' := fst (apply_nudge np_exp v "identity" prms) in
  z v' = np_minimum (z v + shift * a v) (0.95 * a v) /\
  z v <= z v' <= 0.95 * a v /\
  (shift <= 0.05 -> z v' = z v + shift * a v).
Proof.
  intros Hv shift Hs. cbn zeta.
  destruct (init_fields vid f p v Hv) as (a0 & zp & s0 & mu0 & ->).
  unfold apply_nudge. cbn [String.eqb Ascii.eqb Bool.eqb fst a z set_z].
  fold shift.
  pose proof (py_max_lower a0 0.5) as Ha.
  pose proof (np_clip_bounds zp 0.1 0.9 ltac:(lra)) as Hc.
  set (A := py_max a0 0.5) in *. set (C := np_clip zp 0.1 0.9) in *.
  assert (Hmax : np_clip (A * C + shift * A) (0.05 * A) (0.95 * A)
                 = np_minimum (A * C + shift * A) (0.95 * A)).
  { unfold np_clip, np_maximum.
    destruct (Qltb_cases (A * C + shift * A) (0.05 * A)) as [[_ H]|[-> _]]; [nra|reflexivity]. }
  rewrite !Hmax. split; [reflexivity|].
  unfold np_minimum.
  destruct (Qltb_cases (0.95 * A) (A * C + shift * A)) as [[-> H]|[-> H]].
  - split; [nra|]. intros H5. nra.
  - split; [nra|]. reflexivity.
Qed.

End Probability.


Lemma apply_nudge_frame_witness :
  ~ In "lottery" ["monetary"; "social_norm"; "identity"; "disclosure"; "implementation";
                  "competitiveness"] /\
  apply_nudge exp_series middle_voter "lottery" ∅
    = (middle_voter, raise (ValueError "Unknown nudge type: lottery")).
Proof.
  assert (H : ~ In "lottery" ["monetary"; "social_norm"; "identity"; "disclosure";
                              "implementation"; "competitiveness"]).
  { cbn. intros [H|[H|[H|[H|[H|[H|[]]]]]]]; discriminate H. }
  split; [exact H|].
  destruct (apply_nudge_frame exp_series middle_voter "lottery" ∅) as (_ & _ & _ & _ & _ & Hu).
  exact (Hu H).
Defined.

Lemma middle_civic_duty : features middle_voter !! "civic_duty" = Some 0.5.
Proof. vm_compute. reflexivity. Qed.

Lemma bold_civic_duty : features bold_voter !! "civic_duty" = Some 0.5.
Proof. vm_compute. reflexivity. Qed.

Lemma monetary_nudge_witness :
  features middle_voter !! "civic_duty" = Some 0.5 /\
  features bold_voter !! "civic_duty" = Some 0.5 /\
  let lottery := get_default ∅ "lottery_value" 0.3 * get_default ∅ "lottery_prob" 0.01 in
  let boost v := mu (fst (apply_nudge exp_series v "monetary" ∅)) - mu v in
  (0 <= 0.5 -> boost middle_voter == lottery / (1 + 0.5)) /\
  (0 <= 0.5 <= 0.5 -> 0 <= lottery -> 0 <= boost bold_voter <= boost middle_voter) /\
  (0.5 == -1 ->
   apply_nudge exp_series middle_voter "monetary" ∅ = (middle_voter, raise ZeroDivisionError)).
Proof.
  split; [exact middle_civic_duty|]. split; [exact bold_civic_duty|].
  exact (monetary_nudge exp_series middle_voter bold_voter ∅ 0.5 0.5
           middle_civic_duty bold_civic_duty).
Defined.

Lemma empty_default (k : string) (d : Q) : get_default ∅ k d = d.
Proof. unfold get_default. now rewrite lookup_empty. Qed.

Lemma identity_nudge_raises_start_witness :
  init "agent_0" middle_features default_params = ok middle_voter /\
  0 <= 0.15 * get_default ∅ "identity_strength" 0.7 * get_default ∅ "frame_strength" 1.0 /\
  let shift := 0.15 * get_default ∅ "identity_strength" 0.7
                    * get_default ∅ "frame_strength" 1.0 in
  let v' := fst (apply_nudge exp_series middle_voter "identity" ∅) in
  z v' = np_minimum (z middle_voter + shift * a middle_voter) (0.95 * a middle_voter) /\
  z middle_voter <= z v' <= 0.95 * a middle_voter /\
  (shift <= 0.05 -> z v' = z middle_voter + shift * a middle_voter).
Proof.
  assert (Hs : 0 <= 0.15 * get_default ∅ "identity_strength" 0.7
                    * get_default ∅ "frame_strength" 1.0).
  { rewrite !empty_default. lra. }
  split; [exact middle_voter_init|]. split; [exact Hs|].
  exact (identity_nudge_raises_start exp_series "agent_0" middle_features default_params
           middle_voter ∅ middle_voter_init Hs).
Defined.

End VoterTheorems.

(** ** ddm_model.py: the simulated decision *)

Module DecisionTheorems.

Import DDM PyFacts Decision Samples Runs.
Local Open Scope Q_scope.

Section Walk.

Variable RNG : Type.
Variable np_random_normal_sqrt : Q -> RNG -> Q * RNG.

Local Abbreviation walk := (Decision.walk RNG np_random_normal_sqrt).
Local Abbreviation simulate_decision :=
  (Decision.simulate_decision RNG np_random_normal_sqrt).

Lemma inject_succ (n : nat) : inject_Z (Z.of_nat (S n)) == inject_Z (Z.of_nat n) + 1.
Proof. rewrite Nat2Z.inj_succ. unfold Z.succ. rewrite inject_Z_plus. reflexivity. Qed.

Lemma walk_exact_euler (fuel : nat) (v : DDMVoter) (dt max_time : Q) : forall X t g,
  walk fuel v dt max_time "exact" X t g = walk fuel v dt max_time "euler" X t g.
Proof.
  induction fuel as [|fuel IH]; intros X t g; [reflexivity|].
  cbn [Decision.walk String.eqb Ascii.eqb Bool.eqb].
  destruct (Qltb t max_time); [|reflexivity].
  destruct (np_random_normal_sqrt dt g) as [n g'].
  destruct (Qle_bool (a v) _); [reflexivity|].
  destruct (Qle_bool _ 0); [reflexivity|]. apply IH.
Qed.

(** The loop ends once the time left is covered by the steps left. *)
Lemma walk_terminates (v : DDMVoter) (dt max_time : Q) (method : string) :
  0 < dt -> method = "euler" \/ method = "exact" ->
  forall n fuel X t g,
    max_time <= t + inject_Z (Z.of_nat n) * dt -> (n < fuel)%nat ->
    exists d t' g',
      walk fuel v dt max_time method X t g = Some (decide v d t', ok (d, t'), g') /\
      (t' = max_time \/ (t + dt <= t' /\ t' < max_time + dt)).
Proof.
  intros Hdt Hm. induction n as [|n IH]; intros fuel X t g Hmax Hfuel;
    (destruct fuel as [|fuel]; [lia|]); cbn [Decision.walk].
  - change (inject_Z (Z.of_nat 0)) with 0 in Hmax.
    destruct (Qltb_cases t max_time) as [[_ H]|[-> _]]; [lra|].
    eexists _, _, _. split; [reflexivity|]. left. reflexivity.
  - rewrite inject_succ in Hmax.
    destruct (Qltb_cases t max_time) as [[-> Ht]|[-> _]];
      [|eexists _, _, _; split; [reflexivity|]; left; reflexivity].
    assert (Hstep : forall X' g',
      exists d t' g'',
        (if Qle_bool (a v) X' then Some (decide v true (t + dt), ok (true, t + dt), g')
         else if Qle_bool X' 0 then Some (decide v false (t + dt), ok (false, t + dt), g')
         else walk fuel v dt max_time method X' (t + dt) g')
        = Some (decide v d t', ok (d, t'), g'') /\
        (t' = max_time \/ (t + dt <= t' /\ t' < max_time + dt))).
    { intros X' g'.
      destruct (Qle_bool (a v) X');
        [eexists _, _, _; split; [reflexivity|]; right; lra|].
      destruct (Qle_bool X' 0);
        [eexists _, _, _; split; [reflexivity|]; right; lra|].
      destruct (IH fuel X' (t + dt) g') as (d & t' & g'' & E & Ht'); [lra|lia|].
      exists d, t', g''. split; [exact E|]. destruct Ht' as [->|Ht']; [now left|right; lra]. }
    destruct Hm as [-> | ->]; cbn [String.eqb Ascii.eqb Bool.eqb];
      destruct (np_random_normal_sqrt dt g) as [n0 g']; apply Hstep.
Qed.

(** X6. With a positive time step and one of the two methods,
    [simulate_decision] returns after finitely many steps, whatever the
    noise: it records the decision and the time it returns in
    last_decision and last_decision_time and changes nothing else of the
    voter; the time is max_time (time limit) or a time in
    [dt, max_time + dt) at which a boundary was crossed. *)
Theorem simulate_decision_returns (v : DDMVoter) (dt max_time : Q) (method : string) :
  0 < dt -> method = "euler" \/ method = "exact" ->
  exists N, forall fuel g, (N <= fuel)%nat ->
    exists d t g',
      simulate_decision fuel v dt max_time method g = Some (decide v d t, ok (d, t), g') /\
      (t = max_time \/ (dt <= t /\ t < max_time + dt)).
Proof.
  intros Hdt Hm.
  exists (S (Z.to_nat (Qceiling (max_time / dt)))). intros fuel g Hfuel.
  destruct (walk_terminates v dt max_time method Hdt Hm
              (Z.to_nat (Qceiling (max_time / dt))) fuel (z v) 0 g)
    as (d & t & g' & E & Ht); [|lia|].
  - pose proof (Qle_ceiling (max_time / dt)) as Hc.
    assert (Hq : max_time == max_time / dt * dt) by (field; lra).
    destruct (Z_le_gt_dec 0 (Qceiling (max_time / dt))) as [Hpos|Hneg].
    + rewrite (Z2Nat.id _ Hpos). nra.
    + assert (Hz : Z.to_nat (Qceiling (max_time / dt)) = 0%nat) by lia.
      rewrite Hz. change (inject_Z (Z.of_nat 0)) with 0.
      assert (inject_Z (Qceiling (max_time / dt)) <= 0).
      { change 0 with (inject_Z 0). rewrite <- Zle_Qle. lia. }
      nra.
  - exists d, t, g'. split; [exact E|]. destruct Ht as [->|Ht]; [now left|right; lra].
Qed.

(** X7. The edge cases of [simulate_decision].  With max_time <= 0 the
    loop body never runs: the call draws no random number, decides by
    z > a / 2 and reports the time max_time, for every method name, known
    or not.  With max_time > 0 a method that is neither euler nor exact
    raises the ValueError that names it, before any draw and with the voter
    unchanged. *)
Theorem simulate_decision_edges (v : DDMVoter) (dt max_time : Q) (method : string)
    (fuel : nat) (g : RNG) :
  (max_time <= 0 ->
   simulate_decision (S fuel) v dt max_time method g =
     Some (decide v (Qltb (a v / 2) (z v)) max_time,
           ok (Qltb (a v / 2) (z v), max_time), g)) /\
  (0 < max_time -> method <> "euler" -> method <> "exact" ->
   simulate_decision (S fuel) v dt max_time method g =
     Some (v, raise (ValueError ("Unknown method: " ++ method)), g)).
Proof.
  unfold Decision.simulate_decision. cbn [Decision.walk]. split.
  - intros H. destruct (Qltb_cases 0 max_time) as [[_ H']|[-> _]]; [lra|reflexivity].
  - intros H He Hx. apply Qltb_lt in H. rewrite H.
    destruct (String.eqb_spec method "euler") as [->|_]; [contradiction|].
    destruct (String.eqb_spec method "exact") as [->|_]; [contradiction|].
    reflexivity.
Qed.

(** X8. The method exact is the method euler: for the same voter, step,
    time limit and generator state the two calls take the same draws and
    return the same decision, time and voter. *)
Theorem exact_method_is_euler (fuel : nat) (v : DDMVoter) (dt max_time : Q) (g : RNG) :
  simulate_decision fuel v dt max_time "exact" g
  = simulate_decision fuel v dt max_time "euler" g.
Proof. apply walk_exact_euler. Qed.

End Walk.

Lemma simulate_decision_returns_witness :
  0 < 0.01 /\ ("euler" = "euler" \/ "euler" = "exact") /\
  exists N, forall fuel g, (N <= fuel)%nat ->
    exists d t g',
      Decision.simulate_decision nat steady_normal fuel middle_voter 0.01 10.0 "euler" g
        = Some (decide middle_voter d t, ok (d, t), g') /\
      (t = 10.0 \/ (0.01 <= t /\ t < 10.0 + 0.01)).
Proof.
  assert (Hdt : 0 < 0.01) by lra.
  split; [exact Hdt|]. split; [left; reflexivity|].
  exact (simulate_decision_returns nat steady_normal middle_voter 0.01 10.0 "euler"
           Hdt (or_introl eq_refl)).
Defined.

Lemma simulate_decision_edges_witness :
  0 <= 0 /\
  Decision.simulate_decision nat steady_normal 1 middle_voter 0.01 0 "runge_kutta" O
    = Some (decide middle_voter (Qltb (a middle_voter / 2) (z middle_voter)) 0,
            ok (Qltb (a middle_voter / 2) (z middle_voter), 0), O).
Proof.
  assert (H : 0 <= 0) by lra.
  split; [exact H|].
  destruct (simulate_decision_edges nat steady_normal middle_voter 0.01 0 "runge_kutta" O O)
    as [H0 _].
  exact (H0 H).
Defined.

End DecisionTheorems.

(** ** ddm_model.py: the population and the loader; calibration.py *)

Module PopulationTheorems.

Import DDM PyFacts JsonFacts Population Calibration Main Samples Runs.
Local Open Scope Q_scope.

Section Nudges.

Variable np_exp : Q -> Q.

Local Abbreviation apply_nudges := (Population.apply_nudges np_exp).

Lemma nudged_identity (v : DDMVoter) (ty : string) (prms : gmap string Q) :
  voter_id (fst (apply_nudge np_exp v ty prms)) = voter_id v /\
  features (fst (apply_nudge np_exp v ty prms)) = features v /\
  params (fst (apply_nudge np_exp v ty prms)) = params v.
Proof.
  unfold apply_nudge.
  repeat match goal with
         | |- context [if ?b then _ else _] => destruct b
         | |- context [match ?r with inl _ => _ | inr _ => _ end] => destruct r
         end; repeat split.
Qed.

(** X9. [DDMPopulation.apply_nudges] keeps the population in place: the
    same number of voters with the same identifiers, features and
    parameters in the same order, also when a nudge raises; a voter whose
    identifier is not in the assignment is not touched; an empty
    assignment changes nothing. *)
Theorem apply_nudges_frame (voters : list DDMVoter)
    (nudge_assignment : gmap string (string * gmap string Q)) :
  let voters' := fst (apply_nudges voters nudge_assignment) in
  length voters' = length voters /\
  List.map voter_id voters' = List.map voter_id voters /\
  List.map features voters' = List.map features voters /\
  List.map params voters' = List.map params voters /\
  (forall i v, voters !! i = Some v -> nudge_assignment !! voter_id v = None ->
               voters' !! i = Some v) /\
  apply_nudges voters ∅ = (voters, ok tt).
Proof.
  cbn zeta. split; [|split; [|split; [|split; [|split]]]].
  6: { induction voters as [|v rest IH]; [reflexivity|].
       cbn [Population.apply_nudges]. rewrite lookup_empty, IH. reflexivity. }
  all: induction voters as [|v rest IH]; [try reflexivity; intros i v H _; exact H|];
    cbn [Population.apply_nudges];
    destruct (nudge_assignment !! voter_id v) as [[ty prms]|] eqn:E.
  all: try (cbn [fst snd]; pose proof (nudged_identity v ty prms) as (Hid & Hf & Hp);
            destruct (apply_nudge np_exp v ty prms) as [v' [e|r]]; cbn [fst] in *;
            [|destruct (Population.apply_nudges np_exp rest nudge_assignment) as [rest' r']];
            cbn [fst length List.map] in *).
  all: try (destruct (Population.apply_nudges np_exp rest nudge_assignment) as [rest' r'];
            cbn [fst length List.map] in *).
  all: try (rewrite ?Hid, ?Hf, ?Hp, ?IH; reflexivity).
  all: intros [|i] w Hw Hn; cbn in *; try exact Hw; try (now apply IH).
  all: injection Hw as <-; congruence.
Qed.

(** Every voter of the comprehension is assigned the nudge. *)
Lemma assignment_keeps (voters : list DDMVoter) (ty : string) (prms : gmap string Q) :
  forall acc k, acc !! k = Some (ty, prms) ->
                assignment voters ty prms acc !! k = Some (ty, prms).
Proof.
  induction voters as [|v rest IH]; intros acc k H; [exact H|].
  cbn [assignment]. apply IH.
  destruct (decide (voter_id v = k)) as [->|Hne];
    [apply lookup_insert_eq|rewrite lookup_insert_ne by exact Hne; exact H].
Qed.

Lemma assignment_lookup (voters : list DDMVoter) (ty : string) (prms : gmap string Q) :
  forall acc v, In v voters ->
                assignment voters ty prms acc !! voter_id v = Some (ty, prms).
Proof.
  induction voters as [|w rest IH]; intros acc v Hin; [destruct Hin|].
  cbn [assignment]. destruct Hin as [->|Hin]; [|now apply IH].
  apply assignment_keeps. apply lookup_insert_eq.
Qed.

(** With an assignment that gives every voter the same nudge the loop is
    the uniform one of the hypothesis tests. *)
Lemma apply_nudges_uniform (ty : string) (prms : gmap string Q)
    (nudge_assignment : gmap string (string * gmap string Q)) (voters : list DDMVoter) :
  (forall v, In v voters -> nudge_assignment !! voter_id v = Some (ty, prms)) ->
  match Simulation.apply_nudges np_exp voters ty prms with
  | inr voters' => apply_nudges voters nudge_assignment = (voters', ok tt)
  | inl e => snd (apply_nudges voters nudge_assignment) = raise e
  end.
Proof.
  induction voters as [|v rest IH]; intros H; [reflexivity|].
  cbn [Simulation.apply_nudges Population.apply_nudges].
  rewrite (H v (or_introl eq_refl)). cbn [fst snd].
  destruct (apply_nudge np_exp v ty prms) as [v' [e|r]]; [reflexivity|].
  cbn [bind]. specialize (IH (fun w Hw => H w (or_intror Hw))).
  destruct (Simulation.apply_nudges np_exp rest ty prms) as [e|rest'].
  - destruct (Population.apply_nudges np_exp rest nudge_assignment) as [rest'' r'].
    exact IH.
  - rewrite IH. reflexivity.
Qed.

(** The uniform loop nudges every voter once. *)
Lemma uniform_nudged (ty : string) (prms : gmap string Q) (voters : list DDMVoter) :
  forall voters', Simulation.apply_nudges np_exp voters ty prms = ok voters' ->
  voters' = List.map (fun v => fst (apply_nudge np_exp v ty prms)) voters.
Proof.
  induction voters as [|v rest IH]; intros voters' H.
  - injection H as <-. reflexivity.
  - cbn [Simulation.apply_nudges] in H.
    destruct (apply_nudge np_exp v ty prms) as [v' [e|r]] eqn:E; [discriminate H|].
    cbn [bind] in H.
    destruct (Simulation.apply_nudges np_exp rest ty prms) as [e|rest']; [discriminate H|].
    cbn [bind] in H. injection H as <-. cbn [List.map]. rewrite E. cbn [fst].
    f_equal. now apply IH.
Qed.

End Nudges.

Lemma apply_nudges_frame_witness :
  [middle_voter] !! 0%nat = Some middle_voter /\
  (∅ : gmap string (string * gmap string Q)) !! voter_id middle_voter = None /\
  fst (Population.apply_nudges exp_series [middle_voter] ∅) !! 0%nat = Some middle_voter.
Proof.
  split; [reflexivity|]. split; [apply lookup_empty|].
  destruct (apply_nudges_frame exp_series [middle_voter] ∅) as (_ & _ & _ & _ & H & _).
  exact (H 0%nat middle_voter eq_refl (lookup_empty _)).
Defined.

(** X10. [load_ddm_parameters_from_config] reads six coefficients and no
    other: whatever the configuration holds, the thirteen other
    parameters of the record it returns are the defaults, and a
    configuration without model_calibration_parameters gives the default
    record. *)
Theorem load_reads_six_coefficients (config : json) (p : DDMParameters) :
  load_ddm_parameters_from_config config = ok p ->
  beta_PI p = beta_PI default_params /\ beta_IS p = beta_IS default_params /\
  beta_EC p = beta_EC default_params /\ beta_OC p = beta_OC default_params /\
  sigma_base p = sigma_base default_params /\
  gamma_risk p = gamma_risk default_params /\ gamma_edu p = gamma_edu default_params /\
  gamma_OC p = gamma_OC default_params /\
  alpha_H p = alpha_H default_params /\ alpha_PI p = alpha_PI default_params /\
  alpha_D p = alpha_D default_params /\
  nu_edu p = nu_edu default_params /\ nu_OC p = nu_OC default_params /\
  fitted p = p /\
  (forall members, config = JObj members ->
     dict_get members "model_calibration_parameters" = None -> p = default_params).
Proof.
  unfold load_ddm_parameters_from_config. intros H.
  assert (Hnone : forall members, config = JObj members ->
            dict_get members "model_calibration_parameters" = None -> p = default_params).
  { intros members -> Hm. unfold Json.get at 1 in H. rewrite Hm in H.
    cbn in H. now injection H as <-. }
  repeat match type of H with
         | bind ?m _ = _ => destruct m; cbn [bind] in H; [discriminate H|]
         end.
  injection H as <-. repeat split. exact Hnone.
Qed.

Lemma load_reads_six_coefficients_witness :
  load_ddm_parameters_from_config sample_config = ok default_params /\
  sigma_base default_params = sigma_base default_params /\
  fitted default_params = default_params.
Proof.
  assert (H : load_ddm_parameters_from_config sample_config = ok default_params)
    by reflexivity.
  split; [exact H|].
  destruct (load_reads_six_coefficients sample_config default_params H)
    as (_ & _ & _ & _ & Hs & _ & _ & _ & _ & _ & _ & _ & _ & Hf & _).
  split; [exact Hs|exact Hf].
Defined.

(** What the loader reads back from an updated configuration. *)
Lemma update_then_load (members mcp : dict) (optimal_params : DDMParameters) :
  dict_get members "model_calibration_parameters" = Some (JObj mcp) ->
  exists updated,
    update_config (JObj members) optimal_params = ok updated /\
    load_ddm_parameters_from_config updated = ok (fitted optimal_params).
Proof.
  intros Hmcp. unfold update_config, Json.getitem, Json.setitem.
  rewrite Hmcp. cbn [bind ok]. eexists. split; [reflexivity|].
  unfold load_ddm_parameters_from_config, Json.get at 1.
  rewrite dict_get_set_eq. cbn [bind ok]. unfold Json.get at 1.
  rewrite dict_get_set_eq. reflexivity.
Qed.

Lemma array_params (x : list Q) (p : DDMParameters) :
  _array_to_params x = Some p ->
  (6 <= length x)%nat /\ _params_to_array p = take 6 x /\ fitted p = p.
Proof.
  intros H.
  destruct x as [|x0 [|x1 [|x2 [|x3 [|x4 [|x5 rest]]]]]]; try discriminate H.
  cbn in H. injection H as <-. split; [cbn; lia|]. split; reflexivity.
Qed.

(** X11. The configuration written in mode all and the loader fit
    together: the loader reads from the updated configuration the six
    fitted coefficients of the parameters that were saved, and the default
    for every other parameter, whatever the configuration held under
    drift_diffusion_model before. *)
Theorem calibrated_config_round_trip (members mcp : dict) (optimal_params : DDMParameters) :
  dict_get members "model_calibration_parameters" = Some (JObj mcp) ->
  exists updated,
    update_config (JObj members) optimal_params = ok updated /\
    load_ddm_parameters_from_config updated = ok (fitted optimal_params) /\
    drift_rate_base (fitted optimal_params) = drift_rate_base optimal_params /\
    threshold_base (fitted optimal_params) = threshold_base optimal_params /\
    beta_D (fitted optimal_params) = beta_D optimal_params /\
    beta_H (fitted optimal_params) = beta_H optimal_params /\
    beta_S (fitted optimal_params) = beta_S optimal_params /\
    beta_C (fitted optimal_params) = beta_C optimal_params /\
    sigma_base (fitted optimal_params) = sigma_base default_params.
Proof.
  intros Hmcp. destruct (update_then_load members mcp optimal_params Hmcp) as (u & Eu & El).
  exists u. split; [exact Eu|]. split; [exact El|]. repeat split.
Qed.

Lemma calibrated_config_round_trip_witness :
  dict_get sample_members "model_calibration_parameters" = Some (JObj sample_calibration) /\
  exists updated,
    update_config sample_config low_threshold_params = ok updated /\
    load_ddm_parameters_from_config updated = ok (fitted low_threshold_params).
Proof.
  split; [reflexivity|].
  destruct (calibrated_config_round_trip sample_members sample_calibration
              low_threshold_params eq_refl) as (u & Eu & El & _).
  exists u. split; [exact Eu|exact El].
Defined.

(** X12. The parameter vector of the calibrator and the parameter record
    convert into each other: the vector of a record read back gives the
    record with its six fitted coefficients and the defaults elsewhere; a
    record read from a vector gives back the first six entries of the
    vector, in the order drift_rate_base, threshold_base, beta_D, beta_H,
    beta_S, beta_C; a vector of fewer than six entries is an index
    error. *)
Theorem array_round_trip :
  (forall p, _array_to_params (_params_to_array p) = Some (fitted p)) /\
  (forall x p, _array_to_params x = Some p ->
     (6 <= length x)%nat /\ _params_to_array p = take 6 x /\ fitted p = p) /\
  (forall x, (length x < 6)%nat -> _array_to_params x = None).
Proof.
  split; [reflexivity|]. split; [exact array_params|].
  intros x H.
  destruct x as [|x0 [|x1 [|x2 [|x3 [|x4 [|x5 rest]]]]]]; try reflexivity.
  cbn in H. lia.
Qed.

Lemma array_round_trip_witness :
  _array_to_params (_params_to_array default_params) = Some default_params /\
  _params_to_array default_params = take 6 (_params_to_array default_params).
Proof.
  assert (H : _array_to_params (_params_to_array default_params) = Some default_params)
    by reflexivity.
  split; [exact H|].
  destruct array_round_trip as (_ & Hx & _).
  destruct (Hx (_params_to_array default_params) default_params H) as (_ & Ht & _).
  exact Ht.
Defined.

(** X13. What calibration fits survives the configuration file: the
    parameters [_array_to_params] builds from the optimiser's vector,
    written by mode all and read by the loader, come back unchanged. *)
Theorem fitted_survives_config (members mcp : dict) (x : list Q) (p : DDMParameters) :
  dict_get members "model_calibration_parameters" = Some (JObj mcp) ->
  _array_to_params x = Some p ->
  exists updated,
    update_config (JObj members) p = ok updated /\
    load_ddm_parameters_from_config updated = ok p.
Proof.
  intros Hmcp Hx.
  destruct (update_then_load members mcp p Hmcp) as (u & Hu & Hl).
  exists u. split; [exact Hu|]. rewrite Hl.
  destruct (array_params x p Hx) as (_ & _ & ->). reflexivity.
Qed.

Lemma fitted_survives_config_witness :
  dict_get sample_members "model_calibration_parameters" = Some (JObj sample_calibration) /\
  _array_to_params (_params_to_array default_params) = Some default_params /\
  exists updated,
    update_config sample_config default_params = ok updated /\
    load_ddm_parameters_from_config updated = ok default_params.
Proof.
  split; [reflexivity|]. split; [reflexivity|].
  exact (fitted_survives_config sample_members sample_calibration
           (_params_to_array default_params) default_params eq_refl eq_refl).
Defined.

End PopulationTheorems.

(** ** simulation.py: the nudge experiment and the comparison of nudges *)

Module ExperimentTheorems.

Import DDM PyFacts Population Experiment PopulationTheorems Samples Runs.
Local Open Scope Q_scope.


Lemma slice_index_le (len : nat) (i : Z) : (slice_index len i <= len)%nat.
Proof. unfold slice_index. destruct (0 <=? i)%Z; lia. Qed.

Lemma length_splice_map {A : Type} (f : A -> A) (l : list A) (start stop : nat) :
  (start <= stop <= length l)%nat ->
  length (splice l start (List.map f (slice l start stop))) = length l.
Proof.
  intros H. unfold splice, slice.
  rewrite !length_app, length_map, !length_take, !length_drop. lia.
Qed.

Lemma params_of_social_norm : nudge_params_map !! "social_norm" = Some social_norm_params.
Proof. unfold nudge_params_map. apply lookup_insert_eq. Qed.

Lemma params_of_competitiveness :
  nudge_params_map !! "competitiveness" = Some competitiveness_params.
Proof.
  unfold nudge_params_map. rewrite lookup_insert_ne by discriminate.
  apply lookup_singleton_eq.
Qed.

Section Orchestrator.

Variable np_exp : Q -> Q.
Variable RNG : Type.
Variable simulate_election : list DDMVoter -> RNG -> result (Q * RNG).

Local Abbreviation run_nudge_experiment :=
  (Experiment.run_nudge_experiment np_exp RNG simulate_election).
Local Abbreviation comparison_loop :=
  (Experiment.comparison_loop np_exp RNG simulate_election).
Local Abbreviation _test_nudge_comparison :=
  (Experiment._test_nudge_comparison np_exp RNG simulate_election).
Local Abbreviation nudged ty prms := (fun v => fst (apply_nudge np_exp v ty prms)).

(** The population after an experiment that returned. *)
Lemma experiment_state (voters : list DDMVoter) (ty : string) (prms : gmap string Q)
    (fraction : Q) (rng : RNG) (voters' : list DDMVoter) (res : ExperimentResult * RNG) :
  run_nudge_experiment voters ty prms fraction rng = (voters', ok res) ->
  let k := slice_index (length voters)
             (py_int (inject_Z (Z.of_nat (length voters)) * (1 - fraction))) in
  voters' = (take k voters ++ List.map (nudged ty prms) (drop k voters))%list.
Proof.
  cbn zeta. unfold Experiment.run_nudge_experiment.
  set (k := slice_index _ _).
  destruct (simulate_election (take k voters) rng) as [e|[c rng1]]; [intros H; discriminate H|].
  pose proof (apply_nudges_uniform np_exp ty prms
                (assignment (drop k voters) ty prms ∅) (drop k voters)
                (fun v Hv => assignment_lookup _ ty prms ∅ v Hv)) as Hu.
  destruct (Simulation.apply_nudges np_exp (drop k voters) ty prms) as [e|treated] eqn:Es.
  - destruct (Population.apply_nudges np_exp (drop k voters) _) as [tr r].
    cbn [snd] in Hu. subst r. intros H; discriminate H.
  - rewrite Hu. destruct (simulate_election treated rng1) as [e|[t rng2]];
      [intros H; discriminate H|].
    intros H. injection H as <- _. unfold splice.
    rewrite (uniform_nudged np_exp ty prms _ _ Es).
    rewrite length_map, length_drop.
    assert (Hk : (k <= length voters)%nat) by apply slice_index_le.
    clearbody k. rewrite (drop_ge voters (k + _)) by lia. now rewrite app_nil_r.
Qed.


(** X15. Nudges accumulate over experiments (in analytical mode, their
    default): the treated voters stay
    nudged in the population of the simulation, so a second experiment of
    the same kind nudges the same voters a second time; after two
    social_norm experiments the noise of every treated voter is
    0.85 * 0.85 times what it was, and the control voters are as they
    were. *)
Theorem nudges_accumulate (voters : list DDMVoter) (ty : string) (prms : gmap string Q)
    (fraction : Q) (rng rng' : RNG) (voters1 voters2 : list DDMVoter)
    (res1 res2 : ExperimentResult * RNG) :
  run_nudge_experiment voters ty prms fraction rng = (voters1, ok res1) ->
  run_nudge_experiment voters1 ty prms fraction rng' = (voters2, ok res2) ->
  exists control treatment,
    voters = (control ++ treatment)%list /\
    voters2 = (control
               ++ List.map (fun v => apply_nudge_n np_exp 2 v ty prms) treatment)%list /\
    (ty = "social_norm" ->
     List.map sigma voters2
     = (List.map sigma control
        ++ List.map (fun v => sigma v * 0.85 * 0.85) treatment)%list).
Proof.
  intros H1 H2.
  pose proof (experiment_state _ _ _ _ _ _ _ H1) as S1.
  pose proof (experiment_state _ _ _ _ _ _ _ H2) as S2. cbn zeta in S1, S2.
  assert (Hlen : length voters1 = length voters).
  { rewrite S1, length_app, length_map, length_take, length_drop. lia. }
  rewrite Hlen in S2.
  set (k := slice_index _ _) in *.
  assert (Hk : (k <= length voters)%nat) by apply slice_index_le.
  assert (Htk : length (take k voters) = k) by (rewrite length_take; lia).
  exists (take k voters), (drop k voters).
  split; [now rewrite take_drop|].
  assert (E : voters2 = (take k voters
               ++ List.map (fun v => apply_nudge_n np_exp 2 v ty prms) (drop k voters))%list).
  { rewrite S2, S1.
    rewrite take_app_length' by (symmetry; exact Htk).
    rewrite drop_app_length' by (symmetry; exact Htk).
    rewrite List.map_map. reflexivity. }
  split; [exact E|].
  intros ->. rewrite E, List.map_app, List.map_map. f_equal.
Qed.

(** One iteration of the loop that returned. *)
Lemma comparison_step (voters : list DDMVoter) (n_per_group : nat) (c : Q) (i : nat)
    (ty : string) (prms : gmap string Q) (rest : list string)
    (results : list (string * Arm)) (rng : RNG)
    (final : list DDMVoter) (out : list (string * Arm) * RNG) :
  nudge_params_map !! ty = Some prms ->
  comparison_loop voters n_per_group c i (ty :: rest) results rng = (final, ok out) ->
  let start := Nat.min (start_idx n_per_group i) (length voters) in
  let stop := Nat.min (end_idx (length voters) n_per_group i) (length voters) in
  let treated := List.map (nudged ty prms) (slice voters start stop) in
  exists t rng',
    simulate_election treated rng = ok (t, rng') /\
    comparison_loop (splice voters start treated) n_per_group c (S i) rest
      (set_arm results ty (mkArm t (Some (t - c)))) rng' = (final, ok out).
Proof.
  intros Hp. cbn zeta. cbn [Experiment.comparison_loop]. rewrite Hp.
  set (start := Nat.min (start_idx n_per_group i) (length voters)).
  set (stop := Nat.min (end_idx (length voters) n_per_group i) (length voters)).
  set (g := slice voters start stop).
  assert (Hu : forall asg,
            (forall v, In v g -> asg !! voter_id v = Some (ty, prms)) ->
            match Simulation.apply_nudges np_exp g ty prms with
            | inr voters' => Population.apply_nudges np_exp g asg = (voters', ok tt)
            | inl e => snd (Population.apply_nudges np_exp g asg) = raise e
            end) by (intros asg; apply apply_nudges_uniform).
  assert (Hcase : forall asg,
            (forall v, In v g -> asg !! voter_id v = Some (ty, prms)) ->
            (let '(treated, r) := Population.apply_nudges np_exp g asg in
             match r with
             | inl e => (splice voters start treated, raise e)
             | inr _ =>
                 match simulate_election treated rng with
                 | inl e => (splice voters start treated, raise e)
                 | inr (t, rng') =>
                     comparison_loop (splice voters start treated) n_per_group c (S i) rest
                       (set_arm results ty (mkArm t (Some (t - c)))) rng'
                 end
             end) = (final, ok out) ->
            exists t rng',
              simulate_election (List.map (nudged ty prms) g) rng = ok (t, rng') /\
              comparison_loop (splice voters start (List.map (nudged ty prms) g))
                n_per_group c (S i) rest
                (set_arm results ty (mkArm t (Some (t - c)))) rng' = (final, ok out)).
  { intros asg Hasg. specialize (Hu asg Hasg).
    destruct (Simulation.apply_nudges np_exp g ty prms) as [e|treated] eqn:Es.
    - destruct (Population.apply_nudges np_exp g asg) as [tr r]. cbn [snd] in Hu. subst r.
      intros H; discriminate H.
    - rewrite Hu. rewrite <- (uniform_nudged np_exp ty prms g treated Es).
      destruct (simulate_election treated rng) as [e|[t rng']]; [intros H; discriminate H|].
      intros H. exists t, rng'. split; [reflexivity|exact H]. }
  destruct g as [|v0 g0] eqn:Eg.
  - apply (Hcase ∅). intros v [].
  - apply (Hcase (assignment (v0 :: g0) ty prms ∅)).
    intros v Hv. now apply assignment_lookup.
Qed.

(** X16. A comparison of the two nudges of HN2 that returns has split the
    voters, in order, into three groups: a control group of N // 3 voters,
    a social_norm group of N // 3 voters and a competitiveness group of
    the remaining N - 2 (N // 3); each treated voter is nudged once, in
    place.  The result has the control arm and one arm per nudge, with
    effect = turnout - control turnout, and the winner is competitiveness
    only when its effect is strictly greater: a tie goes to social_norm. *)
Theorem comparison_groups (voters : list DDMVoter) (rng : RNG)
    (final : list DDMVoter) (res : Comparison * RNG) :
  _test_nudge_comparison voters ["social_norm"; "competitiveness"] rng = (final, ok res) ->
  let n := (length voters / 3)%nat in
  exists control g1 g2 c t1 t2,
    voters = (control ++ g1 ++ g2)%list /\
    length control = n /\ length g1 = n /\ length g2 = (length voters - 2 * n)%nat /\
    final = (control
             ++ List.map (nudged "social_norm" social_norm_params) g1
             ++ List.map (nudged "competitiveness" competitiveness_params) g2)%list /\
    arms (fst res) = [ ("control", mkArm c None);
                       ("social_norm", mkArm t1 (Some (t1 - c)));
                       ("competitiveness", mkArm t2 (Some (t2 - c))) ] /\
    winner (fst res) = if Qltb (t1 - c) (t2 - c) then "competitiveness" else "social_norm".
Proof.
  cbn zeta. unfold Experiment._test_nudge_comparison.
  set (n := (length voters / 3)%nat).
  assert (Hn : (3 * n <= length voters)%nat).
  { unfold n. pose proof (Nat.div_mod_eq (length voters) 3). lia. }
  destruct (simulate_election (take n voters) rng) as [e|[c rng1]];
    [intros H; discriminate H|].
  destruct (Experiment.comparison_loop _ _ _ voters n c 0 _ _ rng1) as [V r] eqn:EL.
  destruct r as [e|out]; [intros H; discriminate H|].
  destruct (comparison_step _ _ _ _ _ _ _ _ _ _ _ params_of_social_norm EL)
    as (t1 & rng2 & _ & EL1).
  clear EL.
  assert (Hs0 : Nat.min (start_idx n 0) (length voters) = n)
    by (unfold start_idx; lia).
  assert (He0 : Nat.min (end_idx (length voters) n 0) (length voters) = (2 * n)%nat)
    by (unfold end_idx; cbn [Nat.eqb]; lia).
  rewrite Hs0, He0 in EL1.
  set (g1 := slice voters n (2 * n)) in *.
  set (voters1 := splice voters n _) in EL1.
  assert (Hlen1 : length voters1 = length voters)
    by (apply length_splice_map; lia).
  destruct (comparison_step _ _ _ _ _ _ _ _ _ _ _ params_of_competitiveness EL1)
    as (t2 & rng3 & _ & EL2).
  clear EL1. rewrite Hlen1 in EL2.
  assert (Hs1 : Nat.min (start_idx n 1) (length voters) = (2 * n)%nat)
    by (unfold start_idx; lia).
  assert (He1 : Nat.min (end_idx (length voters) n 1) (length voters) = length voters)
    by (unfold end_idx; cbn [Nat.eqb]; lia).
  rewrite Hs1, He1 in EL2.
  assert (Hg1 : length g1 = n).
  { unfold g1, slice. rewrite length_take, length_drop. lia. }
  assert (Hd1 : drop (2 * n) voters1 = drop (2 * n) voters).
  { unfold voters1, splice. rewrite length_map, Hg1.
    rewrite drop_app_ge by (rewrite length_take; lia).
    rewrite length_take.
    rewrite drop_app_ge by (rewrite length_map; lia).
    rewrite length_map, Hg1, drop_drop. f_equal. lia. }
  assert (Ht1 : take (2 * n) voters1
                = (take n voters ++ List.map (nudged "social_norm" social_norm_params) g1)%list).
  { unfold voters1, splice. rewrite app_assoc.
    apply take_app_length'. rewrite length_app, length_map, length_take. lia. }
  assert (Hg2 : slice voters1 (2 * n) (length voters) = drop (2 * n) voters).
  { unfold slice. rewrite Hd1. apply take_ge. rewrite length_drop. lia. }
  rewrite Hg2 in EL2.
  cbn [Experiment.comparison_loop] in EL2. injection EL2 as <- <-.
  cbn [set_arm String.eqb Ascii.eqb Bool.eqb fst snd].
  cbn [effects_of String.eqb Ascii.eqb Bool.eqb arm_effect bind ok py_max_key max_key
       List.filter negb fst snd].
  intros H. injection H as <- <-.
  exists (take n voters), g1, (drop (2 * n) voters), c, t1, t2.
  cbn [fst arms winner].
  split.
  { unfold g1, slice. rewrite <- (take_drop n voters) at 1. f_equal.
    rewrite <- (take_drop (2 * n - n) (drop n voters)) at 1. f_equal.
    rewrite drop_drop. f_equal. lia. }
  split; [rewrite length_take; lia|]. split; [exact Hg1|].
  split; [rewrite length_drop; lia|].
  split.
  { unfold splice. change (n + (n + 0))%nat with (2 * n)%nat.
    rewrite length_map, length_drop.
    rewrite (drop_ge voters1) by lia. rewrite app_nil_r.
    rewrite Ht1, <- app_assoc. reflexivity. }
  split; [reflexivity|].
  destruct (Qltb (t1 - c) (t2 - c)); reflexivity.
Qed.

End Orchestrator.

Lemma first_run_returns : experiment_on two_voters 0 = (after_first, ok first_result).
Proof. vm_compute. reflexivity. Qed.

Lemma second_run_returns : experiment_on after_first 2 = (after_second, ok second_result).
Proof. vm_compute. reflexivity. Qed.

Lemma comparison_run_returns : comparison_run = (after_comparison, ok comparison_result).
Proof. vm_compute. reflexivity. Qed.


Lemma nudges_accumulate_witness :
  Experiment.run_nudge_experiment exp_series nat even_election two_voters
                                  "social_norm" ∅ 0.5 0%nat
    = (after_first, ok first_result) /\
  Experiment.run_nudge_experiment exp_series nat even_election after_first
                                  "social_norm" ∅ 0.5 2%nat
    = (after_second, ok second_result) /\
  exists control treatment,
    two_voters = (control ++ treatment)%list /\
    List.map sigma after_second
    = (List.map sigma control
       ++ List.map (fun v => sigma v * 0.85 * 0.85) treatment)%list.
Proof.
  split; [exact first_run_returns|]. split; [exact second_run_returns|].
  destruct (nudges_accumulate exp_series nat even_election two_voters "social_norm" ∅ 0.5
              0%nat 2%nat after_first after_second first_result second_result
              first_run_returns second_run_returns)
    as (control & treatment & H1 & _ & H3).
  exists control, treatment. split; [exact H1|exact (H3 eq_refl)].
Defined.

Lemma comparison_groups_witness :
  Experiment._test_nudge_comparison exp_series nat even_election three_voters
                                    ["social_norm"; "competitiveness"] O
    = (after_comparison, ok comparison_result) /\
  exists control g1 g2,
    three_voters = (control ++ g1 ++ g2)%list /\
    length control = 1%nat /\ length g1 = 1%nat /\ length g2 = 1%nat /\
    winner (fst comparison_result) = "social_norm".
Proof.
  split; [exact comparison_run_returns|].
  destruct (comparison_groups exp_series nat even_election three_voters O
              after_comparison comparison_result comparison_run_returns)
    as (control & g1 & g2 & c & t1 & t2 & H1 & H2 & H3 & H4 & _ & _ & _).
  exists control, g1, g2. split; [exact H1|]. split; [exact H2|]. split; [exact H3|].
  split; [exact H4|]. vm_compute. reflexivity.
Defined.

End ExperimentTheorems.

(** ** simulation.py: the groups of the stratified tests *)

Module StrataTheorems.

Import DDM PyFacts Simulation Strata Samples Runs.
Local Open Scope Q_scope.

Lemma stratum_voters_filter (strata_var : string) (lower upper : Q)
    (voters : list DDMVoter) :
  Forall (fun v => is_Some (features v !! strata_var)) voters ->
  stratum_voters strata_var lower upper voters
  = ok (List.filter (within strata_var lower upper) voters).
Proof.
  induction 1 as [|v rest [x Hx] _ IH]; [reflexivity|].
  cbn [stratum_voters List.filter]. unfold in_stratum, within.
  rewrite (getitem_some _ _ _ Hx), Hx, IH. reflexivity.
Qed.

Lemma stratum_voters_missing (strata_var : string) (lower upper : Q)
    (voters : list DDMVoter) :
  Exists (fun v => features v !! strata_var = None) voters ->
  stratum_voters strata_var lower upper voters = raise (KeyError strata_var).
Proof.
  induction voters as [|v rest IH]; intros H; [inversion H|].
  cbn [stratum_voters]. unfold in_stratum, Py.getitem.
  destruct (features v !! strata_var) as [x|] eqn:E; [|reflexivity].
  cbn [bind ok]. rewrite IH; [reflexivity|].
  inversion H as [? ? H0|? ? H0]; subst; [congruence|exact H0].
Qed.

Lemma nonempty_strata_filter (strata_var : string) (voters : list DDMVoter)
    (bounds : list (string * Q * Q)) :
  Forall (fun v => is_Some (features v !! strata_var)) voters ->
  nonempty_strata strata_var bounds voters
  = ok (List.filter (fun g => match snd g with [] => false | _ => true end)
          (List.map (fun b => (fst (fst b),
                               List.filter (within strata_var (snd (fst b)) (snd b)) voters))
                    bounds)).
Proof.
  intros H. induction bounds as [|[[label lower] upper] rest IH]; [reflexivity|].
  cbn [nonempty_strata List.map List.filter fst snd].
  rewrite (stratum_voters_filter _ _ _ _ H), IH. cbn [bind ok].
  destruct (List.filter (within strata_var lower upper) voters); reflexivity.
Qed.

Lemma length_filter_split {A : Type} (p q r : A -> bool) (l : list A) :
  (forall x, r x = p x || q x) -> (forall x, p x = true -> q x = false) ->
  length (List.filter r l) = (length (List.filter p l) + length (List.filter q l))%nat.
Proof.
  intros Hr Hd. induction l as [|x l IH]; [reflexivity|].
  cbn [List.filter]. rewrite (Hr x).
  destruct (p x) eqn:Ep; [rewrite (Hd x Ep)|destruct (q x)]; cbn; lia.
Qed.

Lemma within_split (strata_var : string) (x y w : Q) (v : DDMVoter) :
  x <= y -> y <= w ->
  within strata_var x w v = within strata_var x y v || within strata_var y w v.
Proof.
  intros Hxy Hyw. unfold within. destruct (features v !! strata_var) as [t|]; [|reflexivity].
  destruct (Qle_bool x t) eqn:E1, (Qltb t y) eqn:E2, (Qle_bool y t) eqn:E3,
    (Qltb t w) eqn:E4; try reflexivity; exfalso;
    repeat match goal with
           | H : Qle_bool _ _ = true |- _ => apply Qle_bool_iff in H
           | H : Qltb _ _ = true |- _ => apply Qltb_lt in H
           | H : Qltb _ _ = false |- _ => apply Qltb_ge in H
           | H : Qle_bool ?a ?b = false |- _ =>
               assert (b < a) by (apply Qnot_le_lt; intros C; apply Qle_bool_iff in C; congruence);
               clear H
           end; lra.
Qed.

Lemma within_disjoint (strata_var : string) (x y w : Q) (v : DDMVoter) :
  within strata_var x y v = true -> within strata_var y w v = false.
Proof.
  unfold within. destruct (features v !! strata_var) as [t|]; [|discriminate].
  intros H. apply andb_true_iff in H. destruct H as [_ H]. apply Qltb_lt in H.
  destruct (Qle_bool y t) eqn:E; [|reflexivity]. apply Qle_bool_iff in E. lra.
Qed.

Lemma group_sizes_filter (groups : list (string * list DDMVoter)) :
  group_sizes (List.filter (fun g => match snd g with [] => false | _ => true end) groups)
  = group_sizes groups.
Proof.
  induction groups as [|[label members] rest IH]; [reflexivity|].
  cbn [List.filter snd]. destruct members as [|m ms]; cbn [group_sizes fold_right snd length];
    fold (group_sizes rest);
    fold (group_sizes (List.filter (fun g => match snd g with [] => false | _ => true end) rest));
    rewrite IH; reflexivity.
Qed.

(** X17. The groups of a stratified test.  When every voter has the
    stratification variable, the test forms, in the order of the labels,
    one group per stratum that has a voter: no group is empty, the group
    of a label holds exactly the voters whose value is in
    [lower, upper) of that stratum, in their order, and the groups together
    hold as many voters as have a value in [0, 1): a voter at 1.0 or
    outside the scale is in no group.  When a voter lacks the variable the
    test raises KeyError. *)
Theorem stratified_groups_cover (voters : list DDMVoter) (config : HypothesisConfig) :
  let strata_var := fst (fst (select_strata config)) in
  (Forall (fun v => is_Some (features v !! strata_var)) voters ->
   exists groups,
     stratified_groups voters config = ok groups /\
     (forall label members, In (label, members) groups ->
        members <> [] /\
        exists lower upper,
          In (label, lower, upper)
             (strata (snd (fst (select_strata config))) (snd (select_strata config))) /\
          members = List.filter (within strata_var lower upper) voters) /\
     group_sizes groups = length (List.filter (within strata_var 0 1.0) voters)) /\
  (Exists (fun v => features v !! strata_var = None) voters ->
   stratified_groups voters config = raise (KeyError strata_var)).
Proof.
  cbn zeta. unfold stratified_groups, select_strata.
  destruct (contains "HN1" (description config) || contains "HN3" (description config));
    cbn [fst snd strata]; (split; [intros H|intros H]).
  - rewrite (nonempty_strata_filter _ _ _ H). eexists. split; [reflexivity|]. split.
    + intros label members Hin. apply filter_In in Hin. destruct Hin as [Hin Hne].
      cbn [snd] in Hne. split; [intros ->; discriminate Hne|].
      cbn [List.map fst snd] in Hin.
      destruct Hin as [E|[E|[E|[]]]]; injection E as <- <-; eexists _, _;
        (split; [|reflexivity]); cbn; tauto.
    + rewrite group_sizes_filter. cbn [List.map group_sizes fold_right fst snd].
      rewrite (length_filter_split (within "civic_duty" 0 0.33) (within "civic_duty" 0.33 1.0)
                 (within "civic_duty" 0 1.0));
        [|intros v; apply within_split; lra|intros v; apply within_disjoint].
      rewrite (length_filter_split (within "civic_duty" 0.33 0.67)
                 (within "civic_duty" 0.67 1.0) (within "civic_duty" 0.33 1.0));
        [|intros v; apply within_split; lra|intros v; apply within_disjoint].
      lia.
  - cbn [nonempty_strata]. now rewrite stratum_voters_missing.
  - rewrite (nonempty_strata_filter _ _ _ H). eexists. split; [reflexivity|]. split.
    + intros label members Hin. apply filter_In in Hin. destruct Hin as [Hin Hne].
      cbn [snd] in Hne. split; [intros ->; discriminate Hne|].
      cbn [List.map fst snd] in Hin.
      destruct Hin as [E|[E|[]]]; injection E as <- <-; eexists _, _;
        (split; [|reflexivity]); cbn; tauto.
    + rewrite group_sizes_filter. cbn [List.map group_sizes fold_right fst snd].
      rewrite (length_filter_split (within "education_normalized" 0 0.5)
                 (within "education_normalized" 0.5 1.0)
                 (within "education_normalized" 0 1.0));
        [|intros v; apply within_split; lra|intros v; apply within_disjoint].
      lia.
  - cbn [nonempty_strata]. now rewrite stratum_voters_missing.
Qed.

Lemma stratified_groups_cover_witness :
  Forall (fun v => is_Some (features v !! fst (fst (select_strata HN6)))) two_voters /\
  exists groups,
    stratified_groups two_voters HN6 = ok groups /\
    group_sizes groups
    = length (List.filter (within (fst (fst (select_strata HN6))) 0 1.0) two_voters).
Proof.
  assert (H : Forall (fun v => is_Some (features v !! fst (fst (select_strata HN6))))
                     two_voters).
  { repeat constructor; vm_compute; eauto. }
  split; [exact H|].
  destruct (stratified_groups_cover two_voters HN6) as [Hc _].
  destruct (Hc H) as (groups & E & _ & Hs).
  exists groups. split; [exact E|exact Hs].
Defined.

End StrataTheorems.

(** ** agent_generator.py: the records of the agents *)

Module AgentTheorems.

Import AgentGenerator Schema Defaults GeneratorTheorems Samples Runs.

Lemma dict_get_keys (d : dict) (k : string) : is_Some (dict_get d k) <-> In k (dict_keys d).
Proof.
  induction d as [|[k0 v0] d IH]; cbn.
  - split; [intros [x Hx]; discriminate Hx|tauto].
  - destruct (String.eqb_spec k0 k) as [->|Hne]; [split; eauto|].
    rewrite IH. unfold dict_keys. intuition congruence.
Qed.

Section Generator.

Variable RNG : Type.
Variable np_random_beta : Q -> Q -> RNG -> Q * RNG.
Variable np_random_random : RNG -> Q * RNG.
Variable np_random_binomial : Q -> Q -> RNG -> Q * RNG.
Variable np_random_randint : Z -> Z -> RNG -> Z * RNG.
Variable py_str : json -> string.

Local Abbreviation gen_features :=
  (generate_features RNG np_random_beta np_random_random np_random_binomial py_str).
Local Abbreviation add_defaults := (_add_default_features RNG np_random_randint).
Local Abbreviation gen_agent :=
  (_generate_single_agent RNG np_random_beta np_random_random np_random_binomial
                          np_random_randint py_str).
Local Abbreviation gen_population :=
  (generate_population RNG np_random_beta np_random_random np_random_binomial
                       np_random_randint py_str).

Ltac step := unfold ok, ret, draw; cbv beta iota.

Lemma set_default_lookup (agent0 : gmap string json) (k k' : string) (d : json) :
  set_default agent0 k d !! k' =
  if String.eqb k k' then Some (default d (agent0 !! k)) else agent0 !! k'.
Proof.
  unfold set_default. destruct (String.eqb_spec k k') as [<-|Hne].
  - destruct (agent0 !! k) as [v|] eqn:E; [exact E|apply lookup_insert_eq].
  - destruct (agent0 !! k); [reflexivity|now apply lookup_insert_ne].
Qed.

(** The record [_add_default_features] returns, key by key. *)
Lemma add_defaults_lookup (agent0 : gmap string json) (s : RNG) :
  exists agent1,
    add_defaults agent0 s = ok (agent1, snd (np_random_randint 18 80 s)) /\
    forall k, agent1 !! k = match agent0 !! k with
                            | Some v => Some v
                            | None => dict_get (defaults (fst (np_random_randint 18 80 s))) k
                            end.
Proof.
  unfold _add_default_features, mbind, draw, ret.
  destruct (np_random_randint 18 80 s) as [age s']. cbn [ok fst snd].
  eexists. split; [reflexivity|]. intros k.
  rewrite !set_default_lookup. unfold defaults. cbn [dict_get].
  destruct (String.eqb_spec "personality_match_candidate" k) as [<-|N5].
  { cbn [String.eqb Ascii.eqb Bool.eqb].
    destruct (agent0 !! "personality_match_candidate"); reflexivity. }
  destruct (String.eqb_spec "perceived_integrity" k) as [<-|N4].
  { cbn [String.eqb Ascii.eqb Bool.eqb].
    destruct (agent0 !! "perceived_integrity"); reflexivity. }
  destruct (String.eqb_spec "partisan_identity_strength" k) as [<-|N3].
  { cbn [String.eqb Ascii.eqb Bool.eqb].
    destruct (agent0 !! "partisan_identity_strength"); reflexivity. }
  destruct (String.eqb_spec "issue_salience" k) as [<-|N2].
  { cbn [String.eqb Ascii.eqb Bool.eqb].
    destruct (agent0 !! "issue_salience"); reflexivity. }
  destruct (String.eqb_spec "age" k) as [<-|N1].
  { destruct (agent0 !! "age"); reflexivity. }
  destruct (agent0 !! k); reflexivity.
Qed.

(** X18. [_add_default_features] never overwrites: every key the agent
    has keeps its value, every key it lacks among age, issue_salience,
    partisan_identity_strength, perceived_integrity and
    personality_match_candidate gets its default (the age is the one
    drawn), no other key is added, and the age is drawn, so the generator
    advances by one draw, whether or not the agent already has an age. *)
Theorem add_default_features_fills (agent0 : gmap string json) (s : RNG) :
  exists agent1,
    add_defaults agent0 s = ok (agent1, snd (np_random_randint 18 80 s)) /\
    (forall k v, agent0 !! k = Some v -> agent1 !! k = Some v) /\
    (forall k, agent0 !! k = None ->
       agent1 !! k = dict_get (defaults (fst (np_random_randint 18 80 s))) k) /\
    (forall k, In k (dict_keys (defaults 0)) -> is_Some (agent1 !! k)) /\
    (forall k, ~ In k (dict_keys (defaults 0)) -> agent1 !! k = agent0 !! k).
Proof.
  destruct (add_defaults_lookup agent0 s) as (agent1 & E & Hl).
  exists agent1. split; [exact E|]. split; [|split; [|split]].
  - intros k v Hk. now rewrite Hl, Hk.
  - intros k Hk. now rewrite Hl, Hk.
  - intros k Hk. rewrite Hl. destruct (agent0 !! k); [eauto|].
    apply dict_get_keys. exact Hk.
  - intros k Hk. rewrite Hl. destruct (agent0 !! k) as [v|]; [reflexivity|].
    destruct (dict_get (defaults (fst (np_random_randint 18 80 s))) k) as [x|] eqn:Ex;
      [|reflexivity].
    exfalso. apply Hk.
    apply (dict_get_keys (defaults (fst (np_random_randint 18 80 s))) k). eauto.
Qed.




(** X20. A population size of zero or less gives the empty population
    without drawing a random number and without looking at the rules or
    the context: a rule with an unknown method or a context that is not a
    dict goes unnoticed. *)
Theorem empty_population (config scenario rules context : json) (scenario_name : string)
    (n : Z) (s : RNG) :
  _get_scenario config scenario_name = ok (Some scenario) ->
  Json.getitem scenario "agent_generation_rules" = ok rules ->
  Json.getitem scenario "global_context" = ok context ->
  Json.getitem rules "population_size" = ok (JInt n) ->
  (n <= 0)%Z ->
  gen_population config scenario_name s = ok ([], s).
Proof.
  intros Hfound Hrules Hctx Hsize Hn.
  unfold generate_population, mbind, lift. rewrite Hfound. step.
  rewrite Hrules, Hctx. step. rewrite Hsize. step. cbn [range]. step.
  assert (Hz : Z.to_nat n = 0%nat) by lia. rewrite Hz. cbn [seq].
  destruct rules; try (unfold Json.getitem in Hsize; discriminate Hsize). reflexivity.
Qed.

End Generator.

Lemma add_default_features_fills_witness :
  (∅ : gmap string json) !! "age" = None /\
  exists agent1,
    _add_default_features nat counter_randint ∅ 0%nat = ok (agent1, 1%nat) /\
    agent1 !! "age" = Some (JInt 18).
Proof.
  split; [apply lookup_empty|].
  destruct (add_default_features_fills nat counter_randint ∅ 0%nat)
    as (agent1 & E & _ & Hd & _).
  exists agent1. split; [exact E|]. exact (Hd "age" (lookup_empty _)).
Defined.



Lemma empty_population_witness :
  _get_scenario empty_config kerala = ok (Some empty_scenario) /\
  Json.getitem empty_scenario "agent_generation_rules" = ok empty_rules /\
  Json.getitem empty_scenario "global_context" = ok (JObj []) /\
  Json.getitem empty_rules "population_size" = ok (JInt 0) /\
  (0 <= 0)%Z /\
  generate_population nat counter_beta counter_random counter_binomial counter_randint
                      plain_str empty_config kerala 0%nat = ok ([], 0%nat).
Proof.
  split; [reflexivity|]. split; [reflexivity|]. split; [reflexivity|].
  split; [reflexivity|]. split; [lia|].
  exact (empty_population nat counter_beta counter_random counter_binomial counter_randint
           plain_str empty_config empty_scenario empty_rules (JObj []) kerala 0 0%nat
           eq_refl eq_refl eq_refl eq_refl (Z.le_refl 0)).
Defined.

End AgentTheorems.

(** ** The composite scores: what the scripts leave in the table *)

Module ScoreTheorems.

Import Survey Reference Scores SurveyTheorems Samples Runs.
Local Open Scope Q_scope.

Ltac through_inserts :=
  repeat (rewrite lookup_insert_ne by discriminate); try rewrite lookup_insert_eq.

Ltac sides :=
  repeat first [ rewrite lookup_insert_eq
               | rewrite lookup_insert_ne by discriminate ];
  reflexivity.

(** The table the scripts return, column by column. *)
Lemma composite_table (df : DataFrame) :
  (forall c, In c question_columns -> is_Some (df !! c)) ->
  exists s2 s3 s4 s5 s7 s8 s9 s10 s12,
    df !! "q2_frequency" = Some s2 /\ df !! "q3_effort_tradeoff" = Some s3 /\
    df !! "q4_perceived_impact" = Some s4 /\ df !! "q5_civic_duty" = Some s5 /\
    df !! "q7_trust" = Some s7 /\ df !! "q8_social_influence" = Some s8 /\
    df !! "q9_information_load" = Some s9 /\ df !! "q10_disillusionment" = Some s10 /\
    df !! "q12_competitiveness" = Some s12 /\
    VoterSurveyAnalysis.create_composite_scores df =
    ok (<["voting_utility" :=
           add (add (add (add (mul (div (add (rsub 6 s4) (rsub 6 s12)) 2) 0.2)
                              (mul (neg (mean_axis1 [s3; s9])) 0.15))
                         (mul (rsub 6 s5) 0.25))
                    (mul (rsub 6 s8) 0.15))
               (mul (rsub 6 s2) 0.25)]>
        (<["engagement_score" :=
            mean_axis1 [rsub 6 s5; rsub 6 s2; div (add (rsub 6 s4) (rsub 6 s12)) 2;
                        rsub 6 (mean_axis1 [s7; s10])]]>
         (<["trust_score" := rsub 6 (mean_axis1 [s7; s10])]>
          (<["benefit_score" := div (add (rsub 6 s4) (rsub 6 s12)) 2]>
           (<["cost_score" := mean_axis1 [s3; s9]]>
            (<["habit_score" := rsub 6 s2]>
             (<["social_pressure_score" := rsub 6 s8]>
              (<["civic_duty_score" := rsub 6 s5]> df)))))))).
Proof.
  intros Hq.
  destruct (questions_present df Hq)
    as (s2 & s3 & s4 & s5 & s7 & s8 & s9 & s10 & s12 &
        H2 & H3 & H4 & H5 & H7 & H8 & H9 & H10 & H12).
  exists s2, s3, s4, s5, s7, s8, s9, s10, s12.
  repeat (split; [assumption|]).
  unfold VoterSurveyAnalysis.create_composite_scores, columns, column.
  repeat (through_inserts;
          rewrite ?H2, ?H3, ?H4, ?H5, ?H7, ?H8, ?H9, ?H10, ?H12; cbn [bind ok]).
  reflexivity.
Qed.

(** X21. [create_composite_scores] can be run again: on a table with
    the question columns the function of the Comprehensive Analysis and
    the one of the Hypothesis Tester return the same table, of the same
    rows, with the eight score columns and every other column as it was,
    and running either function on that table returns it unchanged. *)
Theorem composite_scores_idempotent (n : nat) (df : DataFrame) :
  table n df ->
  (forall c, In c question_columns -> is_Some (df !! c)) ->
  exists out,
    VoterSurveyAnalysis.create_composite_scores df = ok out /\
    HypothesisTester.create_composite_scores df = ok out /\
    VoterSurveyAnalysis.create_composite_scores out = ok out /\
    HypothesisTester.create_composite_scores out = ok out /\
    table n out /\
    (forall c, ~ In c composite_columns -> out !! c = df !! c) /\
    (forall c, In c composite_columns -> is_Some (out !! c)).
Proof.
  intros Htab Hq.
  destruct (composite_table df Hq)
    as (s2 & s3 & s4 & s5 & s7 & s8 & s9 & s10 & s12 &
        H2 & H3 & H4 & H5 & H7 & H8 & H9 & H10 & H12 & E).
  pose proof (Htab _ _ H2) as L2. pose proof (Htab _ _ H3) as L3.
  pose proof (Htab _ _ H4) as L4. pose proof (Htab _ _ H5) as L5.
  pose proof (Htab _ _ H7) as L7. pose proof (Htab _ _ H8) as L8.
  pose proof (Htab _ _ H9) as L9. pose proof (Htab _ _ H10) as L10.
  pose proof (Htab _ _ H12) as L12.
  cbv beta in L2, L3, L4, L5, L7, L8, L9, L10, L12.
  eexists. split; [exact E|]. split; [exact E|].
  match type of E with _ = ok ?o => set (out := o) end.
  assert (Hother : forall c, ~ In c composite_columns -> out !! c = df !! c).
  { intros c Hc. unfold out.
    rewrite !lookup_insert_ne; [reflexivity|..]; intros <-; apply Hc; cbn; tauto. }
  assert (Hqo : forall c, In c question_columns -> is_Some (out !! c)).
  { intros c Hc. rewrite Hother; [now apply Hq|].
    cbn in Hc |- *. intros Hin.
    repeat (destruct Hc as [<-|Hc];
            [repeat (destruct Hin as [Hin|Hin]; [discriminate Hin|]); destruct Hin|]).
    destruct Hc. }
  assert (Hagain : VoterSurveyAnalysis.create_composite_scores out = ok out);
    [|split; [exact Hagain|]; split; [exact Hagain|]; split; [|split; [exact Hother|]]].
  - destruct (composite_table out Hqo)
      as (t2 & t3 & t4 & t5 & t7 & t8 & t9 & t10 & t12 &
          G2 & G3 & G4 & G5 & G7 & G8 & G9 & G10 & G12 & E').
    rewrite E'. f_equal.
    rewrite Hother in G2, G3, G4, G5, G7, G8, G9, G10, G12
      by (cbn; intros Hin;
          repeat (destruct Hin as [Hin|Hin]; [discriminate Hin|]); destruct Hin).
    assert (t2 = s2) by congruence. assert (t3 = s3) by congruence.
    assert (t4 = s4) by congruence. assert (t5 = s5) by congruence.
    assert (t7 = s7) by congruence. assert (t8 = s8) by congruence.
    assert (t9 = s9) by congruence. assert (t10 = s10) by congruence.
    assert (t12 = s12) by congruence. subst t2 t3 t4 t5 t7 t8 t9 t10 t12.
    apply map_eq. intros k. unfold out.
    destruct (decide (k = "voting_utility")) as [->|N1]; [sides|].
    destruct (decide (k = "engagement_score")) as [->|N2]; [sides|].
    destruct (decide (k = "trust_score")) as [->|N3]; [sides|].
    destruct (decide (k = "benefit_score")) as [->|N4]; [sides|].
    destruct (decide (k = "cost_score")) as [->|N5]; [sides|].
    destruct (decide (k = "habit_score")) as [->|N6]; [sides|].
    destruct (decide (k = "social_pressure_score")) as [->|N7];
      [sides|].
    destruct (decide (k = "civic_duty_score")) as [->|N8]; [sides|].
    rewrite !lookup_insert_ne by congruence. reflexivity.
  - unfold out, table.
    repeat (apply map_Forall_insert_2; [|]); [..|exact Htab]; cbv beta.
    + apply length_add_n; [apply length_add_n; [apply length_add_n; [apply length_add_n|]|]|];
        unfold mul, neg, div, rsub; rewrite ?length_lift1, ?length_mean_axis1;
        try assumption.
      rewrite length_add; rewrite !length_lift1; congruence.
    + rewrite length_mean_axis1. unfold rsub. now rewrite length_lift1.
    + unfold rsub. now rewrite length_lift1, length_mean_axis1.
    + unfold div, rsub. rewrite length_lift1, length_add; rewrite !length_lift1; congruence.
    + now rewrite length_mean_axis1.
    + unfold rsub. now rewrite length_lift1.
    + unfold rsub. now rewrite length_lift1.
    + unfold rsub. now rewrite length_lift1.
  - intros c Hc. cbn in Hc. unfold out.
    repeat (destruct Hc as [<-|Hc]; [through_inserts; eauto|]). destruct Hc.
Qed.

Lemma sum_range (lo hi : Q) (ys : list Q) :
  Forall (fun y => lo <= y <= hi) ys ->
  inject_Z (Z.of_nat (length ys)) * lo <= sum ys <= inject_Z (Z.of_nat (length ys)) * hi.
Proof.
  induction 1 as [|y ys Hy _ IH].
  - cbn [length sum]. change (inject_Z (Z.of_nat 0)) with 0. lra.
  - cbn [length sum]. rewrite Nat2Z.inj_succ. unfold Z.succ. rewrite inject_Z_plus.
    change (inject_Z 1) with 1. lra.
Qed.

Lemma given_range (lo hi : Q) (xs : list (option Q)) :
  Forall (in_range lo hi) xs -> Forall (fun y => lo <= y <= hi) (given xs).
Proof.
  induction 1 as [|[x|] xs Hx _ IH]; cbn [given]; [constructor| |exact IH].
  constructor; [exact Hx|exact IH].
Qed.

Lemma row_mean_range (lo hi : Q) (xs : list (option Q)) :
  Forall (in_range lo hi) xs -> in_range lo hi (row_mean xs).
Proof.
  intros H. apply given_range in H. unfold row_mean. rewrite present_given.
  destruct (given xs) as [|y ys] eqn:E; [exact I|]. cbn [in_range].
  pose proof (sum_range lo hi _ H) as Hs.
  unfold total. rewrite fold_left_sum, Qplus_0_l.
  assert (Hn : 0 < inject_Z (Z.of_nat (length (y :: ys)))).
  { change 0 with (inject_Z 0). rewrite <- Zlt_Qlt. cbn [length]. lia. }
  split.
  - apply Qle_shift_div_l; [exact Hn|]. lra.
  - apply Qle_shift_div_r; [exact Hn|]. lra.
Qed.

(** The scores of respondent [i], from the answers of that row. *)
Lemma composite_cells (n i : nat) (df : DataFrame) :
  table n df ->
  (forall c, In c question_columns -> is_Some (df !! c)) ->
  (i < n)%nat ->
  exists out,
    VoterSurveyAnalysis.create_composite_scores df = ok out /\
    let r := answers df i in
    let civic := minus (Some 6) (q5_civic_duty r) in
    let social := minus (Some 6) (q8_social_influence r) in
    let habit := minus (Some 6) (q2_frequency r) in
    let cost := row_mean [q3_effort_tradeoff r; q9_information_load r] in
    let benefit := half (plus (minus (Some 6) (q4_perceived_impact r))
                              (minus (Some 6) (q12_competitiveness r))) in
    let trust := minus (Some 6) (row_mean [q7_trust r; q10_disillusionment r]) in
    cell out "civic_duty_score" i = civic /\
    cell out "social_pressure_score" i = social /\
    cell out "habit_score" i = habit /\
    cell out "cost_score" i = cost /\
    cell out "benefit_score" i = benefit /\
    cell out "trust_score" i = trust /\
    cell out "engagement_score" i = row_mean [civic; habit; benefit; trust] /\
    cell out "voting_utility" i =
      plus (plus (plus (plus (option_map (fun x => x * 0.2) benefit)
                             (option_map (fun x => x * 0.15) (option_map Qopp cost)))
                       (option_map (fun x => x * 0.25) civic))
                 (option_map (fun x => x * 0.15) social))
           (option_map (fun x => x * 0.25) habit).
Proof.
  intros Htab Hq Hi.
  destruct (composite_table df Hq)
    as (s2 & s3 & s4 & s5 & s7 & s8 & s9 & s10 & s12 &
        H2 & H3 & H4 & H5 & H7 & H8 & H9 & H10 & H12 & E).
  pose proof (Htab _ _ H2) as L2. pose proof (Htab _ _ H3) as L3.
  pose proof (Htab _ _ H4) as L4. pose proof (Htab _ _ H5) as L5.
  pose proof (Htab _ _ H7) as L7. pose proof (Htab _ _ H8) as L8.
  pose proof (Htab _ _ H9) as L9. pose proof (Htab _ _ H10) as L10.
  pose proof (Htab _ _ H12) as L12.
  cbv beta in L2, L3, L4, L5, L7, L8, L9, L10, L12.
  eexists. split; [exact E|]. cbn zeta.
  unfold answers, cell at 1 2 3 4 5 6 7 8 9.
  cbn [q2_frequency q3_effort_tradeoff q4_perceived_impact q5_civic_duty q7_trust
       q8_social_influence q9_information_load q10_disillusionment q12_competitiveness].
  unfold cell. rewrite H2, H3, H4, H5, H7, H8, H9, H10, H12.
  assert (Hlen : forall s : Series, length s = n -> (i < length s)%nat) by (intros; lia).
  set (o2 := default None (s2 !! i)). set (o3 := default None (s3 !! i)).
  set (o4 := default None (s4 !! i)). set (o5 := default None (s5 !! i)).
  set (o7 := default None (s7 !! i)). set (o8 := default None (s8 !! i)).
  set (o9 := default None (s9 !! i)). set (o10 := default None (s10 !! i)).
  set (o12 := default None (s12 !! i)).
  assert (Hcost : default None (mean_axis1 [s3; s9] !! i) = row_mean [o3; o9]).
  { rewrite lookup_mean_axis1 by auto. reflexivity. }
  assert (Htrust : default None (mean_axis1 [s7; s10] !! i) = row_mean [o7; o10]).
  { rewrite lookup_mean_axis1 by auto. reflexivity. }
  assert (Hben : default None (div (add (rsub 6 s4) (rsub 6 s12)) 2 !! i) =
                 half (plus (minus (Some 6) o4) (minus (Some 6) o12))).
  { unfold div. rewrite lookup_lift1, lookup_add, !lookup_rsub; [reflexivity|].
    unfold rsub. rewrite !length_lift1. congruence. }
  assert (Heng : default None (mean_axis1 [rsub 6 s5; rsub 6 s2;
                   div (add (rsub 6 s4) (rsub 6 s12)) 2;
                   rsub 6 (mean_axis1 [s7; s10])] !! i) =
                 row_mean [minus (Some 6) o5; minus (Some 6) o2;
                           half (plus (minus (Some 6) o4) (minus (Some 6) o12));
                           minus (Some 6) (row_mean [o7; o10])]).
  { rewrite lookup_mean_axis1 by (unfold rsub; rewrite length_lift1; auto).
    unfold row. cbn [List.map]. rewrite Hben, !lookup_rsub, Htrust. reflexivity. }
  repeat split; through_inserts; cbn [default].
  - apply lookup_rsub.
  - apply lookup_rsub.
  - apply lookup_rsub.
  - exact Hcost.
  - exact Hben.
  - now rewrite lookup_rsub, Htrust.
  - exact Heng.
  - assert (Lb : length (mul (div (add (rsub 6 s4) (rsub 6 s12)) 2) 0.2) = n).
    { unfold mul, div. rewrite !length_lift1, length_add; unfold rsub;
        rewrite !length_lift1; congruence. }
    assert (Lc : length (mul (neg (mean_axis1 [s3; s9])) 0.15) = n).
    { unfold mul, neg. rewrite !length_lift1, length_mean_axis1. exact L3. }
    assert (Ld : length (mul (rsub 6 s5) 0.25) = n).
    { unfold mul, rsub. rewrite !length_lift1. exact L5. }
    assert (Ls : length (mul (rsub 6 s8) 0.15) = n).
    { unfold mul, rsub. rewrite !length_lift1. exact L8. }
    assert (Lh : length (mul (rsub 6 s2) 0.25) = n).
    { unfold mul, rsub. rewrite !length_lift1. exact L2. }
    pose proof (length_add_n n _ _ Lb Lc) as Lbc.
    pose proof (length_add_n n _ _ Lbc Ld) as Lbcd.
    pose proof (length_add_n n _ _ Lbcd Ls) as Lbcds.
    rewrite !lookup_add by congruence.
    unfold mul at 1 2 3 4 5, neg. rewrite !lookup_lift1, Hben, Hcost, !lookup_rsub.
    reflexivity.
Qed.

(** X22. The ranges of the scores.  When every answer that is given lies
    in the range the cleaner enforces (1 to 5, and 1 to 4 for
    q4_perceived_impact), every composite score is missing or lies in its
    range: 1 to 5 for civic duty, social pressure, habit, cost, trust and
    engagement, 1.5 to 5 for benefit and 0.2 to 4.1 for voting_utility. *)
Theorem composite_score_ranges (n : nat) (df : DataFrame) :
  table n df ->
  (forall c, In c question_columns -> is_Some (df !! c)) ->
  (forall i c, In c question_columns -> in_range 1 5 (cell df c i)) ->
  (forall i, in_range 1 4 (cell df "q4_perceived_impact" i)) ->
  exists out,
    VoterSurveyAnalysis.create_composite_scores df = ok out /\
    forall i, (i < n)%nat ->
      in_range 1 5 (cell out "civic_duty_score" i) /\
      in_range 1 5 (cell out "social_pressure_score" i) /\
      in_range 1 5 (cell out "habit_score" i) /\
      in_range 1 5 (cell out "cost_score" i) /\
      in_range 1.5 5 (cell out "benefit_score" i) /\
      in_range 1 5 (cell out "trust_score" i) /\
      in_range 1 5 (cell out "engagement_score" i) /\
      in_range 0.2 4.1 (cell out "voting_utility" i).
Proof.
  intros Htab Hq Hr Hr4.
  destruct (composite_table df Hq) as (s2 & s3 & s4 & s5 & s7 & s8 & s9 & s10 & s12 &
    _ & _ & _ & _ & _ & _ & _ & _ & _ & E).
  match type of E with _ = ok ?o => set (out0 := o) in * end. clearbody out0.
  exists out0. split; [exact E|]. intros i Hi.
  destruct (composite_cells n i df Htab Hq Hi) as (out & E' & Hc).
  rewrite E in E'. injection E' as <-. cbv zeta in Hc.
  destruct Hc as (C1 & C2 & C3 & C4 & C5 & C6 & C7 & C8).
  rewrite C1, C2, C3, C4, C5, C6, C7, C8. clear C1 C2 C3 C4 C5 C6 C7 C8 E.
  unfold answers.
  cbn [q2_frequency q3_effort_tradeoff q4_perceived_impact q5_civic_duty q7_trust
       q8_social_influence q9_information_load q10_disillusionment q12_competitiveness].
  pose proof (Hr i "q2_frequency" ltac:(cbn; tauto)) as R2.
  pose proof (Hr i "q3_effort_tradeoff" ltac:(cbn; tauto)) as R3.
  pose proof (Hr4 i) as R4.
  pose proof (Hr i "q5_civic_duty" ltac:(cbn; tauto)) as R5.
  pose proof (Hr i "q7_trust" ltac:(cbn; tauto)) as R7.
  pose proof (Hr i "q8_social_influence" ltac:(cbn; tauto)) as R8.
  pose proof (Hr i "q9_information_load" ltac:(cbn; tauto)) as R9.
  pose proof (Hr i "q10_disillusionment" ltac:(cbn; tauto)) as R10.
  pose proof (Hr i "q12_competitiveness" ltac:(cbn; tauto)) as R12.
  set (o2 := cell df "q2_frequency" i) in *. set (o3 := cell df "q3_effort_tradeoff" i) in *.
  set (o4 := cell df "q4_perceived_impact" i) in *. set (o5 := cell df "q5_civic_duty" i) in *.
  set (o7 := cell df "q7_trust" i) in *. set (o8 := cell df "q8_social_influence" i) in *.
  set (o9 := cell df "q9_information_load" i) in *.
  set (o10 := cell df "q10_disillusionment" i) in *.
  set (o12 := cell df "q12_competitiveness" i) in *.
  clearbody o2 o3 o4 o5 o7 o8 o9 o10 o12.
  assert (Hcivic : in_range 1 5 (minus (Some 6) o5)) by (destruct o5; cbn in *; [lra|exact I]).
  assert (Hsocial : in_range 1 5 (minus (Some 6) o8)) by (destruct o8; cbn in *; [lra|exact I]).
  assert (Hhabit : in_range 1 5 (minus (Some 6) o2)) by (destruct o2; cbn in *; [lra|exact I]).
  assert (Hcost : in_range 1 5 (row_mean [o3; o9])).
  { apply row_mean_range. repeat constructor; assumption. }
  assert (Hmt : in_range 1 5 (row_mean [o7; o10])).
  { apply row_mean_range. repeat constructor; assumption. }
  assert (Htrust : in_range 1 5 (minus (Some 6) (row_mean [o7; o10]))).
  { destruct (row_mean [o7; o10]); cbn in *; [lra|exact I]. }
  assert (Hben : in_range 1.5 5 (half (plus (minus (Some 6) o4) (minus (Some 6) o12)))).
  { destruct o4, o12; cbn in *; try exact I.
    split; [apply Qle_shift_div_l|apply Qle_shift_div_r]; lra. }
  assert (Hben' : in_range 1 5 (half (plus (minus (Some 6) o4) (minus (Some 6) o12)))).
  { destruct (half _); cbn in *; [lra|exact I]. }
  repeat (split; [assumption|]).
  split.
  - apply row_mean_range. repeat constructor; assumption.
  - destruct (half (plus (minus (Some 6) o4) (minus (Some 6) o12))) as [b|];
      destruct (row_mean [o3; o9]) as [c|];
      destruct (minus (Some 6) o5) as [d|]; destruct (minus (Some 6) o8) as [s|];
      destruct (minus (Some 6) o2) as [h|]; cbn in *; try exact I. lra.
Qed.


Lemma two_respondents_table : table 2 two_respondents.
Proof. unfold table. apply (bool_decide_unpack _). vm_compute. exact I. Qed.

Lemma two_respondents_questions :
  forall c, In c question_columns -> is_Some (two_respondents !! c).
Proof.
  intros c Hc. cbn in Hc.
  repeat (destruct Hc as [<-|Hc]; [vm_compute; eauto|]). destruct Hc.
Qed.

Lemma two_respondents_ranges :
  forall i c, In c question_columns -> in_range 1 5 (cell two_respondents c i).
Proof.
  intros i c Hc. cbn in Hc.
  repeat (destruct Hc as [<-|Hc];
          [destruct i as [|[|i]]; vm_compute; first [exact I | split; discriminate]|]).
  destruct Hc.
Qed.

Lemma two_respondents_impact :
  forall i, in_range 1 4 (cell two_respondents "q4_perceived_impact" i).
Proof.
  intros i. destruct i as [|[|i]]; vm_compute; first [exact I | split; discriminate].
Qed.

Lemma composite_scores_idempotent_witness :
  table 2 two_respondents /\
  (forall c, In c question_columns -> is_Some (two_respondents !! c)) /\
  exists out,
    VoterSurveyAnalysis.create_composite_scores two_respondents = ok out /\
    HypothesisTester.create_composite_scores out = ok out /\
    table 2 out.
Proof.
  split; [exact two_respondents_table|]. split; [exact two_respondents_questions|].
  destruct (composite_scores_idempotent 2 two_respondents two_respondents_table
              two_respondents_questions) as (out & E1 & _ & _ & E2 & Ht & _).
  exists out. split; [exact E1|]. split; [exact E2|exact Ht].
Defined.

Lemma composite_score_ranges_witness :
  table 2 two_respondents /\
  (forall c, In c question_columns -> is_Some (two_respondents !! c)) /\
  (forall i c, In c question_columns -> in_range 1 5 (cell two_respondents c i)) /\
  (forall i, in_range 1 4 (cell two_respondents "q4_perceived_impact" i)) /\
  exists out,
    VoterSurveyAnalysis.create_composite_scores two_respondents = ok out /\
    in_range 0.2 4.1 (cell out "voting_utility" 0).
Proof.
  split; [exact two_respondents_table|]. split; [exact two_respondents_questions|].
  split; [exact two_respondents_ranges|]. split; [exact two_respondents_impact|].
  destruct (composite_score_ranges 2 two_respondents two_respondents_table
              two_respondents_questions two_respondents_ranges two_respondents_impact)
    as (out & E & H).
  exists out. split; [exact E|].
  destruct (H 0%nat ltac:(lia)) as (_ & _ & _ & _ & _ & _ & _ & Hu). exact Hu.
Defined.

End ScoreTheorems.

(** ** hypothesis_testing.py: the reported p-value *)

Module HypothesisTestTheorems.

Import Survey HypothesisTests CorrTheorems Samples Runs.
Local Open Scope Q_scope.

Section Tests.
Variable pearsonr : list Q -> list Q -> Q * Q.

Lemma or_else_one (x : option Q) :
  ~ or_else x 1 == 0 /\
  (forall q, x = Some q -> ~ q == 0 -> or_else x 1 = q) /\
  (forall q, x = Some q -> q == 0 -> or_else x 1 = 1) /\
  (x = None -> or_else x 1 = 1).
Proof.
  unfold or_else. destruct x as [q|].
  - destruct (Qeq_bool q 0) eqn:E.
    + apply Qeq_bool_eq in E. split; [lra|]. split; [intros ? [= <-] H; contradiction|].
      split; [reflexivity|discriminate].
    + apply Qeq_bool_neq in E. split; [exact E|].
      split; [intros ? [= <-] _; reflexivity|].
      split; [intros ? [= <-] H; contradiction|discriminate].
  - split; [lra|]. split; [discriminate|]. split; [discriminate|reflexivity].
Qed.

(** X23. [test_competitiveness_hypothesis] never reports a p-value of
    zero: with fewer than ten complete pairs it reports r = 0 and p = 1,
    and with ten or more it reports the coefficient and the p-value of
    pearsonr, except that a p-value of exactly zero, the one of a perfect
    correlation, is reported as 1. *)
Theorem competitiveness_p_value (df : DataFrame) (s1 s2 : Series) :
  df !! "q12_competitiveness" = Some s1 -> df !! "voting_utility" = Some s2 ->
  let data := dropna2 s1 s2 in
  let r0 := fst (pearsonr (List.map fst data) (List.map snd data)) in
  let p0 := snd (pearsonr (List.map fst data) (List.map snd data)) in
  exists r p,
    test_competitiveness_hypothesis pearsonr df = ok (r, p) /\
    ~ p == 0 /\
    ((length data < 10)%nat -> r = 0 /\ p = 1) /\
    ((10 <= length data)%nat ->
       r == r0 /\ (p0 == 0 -> p = 1) /\ (~ p0 == 0 -> p = p0)).
Proof.
  intros H1 H2. cbn zeta. unfold test_competitiveness_hypothesis.
  rewrite (tester_safe_corr pearsonr df _ _ s1 s2 H1 H2).
  destruct (Nat.leb_spec 10 (length (dropna2 s1 s2))) as [Hn|Hn].
  - unfold reported.
    destruct (pearsonr _ _) as [r0 p0]. cbn [bind ok fst snd].
    eexists _, _. split; [reflexivity|].
    destruct (or_else_one (Some p0)) as (Hnz & Hkeep & Hone & _).
    split; [exact Hnz|]. split; [lia|]. intros _.
    split; [|split; [intros Hz; now apply (Hone p0)|intros Hz; now apply (Hkeep p0)]].
    unfold or_else. destruct (Qeq_bool r0 0) eqn:E; [|reflexivity].
    apply Qeq_bool_eq in E. now rewrite E.
  - unfold insufficient. cbn [bind ok]. exists 0, 1.
    split; [reflexivity|]. split; [lra|]. split; [tauto|lia].
Qed.

End Tests.

Lemma competitive_answers : competitive !! "q12_competitiveness" = Some ten_scores.
Proof. apply lookup_insert_eq. Qed.

Lemma competitive_utilities : competitive !! "voting_utility" = Some ten_utilities.
Proof. vm_compute. reflexivity. Qed.

Lemma competitiveness_p_value_witness :
  competitive !! "q12_competitiveness" = Some ten_scores /\
  competitive !! "voting_utility" = Some ten_utilities /\
  exists r p,
    test_competitiveness_hypothesis perfect_fit competitive = ok (r, p) /\
    ~ p == 0 /\
    ((10 <= length (dropna2 ten_scores ten_utilities))%nat -> p = 1).
Proof.
  split; [exact competitive_answers|]. split; [exact competitive_utilities|].
  destruct (competitiveness_p_value perfect_fit competitive ten_scores ten_utilities
              competitive_answers competitive_utilities) as (r & p & E & Hnz & _ & Hten).
  exists r, p. split; [exact E|]. split; [exact Hnz|].
  intros H. destruct (Hten H) as (_ & Hz & _). apply Hz. reflexivity.
Defined.

End HypothesisTestTheorems.

(** ** clean_data.py: the other cleaning steps *)

Module CleaningTheorems.

Import PyFacts VoterSurveyDataCleaner CleaningSteps CleanerTheorems Samples Runs.
Local Open Scope Q_scope.

Lemma required_first (d : frame) (n : nat) (ss : list (list cell)) :
  table n d -> Forall2 (fun c s => d !! c = Some s) required_cols ss ->
  exists s ss', ss = s :: ss' /\ length s = n.
Proof.
  intros Htab Hall. inversion Hall as [|c s cols ss' Hc Hrest Ec Es].
  exists s, ss'. split; [reflexivity|]. exact (Htab _ _ Hc).
Qed.

(** Row [i] of the count over the selected columns. *)
Lemma count_isna_row (d : frame) (n i : nat) (cols : list string) (ss : list (list cell)) :
  table n d -> (i < n)%nat ->
  Forall2 (fun c s => d !! c = Some s) cols ss ->
  length (List.filter (fun s : list bool => default false (s !! i))
                      (List.map (List.map isna) ss))
  = length (List.filter (fun c => match at_ d c i with
                                  | Some x => isna x
                                  | None => false
                                  end) cols).
Proof.
  intros Htab Hi Hall. induction Hall as [|c s cols ss Hc Hall IH]; [reflexivity|].
  assert (Hcell : match at_ d c i with Some x => isna x | None => false end
                  = default false (List.map isna s !! i)).
  { unfold at_. rewrite Hc, list_lookup_fmap.
    pose proof (Htab _ _ Hc) as Hlen. cbv beta in Hlen.
    destruct (s !! i) as [x|] eqn:E; [reflexivity|apply lookup_ge_None in E; lia]. }
  cbn [List.map List.filter]. rewrite Hcell.
  destruct (default false (List.map isna s !! i)); cbn [length]; now rewrite IH.
Qed.

Lemma missing_in_le (d : frame) (i : nat) : (missing_in d i <= 13)%nat.
Proof.
  unfold missing_in.
  etransitivity; [apply List.filter_length_le|]. reflexivity.
Qed.

Lemma forallb_filter_length {A : Type} (f : A -> bool) (l : list A) :
  forallb f l = true <-> length (List.filter f l) = length l.
Proof.
  induction l as [|x l IH]; [cbn; tauto|].
  cbn [forallb List.filter]. destruct (f x); cbn [andb length].
  - rewrite IH. split; [congruence|intros H; now injection H].
  - pose proof (List.filter_length_le f l). split; [discriminate|lia].
Qed.

Lemma all_missing_count (d : frame) (i : nat) :
  all_missing d i = true <-> missing_in d i = 13%nat.
Proof. unfold all_missing, missing_in. apply forallb_filter_length. Qed.

Lemma sum_axis1_row (d : frame) (n i : nat) (ss : list (list cell)) :
  table n d -> (i < n)%nat ->
  Forall2 (fun c s => d !! c = Some s) required_cols ss ->
  length (sum_axis1 (List.map (List.map isna) ss)) = n /\
  sum_axis1 (List.map (List.map isna) ss) !! i = Some (missing_in d i).
Proof.
  intros Htab Hi Hall.
  destruct (required_first d n ss Htab Hall) as (s & ss' & -> & Hlen).
  unfold sum_axis1. cbn [List.map]. rewrite !length_map, length_seq.
  split; [exact Hlen|].
  rewrite list_lookup_fmap, lookup_seq_lt by lia. cbn [fmap option_fmap option_map].
  f_equal. apply (count_isna_row d n i required_cols (s :: ss') Htab Hi Hall).
Qed.

(** The labels say what the completeness rate is. *)
Lemma labels_match_rates (m : nat) :
  (m <= 13)%nat ->
  (categorize_quality m = "Complete" <-> rate m == 100) /\
  (categorize_quality m = "Mostly Complete (>75%)" <-> 75 < rate m /\ rate m < 100) /\
  (categorize_quality m = "Partial (50-75%)" <-> 50 < rate m /\ rate m <= 75) /\
  (categorize_quality m = "Minimal (<50%)" <-> rate m < 50).
Proof.
  intros Hm.
  do 14 (destruct m as [|m]; [vm_compute; repeat split; intros; try discriminate;
                              try tauto; try reflexivity;
                              repeat match goal with H : _ /\ _ |- _ => destruct H end;
                              try discriminate; try congruence|]).
  lia.
Qed.

(** X25. [assess_completeness] on a table with the thirteen question
    columns adds four columns and changes no other.  Row by row, with m
    the number of unanswered questions (at most 13): missing_count is m,
    completeness_rate is (13 - m) / 13 * 100, is_complete says m = 0, and
    response_quality is the label of the rate: Complete exactly at 100,
    Mostly Complete strictly between 75 and 100, Partial above 50 up to
    75, Minimal below 50.  A row with nothing answered is Minimal. *)
Theorem assess_completeness_labels (n : nat) (d : frame) :
  table n d ->
  (forall c, In c required_cols -> is_Some (d !! c)) ->
  exists d',
    assess_completeness d = ok d' /\
    table n d' /\
    (forall c, ~ In c ["missing_count"; "completeness_rate"; "is_complete";
                       "response_quality"] -> d' !! c = d !! c) /\
    forall i, (i < n)%nat ->
      let m := missing_in d i in
      (m <= 13)%nat /\
      at_ d' "missing_count" i = Some (Num (inject_Z (Z.of_nat m))) /\
      at_ d' "completeness_rate" i = Some (Num (rate m)) /\
      at_ d' "is_complete" i = Some (Flag (m =? 0)%nat) /\
      at_ d' "response_quality" i = Some (Str (categorize_quality m)) /\
      (categorize_quality m = "Complete" <-> rate m == 100) /\
      (categorize_quality m = "Mostly Complete (>75%)" <-> 75 < rate m /\ rate m < 100) /\
      (categorize_quality m = "Partial (50-75%)" <-> 50 < rate m /\ rate m <= 75) /\
      (categorize_quality m = "Minimal (<50%)" <-> rate m < 50) /\
      (all_missing d i = true -> categorize_quality m = "Minimal (<50%)").
Proof.
  intros Htab Hreq.
  destruct (select_ok d required_cols Hreq) as (ss & Hsel & Hall).
  unfold assess_completeness. rewrite Hsel. cbn [bind ok].
  set (missing := sum_axis1 (List.map (List.map isna) ss)).
  assert (Hlen : length missing = n).
  { destruct (required_first d n ss Htab Hall) as (s & ss' & -> & Hl).
    unfold missing, sum_axis1. cbn [List.map]. now rewrite !length_map, length_seq. }
  eexists. split; [reflexivity|]. split; [|split].
  - unfold table. repeat (apply map_Forall_insert_2; [cbv beta; now rewrite length_map|]).
    exact Htab.
  - intros c Hc. rewrite !lookup_insert_ne; [reflexivity|..]; intros <-; apply Hc; cbn; tauto.
  - intros i Hi. cbn zeta.
    destruct (sum_axis1_row d n i ss Htab Hi Hall) as [_ Hrow]. fold missing in Hrow.
    pose proof (missing_in_le d i) as Hle.
    split; [exact Hle|].
    do 4 (split; [unfold at_;
                  repeat first [ rewrite lookup_insert_eq
                               | rewrite lookup_insert_ne by discriminate ];
                  rewrite list_lookup_fmap, Hrow; reflexivity|]).
    destruct (labels_match_rates _ Hle) as (L1 & L2 & L3 & L4).
    split; [exact L1|]. split; [exact L2|]. split; [exact L3|]. split; [exact L4|].
    intros Hall'. apply all_missing_count in Hall'. rewrite Hall'. reflexivity.
Qed.

Lemma same_answers_row (d : frame) (n i j : nat) (cols : list string)
    (ss : list (list cell)) :
  table n d -> (i < n)%nat -> (j < n)%nat ->
  Forall2 (fun c s => d !! c = Some s) cols ss ->
  same_answers ss j i
  = forallb (fun c => match at_ d c j, at_ d c i with
                      | Some x, Some y => same_value x y
                      | _, _ => false
                      end) cols.
Proof.
  intros Htab Hi Hj Hall. unfold same_answers.
  induction Hall as [|c s cols ss Hc Hall IH]; [reflexivity|].
  cbn [forallb]. rewrite IH. f_equal. unfold at_. rewrite Hc.
  pose proof (Htab _ _ Hc) as Hlen. cbv beta in Hlen.
  destruct (s !! j) as [x|] eqn:Ej; [|apply lookup_ge_None in Ej; lia].
  destruct (s !! i) as [y|] eqn:Ei; [|apply lookup_ge_None in Ei; lia].
  reflexivity.
Qed.

Lemma existsb_agree {A : Type} (f g : A -> bool) (l : list A) :
  (forall x, In x l -> f x = g x) -> existsb f l = existsb g l.
Proof.
  induction l as [|x l IH]; intros H; [reflexivity|].
  cbn [existsb]. rewrite (H x (or_introl eq_refl)), IH; [reflexivity|].
  intros y Hy. apply H. now right.
Qed.

Lemma no_true_replicate (mask : list bool) :
  (0 <? count_true mask)%Z = false -> replicate (length mask) (Flag false) = List.map Flag mask.
Proof.
  unfold count_true. intros H. apply Z.ltb_ge in H.
  induction mask as [|b mask IH]; [reflexivity|].
  cbn [List.filter] in H. destruct b; cbn [length] in H; [lia|].
  cbn [length replicate List.map]. f_equal. apply IH. exact H.
Qed.

(** X26. [detect_duplicates] writes is_duplicate and changes no other
    column: a row is flagged exactly when an earlier row gives the same
    answers to the thirteen questions (missing answers counting as equal),
    so the first row of a table is never flagged. *)
Theorem detect_duplicates_flags (n : nat) (d : frame) :
  table n d ->
  (forall c, In c required_cols -> is_Some (d !! c)) ->
  exists d' mask,
    detect_duplicates d = ok d' /\
    d' !! "is_duplicate" = Some (List.map Flag mask) /\
    length mask = n /\
    (forall i, (i < n)%nat ->
       (mask !! i = Some true <-> exists j, (j < i)%nat /\ same_row d j i = true) /\
       (mask !! i = Some false <-> forall j, (j < i)%nat -> same_row d j i = false)) /\
    mask !! 0%nat <> Some true /\
    (forall c, c <> "is_duplicate" -> d' !! c = d !! c).
Proof.
  intros Htab Hreq.
  destruct (select_ok d required_cols Hreq) as (ss & Hsel & Hall).
  destruct (required_first d n ss Htab Hall) as (s & ss' & -> & Hlen).
  set (mask := duplicated (s :: ss')).
  assert (Hmask : length mask = n).
  { unfold mask, duplicated. now rewrite length_map, length_seq. }
  assert (Hrow : forall i, (i < n)%nat ->
            mask !! i = Some (existsb (fun j => same_row d j i) (seq 0 i))).
  { intros i Hi. unfold mask, duplicated.
    rewrite list_lookup_fmap, lookup_seq_lt by lia. cbn [fmap option_fmap option_map].
    f_equal. apply existsb_agree. intros j Hj. apply in_seq in Hj.
    apply (same_answers_row d n i j required_cols (s :: ss') Htab Hi); [lia|exact Hall]. }
  assert (Hd : exists d', detect_duplicates d = ok d' /\
                          d' = <["is_duplicate" := List.map Flag mask]> d).
  { unfold detect_duplicates. rewrite Hsel. cbn [bind ok]. fold mask.
    destruct (0 <? count_true mask)%Z eqn:E; [eauto|].
    rewrite (no_true_replicate mask E). eauto. }
  destruct Hd as (d' & Ed & ->).
  exists (<["is_duplicate" := List.map Flag mask]> d), mask.
  split; [exact Ed|]. split; [apply lookup_insert_eq|]. split; [exact Hmask|].
  split; [|split].
  - intros i Hi. rewrite (Hrow i Hi). split.
    + split.
      * intros H. injection H as H. apply existsb_exists in H.
        destruct H as (j & Hj & Hs). apply in_seq in Hj. exists j. split; [lia|exact Hs].
      * intros (j & Hj & Hs). f_equal. apply existsb_exists. exists j.
        split; [apply in_seq; lia|exact Hs].
    + split.
      * intros H j Hj. injection H as H.
        destruct (same_row d j i) eqn:Es; [|reflexivity].
        assert (Hex : existsb (fun j => same_row d j i) (seq 0 i) = true).
        { apply existsb_exists. exists j. split; [apply in_seq; lia|exact Es]. }
        congruence.
      * intros H. f_equal. apply not_true_is_false. intros Hex.
        apply existsb_exists in Hex. destruct Hex as (j & Hj & Hs). apply in_seq in Hj.
        rewrite H in Hs by lia. discriminate Hs.
  - destruct n as [|n].
    + intros H. apply lookup_lt_Some in H. lia.
    + rewrite (Hrow 0%nat) by lia. cbn. discriminate.
  - intros c Hc. apply lookup_insert_ne. congruence.
Qed.

(** ** check_value_ranges *)











(** ** The removal flag, the completeness label and the quality flags *)

Lemma all_isna_forallb (d : frame) (n i : nat) (cols : list string) (ss : list (list cell)) :
  table n d -> (i < n)%nat ->
  Forall2 (fun c s => d !! c = Some s) cols ss ->
  forallb (fun s : list bool => default false (s !! i)) (List.map (List.map isna) ss)
  = forallb (fun c => match at_ d c i with
                      | Some x => isna x
                      | None => false
                      end) cols.
Proof.
  intros Htab Hi Hall. induction Hall as [|c s cols ss Hc Hall IH]; [reflexivity|].
  cbn [List.map forallb]. rewrite IH. f_equal.
  unfold at_. rewrite Hc, list_lookup_fmap.
  pose proof (Htab _ _ Hc) as Hlen. cbv beta in Hlen.
  destruct (s !! i) as [x|] eqn:E; [reflexivity|apply lookup_ge_None in E; lia].
Qed.

(** The table [identify_removals] leaves. *)
Lemma removal_column (n : nat) (self : Cleaner) :
  table n (df self) ->
  (forall c, In c required_cols -> is_Some (df self !! c)) ->
  exists self' flags,
    identify_removals self = ok self' /\
    df self' = <["recommended_for_removal" := List.map Flag flags]> (df self) /\
    length flags = n /\
    forall i, (i < n)%nat -> flags !! i = Some (all_missing (df self) i).
Proof.
  intros Htab Hreq.
  destruct (select_ok (df self) required_cols Hreq) as (ss & Hsel & Hall).
  destruct (required_first (df self) n ss Htab Hall) as (s & ss' & -> & Hlen).
  unfold identify_removals. rewrite Hsel. cbn [bind ok].
  eexists _, _. split; [reflexivity|]. cbn [df]. split; [reflexivity|]. split.
  - unfold all_axis1. cbn [List.map]. now rewrite !length_map, length_seq.
  - intros i Hi. unfold all_axis1. cbn [List.map].
    rewrite list_lookup_fmap, length_map, lookup_seq_lt by lia.
    cbn [fmap option_fmap option_map]. f_equal.
    apply (all_isna_forallb (df self) n i required_cols (s :: ss') Htab Hi Hall).
Qed.

Lemma flags_of_booleans (b1 b2 b3 b4 b5 b6 : bool) :
  let flags := ((if b1 then ["REMOVE"] else [])
                ++ (if b2 then ["DUPLICATE"] else [])
                ++ (if b3 then ["STRAIGHTLINING"] else [])
                ++ (if b4 then ["FAST_RESPONSE"] else [])
                ++ (if b5 then ["NO_DEMOGRAPHICS"] else [])
                ++ (if b6 then ["LOW_COMPLETION"] else []))%list in
  (In "REMOVE" flags <-> b1 = true) /\
  (In "LOW_COMPLETION" flags <-> b6 = true) /\
  (quality_flag flags = "CLEAN" <-> flags = []).
Proof.
  destruct b1, b2, b3, b4, b5, b6; cbn; repeat split; intros H;
    try discriminate H; try reflexivity; try tauto;
    repeat (destruct H as [H|H]; [discriminate H|]); try destruct H.
Qed.

Lemma forallb_agree {A : Type} (f g : A -> bool) (l : list A) :
  (forall x, In x l -> f x = g x) -> forallb f l = forallb g l.
Proof.
  induction l as [|x l IH]; intros H; [reflexivity|].
  cbn [forallb]. rewrite (H x (or_introl eq_refl)), IH; [reflexivity|].
  intros y Hy. apply H. now right.
Qed.

Lemma required_not_written (c : string) :
  In c required_cols ->
  c <> "missing_count" /\ c <> "completeness_rate" /\ c <> "is_complete" /\
  c <> "response_quality" /\ c <> "recommended_for_removal".
Proof.
  intros H. cbn in H.
  repeat (destruct H as [<-|H]; [repeat split; discriminate|]). destruct H.
Qed.

(** X27. The quality flags after [assess_completeness] and
    [identify_removals]: a row carries REMOVE exactly when none of the
    thirteen questions is answered, and LOW_COMPLETION exactly when seven
    or more are unanswered, so every row flagged REMOVE is also flagged
    LOW_COMPLETION.  The column reads CLEAN exactly for a row with no
    flag. *)
Theorem removed_rows_are_low_completion (n : nat) (d : frame) (report : gmap string json) :
  table n d ->
  (forall c, In c required_cols -> is_Some (d !! c)) ->
  is_Some (d !! "missing_all_demographics") ->
  exists d1 self2 d3,
    assess_completeness d = ok d1 /\
    identify_removals (mkCleaner d1 report) = ok self2 /\
    create_quality_flags n (df self2) = ok d3 /\
    forall i, (i < n)%nat ->
      exists flags,
        row_flags (df self2) i = ok flags /\
        at_ d3 "quality_flags" i = Some (Str (quality_flag flags)) /\
        (In "REMOVE" flags <-> all_missing d i = true) /\
        (In "LOW_COMPLETION" flags <-> (7 <= missing_in d i)%nat) /\
        (In "REMOVE" flags -> In "LOW_COMPLETION" flags) /\
        (quality_flag flags = "CLEAN" <-> flags = []).
Proof.
  intros Htab Hreq [demo Hdemo].
  destruct (select_ok d required_cols Hreq) as (ss & Hsel & Hall).
  assert (E1 : exists d1, assess_completeness d = ok d1 /\
            d1 = <["response_quality" :=
                     List.map (fun m => Str (categorize_quality m))
                              (sum_axis1 (List.map (List.map isna) ss))]>
                 (<["is_complete" :=
                     List.map (fun m => Flag (m =? 0)%nat)
                              (sum_axis1 (List.map (List.map isna) ss))]>
                  (<["completeness_rate" :=
                      List.map (fun m => Num (rate m))
                               (sum_axis1 (List.map (List.map isna) ss))]>
                   (<["missing_count" :=
                       List.map count_cell (sum_axis1 (List.map (List.map isna) ss))]> d)))).
  { unfold assess_completeness. rewrite Hsel. cbn [bind ok]. eauto. }
  destruct E1 as (d1 & E1 & Hd1).
  set (missing := sum_axis1 (List.map (List.map isna) ss)) in *.
  assert (Hmlen : length missing = n).
  { destruct (required_first d n ss Htab Hall) as (s & ss' & -> & Hl).
    unfold missing, sum_axis1. cbn [List.map]. now rewrite !length_map, length_seq. }
  assert (Hsame : forall c, In c required_cols -> d1 !! c = d !! c).
  { intros c Hc. destruct (required_not_written c Hc) as (N1 & N2 & N3 & N4 & _).
    rewrite Hd1. now rewrite !lookup_insert_ne by congruence. }
  assert (Htab1 : table n d1).
  { rewrite Hd1. unfold table.
    repeat (apply map_Forall_insert_2; [cbv beta; now rewrite length_map|]). exact Htab. }
  assert (Hreq1 : forall c, In c required_cols -> is_Some (d1 !! c)).
  { intros c Hc. rewrite (Hsame c Hc). now apply Hreq. }
  destruct (removal_column n (mkCleaner d1 report) Htab1 Hreq1)
    as (self2 & flags & E2 & Hd2 & Hflen & Hflags).
  cbn [df] in Hd2, Hflags.
  assert (Hall1 : forall i, all_missing d1 i = all_missing d i).
  { intros i. unfold all_missing. apply forallb_agree. intros c Hc.
    unfold at_. now rewrite (Hsame c Hc). }
  assert (Hrows : forall i, (i < n)%nat ->
            exists fl, row_flags (df self2) i = ok fl /\
              (In "REMOVE" fl <-> all_missing d i = true) /\
              (In "LOW_COMPLETION" fl <-> (7 <= missing_in d i)%nat) /\
              (quality_flag fl = "CLEAN" <-> fl = [])).
  { intros i Hi.
    destruct (sum_axis1_row d n i ss Htab Hi Hall) as [_ Hrow]. fold missing in Hrow.
    unfold row_flags, row_item. rewrite Hd2, Hd1.
    rewrite lookup_insert_eq.
    rewrite (lookup_insert_ne _ "recommended_for_removal" "missing_all_demographics")
      by discriminate.
    rewrite (lookup_insert_ne _ "response_quality" "missing_all_demographics")
      by discriminate.
    rewrite (lookup_insert_ne _ "is_complete" "missing_all_demographics") by discriminate.
    rewrite (lookup_insert_ne _ "completeness_rate" "missing_all_demographics")
      by discriminate.
    rewrite (lookup_insert_ne _ "missing_count" "missing_all_demographics") by discriminate.
    rewrite Hdemo.
    rewrite (lookup_insert_ne _ "recommended_for_removal" "response_quality")
      by discriminate.
    rewrite lookup_insert_eq.
    cbn [bind ok]. eexists. split; [reflexivity|].
    rewrite !list_lookup_fmap, Hrow, (Hflags i Hi), Hall1.
    cbn [fmap option_fmap option_map default truthy is_str].
    match goal with
    | |- context [(?l1 ++ (if ?b2 then _ else _) ++ (if ?b3 then _ else _)
                   ++ (if ?b4 then _ else _) ++ (if ?b5 then _ else _) ++ _)%list] =>
        pose proof (flags_of_booleans (all_missing d i) b2 b3 b4 b5
                      (String.eqb (categorize_quality (missing_in d i)) "Minimal (<50%)"))
          as Hb
    end.
    cbv zeta in Hb. destruct Hb as (Hb1 & Hb6 & Hbc).
    split; [exact Hb1|]. split; [|exact Hbc].
    rewrite Hb6. pose proof (missing_in_le d i) as Hle.
    generalize dependent (missing_in d i). intros m _ _ _ Hm.
    do 14 (destruct m as [|m]; [vm_compute; split; intros H; try discriminate H;
                                 try reflexivity; lia|]).
    lia. }
  assert (E3 : forall rows : list nat, (forall i, In i rows -> (i < n)%nat) ->
            exists cells, quality_flags (df self2) rows = ok cells /\
              length cells = length rows /\
              forall j i, rows !! j = Some i ->
                exists fl, row_flags (df self2) i = ok fl /\
                           cells !! j = Some (Str (quality_flag fl))).
  { intros rows. induction rows as [|i rows IH]; intros Hin.
    - exists []. repeat split. intros j i H. discriminate H.
    - destruct (Hrows i (Hin i (or_introl eq_refl))) as (fl & Efl & _).
      destruct IH as (cells & Ec & Hl & Hcells); [intros k Hk; apply Hin; now right|].
      exists (Str (quality_flag fl) :: cells). cbn [quality_flags]. rewrite Efl, Ec.
      split; [reflexivity|]. split; [cbn; now rewrite Hl|].
      intros [|j] k Hk; cbn in Hk |- *; [injection Hk as <-; eauto|now apply Hcells]. }
  destruct (E3 (seq 0 n)) as (cells & Ec & Hl & Hcells).
  { intros i Hi. apply in_seq in Hi. lia. }
  exists d1, self2, (<["quality_flags" := cells]> (df self2)).
  split; [exact E1|]. split; [exact E2|].
  split; [unfold create_quality_flags; now rewrite Ec|].
  intros i Hi. destruct (Hrows i Hi) as (fl & Efl & Hr & Hlow & Hclean).
  exists fl. split; [exact Efl|]. split.
  - unfold at_. rewrite lookup_insert_eq.
    destruct (Hcells i i) as (fl' & Efl' & Hc); [now apply lookup_seq_lt|].
    rewrite Efl in Efl'. injection Efl' as <-. exact Hc.
  - split; [exact Hr|]. split; [exact Hlow|]. split; [|exact Hclean].
    intros H. apply Hlow. apply Hr in H. apply all_missing_count in H. lia.
Qed.

(** ** save_cleaned_data *)

Lemma negate_all_flags (flags : list bool) :
  negate_all (List.map Flag flags) = ok (List.map negb flags).
Proof.
  induction flags as [|b flags IH]; [reflexivity|].
  cbn [List.map negate_all negate]. rewrite IH. reflexivity.
Qed.

Lemma length_keep_rows {A : Type} (mask : list bool) : forall s : list A,
  length mask = length s ->
  length (keep_rows mask s) = length (List.filter (fun b : bool => b) mask).
Proof.
  unfold keep_rows. induction mask as [|b mask IH]; intros [|x s] H; try discriminate H;
    [reflexivity|].
  cbn [zip zip_with List.filter fst]. injection H as H. specialize (IH s H).
  destruct b; cbn [List.map length]; now rewrite IH.
Qed.

Lemma keep_rows_elem {A : Type} (mask : list bool) : forall (s : list A) (i : nat) (x : A),
  mask !! i = Some true -> s !! i = Some x -> In x (keep_rows mask s).
Proof.
  unfold keep_rows. induction mask as [|b mask IH]; intros [|y s] i x Hm Hs;
    try discriminate Hm; try discriminate Hs.
  cbn [zip zip_with List.filter fst]. destruct i as [|i]; cbn in Hm, Hs.
  - injection Hm as ->. injection Hs as ->. now left.
  - destruct b; [right|]; now apply (IH s i x).
Qed.

(** X28. [save_cleaned_data] after [identify_removals]: the saved table
    has no time_diff_seconds column; with remove_flagged it keeps, in
    every column, exactly the rows in which some question is answered, so
    every cell of such a row is still there; without remove_flagged it
    keeps all rows. *)
Theorem saved_rows (n : nat) (self : Cleaner) :
  table n (df self) ->
  (forall c, In c required_cols -> is_Some (df self !! c)) ->
  exists self' out,
    identify_removals self = ok self' /\
    save_cleaned_data (df self') true = ok out /\
    save_cleaned_data (df self') false = ok (delete "time_diff_seconds" (df self')) /\
    let keep := List.map (fun i => negb (all_missing (df self) i)) (seq 0 n) in
    out !! "time_diff_seconds" = None /\
    (forall c s, c <> "time_diff_seconds" -> df self' !! c = Some s ->
       out !! c = Some (keep_rows keep s)) /\
    table (length (List.filter (fun b : bool => b) keep)) out /\
    (forall c s i x, c <> "time_diff_seconds" -> df self !! c = Some s ->
       c <> "recommended_for_removal" ->
       (i < n)%nat -> all_missing (df self) i = false -> s !! i = Some x ->
       exists kept, out !! c = Some kept /\ In x kept).
Proof.
  intros Htab Hreq.
  destruct (removal_column n self Htab Hreq) as (self' & flags & E & Hd & Hlen & Hflags).
  exists self'.
  assert (Hf : flags = List.map (all_missing (df self)) (seq 0 n)).
  { apply list_eq. intros i. rewrite list_lookup_fmap.
    destruct (decide (i < n)%nat) as [Hi|Hi].
    - rewrite (Hflags i Hi), lookup_seq_lt by exact Hi. reflexivity.
    - rewrite lookup_seq_ge by lia.
      apply lookup_ge_None. lia. }
  assert (Hkeep : List.map negb flags
                  = List.map (fun i => negb (all_missing (df self) i)) (seq 0 n)).
  { rewrite Hf, List.map_map. reflexivity. }
  set (keep := List.map (fun i => negb (all_missing (df self) i)) (seq 0 n)) in *.
  assert (Hklen : length keep = n) by (unfold keep; now rewrite length_map, length_seq).
  assert (Htab' : table n (df self')).
  { rewrite Hd. apply map_Forall_insert_2; [cbv beta; now rewrite length_map|exact Htab]. }
  exists (delete "time_diff_seconds" (keep_rows keep <$> df self')).
  split; [exact E|]. split.
  { unfold save_cleaned_data. rewrite Hd at 1. rewrite lookup_insert_eq.
    rewrite negate_all_flags, Hkeep. reflexivity. }
  split; [reflexivity|]. cbv zeta.
  split; [apply lookup_delete_eq|]. split; [|split].
  - intros c s Hc Hs. rewrite lookup_delete_ne by congruence.
    rewrite lookup_fmap, Hs. reflexivity.
  - unfold table. apply map_Forall_delete. intros c s Hs.
    rewrite lookup_fmap in Hs. destruct (df self' !! c) as [s0|] eqn:E0; [|discriminate Hs].
    cbn in Hs. injection Hs as <-. cbv beta. apply length_keep_rows.
    rewrite Hklen. symmetry. exact (Htab' _ _ E0).
  - intros c s i x Hc Hs Hr Hi Ha Hx. exists (keep_rows keep s). split.
    + rewrite lookup_delete_ne by congruence. rewrite lookup_fmap, Hd.
      rewrite lookup_insert_ne by congruence. now rewrite Hs.
    + apply (keep_rows_elem keep s i x); [|exact Hx].
      unfold keep. rewrite list_lookup_fmap, lookup_seq_lt by exact Hi.
      cbn [fmap option_fmap option_map Nat.add]. now rewrite Ha.
Qed.


Lemma three_rows_table : table 3 three_rows.
Proof. unfold table. apply (bool_decide_unpack _). vm_compute. exact I. Qed.

Lemma three_rows_required :
  forall c, In c required_cols -> is_Some (three_rows !! c).
Proof.
  intros c Hc. cbn in Hc.
  repeat (destruct Hc as [<-|Hc]; [vm_compute; eauto|]). destruct Hc.
Qed.


Lemma three_rows_flagged_table : table 3 three_rows_flagged.
Proof. unfold table. apply (bool_decide_unpack _). vm_compute. exact I. Qed.

Lemma three_rows_flagged_required :
  forall c, In c required_cols -> is_Some (three_rows_flagged !! c).
Proof.
  intros c Hc. cbn in Hc.
  repeat (destruct Hc as [<-|Hc]; [vm_compute; eauto|]). destruct Hc.
Qed.


Lemma assess_completeness_labels_witness :
  table 3 three_rows /\
  (forall c, In c required_cols -> is_Some (three_rows !! c)) /\
  exists d',
    assess_completeness three_rows = ok d' /\
    table 3 d' /\
    at_ d' "response_quality" 0 = Some (Str (categorize_quality (missing_in three_rows 0))).
Proof.
  split; [exact three_rows_table|]. split; [exact three_rows_required|].
  destruct (assess_completeness_labels 3 three_rows three_rows_table three_rows_required)
    as (d' & E & Ht & _ & Hrows).
  exists d'. split; [exact E|]. split; [exact Ht|].
  destruct (Hrows 0%nat ltac:(lia)) as (_ & _ & _ & _ & Hq & _). exact Hq.
Defined.

Lemma detect_duplicates_flags_witness :
  table 3 three_rows /\
  (forall c, In c required_cols -> is_Some (three_rows !! c)) /\
  exists d' mask,
    detect_duplicates three_rows = ok d' /\
    d' !! "is_duplicate" = Some (List.map Flag mask) /\
    length mask = 3%nat /\
    mask !! 0%nat <> Some true.
Proof.
  split; [exact three_rows_table|]. split; [exact three_rows_required|].
  destruct (detect_duplicates_flags 3 three_rows three_rows_table three_rows_required)
    as (d' & mask & E & Hcol & Hlen & _ & Hfirst & _).
  exists d', mask. split; [exact E|]. split; [exact Hcol|]. split; [exact Hlen|exact Hfirst].
Defined.

Lemma removed_rows_are_low_completion_witness :
  table 3 three_rows_flagged /\
  (forall c, In c required_cols -> is_Some (three_rows_flagged !! c)) /\
  is_Some (three_rows_flagged !! "missing_all_demographics") /\
  exists d1 self2 d3,
    assess_completeness three_rows_flagged = ok d1 /\
    identify_removals (mkCleaner d1 ∅) = ok self2 /\
    create_quality_flags 3 (df self2) = ok d3 /\
    exists flags,
      row_flags (df self2) 0 = ok flags /\
      (In "REMOVE" flags -> In "LOW_COMPLETION" flags).
Proof.
  assert (Hdemo : is_Some (three_rows_flagged !! "missing_all_demographics")).
  { unfold three_rows_flagged. rewrite lookup_insert_eq. eauto. }
  split; [exact three_rows_flagged_table|]. split; [exact three_rows_flagged_required|].
  split; [exact Hdemo|].
  destruct (removed_rows_are_low_completion 3 three_rows_flagged ∅
              three_rows_flagged_table three_rows_flagged_required Hdemo)
    as (d1 & self2 & d3 & E1 & E2 & E3 & Hrows).
  exists d1, self2, d3. split; [exact E1|]. split; [exact E2|]. split; [exact E3|].
  destruct (Hrows 0%nat ltac:(lia)) as (flags & Ef & _ & _ & _ & Himp & _).
  exists flags. split; [exact Ef|exact Himp].
Defined.

Lemma saved_rows_witness :
  table 3 (df sample_cleaner) /\
  (forall c, In c required_cols -> is_Some (df sample_cleaner !! c)) /\
  exists self' out,
    identify_removals sample_cleaner = ok self' /\
    save_cleaned_data (df self') true = ok out /\
    out !! "time_diff_seconds" = None.
Proof.
  split; [exact three_rows_table|]. split; [exact three_rows_required|].
  destruct (saved_rows 3 sample_cleaner three_rows_table three_rows_required)
    as (self' & out & E1 & E2 & _ & Hnone & _).
  exists self', out. split; [exact E1|]. split; [exact E2|exact Hnone].
Defined.

End CleaningTheorems.
